(** * BrowserAI MCP adapter: task poller, instruction dispatcher,
      tool wrapper and session registry

    A shallow embedding of [utils.js] and of the two revisions of the
    server script that registers the tools.  The asynchronous JavaScript
    code is modelled as a state-and-exception monad over a [world] that
    holds the network oracle, the clock oracle, the mutable objects the
    closures capture, and the trace of observable effects.  The
    unbounded [while (true)] loop of the poller takes fuel. *)

From Stdlib Require Import ZArith String Ascii List Bool Lia.
From Stdlib Require Import Decimal DecimalString DecimalZ DecimalPos.
From stdpp Require Import base option list strings gmap.

Local Open Scope string_scope.
Local Open Scope Z_scope.

(* ================================================================== *)
(** * JavaScript values that travel as JSON *)
(* ================================================================== *)

(** A value produced by [response.json()].  Numbers are restricted to
    the integers, meant as those a JavaScript number holds exactly
    (below 2^53 in absolute value, where the decimal text is the plain
    one): the adapter never computes with payload numbers, it only
    stores, prints and compares them.  An object keeps its
    properties in order, as [JSON.stringify] prints them.  A property
    access that finds nothing yields [undefined], which is [None] of
    [option json] throughout. *)
#[warnings="-register-all"]
Inductive json : Type :=
| JNull
| JBool (b : bool)
| JNum (n : Z)
| JStr (s : string)
| JArr (items : list json)
| JObj (props : list (string * json)).

(** Decimal text of an integer, as template literals and
    [JSON.stringify] print it. *)
Definition string_of_Z (n : Z) : string :=
  NilZero.string_of_int (Z.to_int n).

(** [sep.join(parts)] *)
Fixpoint join (sep : string) (parts : list string) : string :=
  match parts with
  | [] => ""
  | [p] => p
  | p :: rest => p +:+ sep +:+ join sep rest
  end.

(** [obj[key]] on an object's own properties. *)
Fixpoint assoc (key : string) (props : list (string * json)) : option json :=
  match props with
  | [] => None
  | (k, v) :: rest => if String.eqb k key then Some v else assoc key rest
  end.

(** ToString of a value, as [`${v}`] computes it; [None] is the
    [TypeError] of a value that has no primitive form.  An array prints
    its elements separated by commas, [null] as nothing, and has no
    string when one of its elements has none.  An object parsed from
    JSON prints as the fixed tag through [Object.prototype.toString],
    unless it has an own property [toString]: that one is data, not a
    function, so neither it nor [valueOf] gives a primitive. *)
Fixpoint js_to_string (v : json) : option string :=
  match v with
  | JNull => Some "null"
  | JBool true => Some "true"
  | JBool false => Some "false"
  | JNum n => Some (string_of_Z n)
  | JStr s => Some s
  | JArr items =>
      option_map (join ",")
        ((fix elements (l : list json) : option (list string) :=
            match l with
            | [] => Some []
            | x :: rest =>
                match match x with
                      | JNull => Some ""
                      | _ => js_to_string x
                      end, elements rest with
                | Some s, Some ss => Some (s :: ss)
                | _, _ => None
                end
            end) items)
  | JObj props =>
      match assoc "toString" props with
      | Some _ => None
      | None => Some "[object Object]"
      end
  end.

(** [`${v}`] where [v] may be [undefined]. *)
Definition template (v : option json) : option string :=
  match v with
  | None => Some "undefined"
  | Some x => js_to_string x
  end.

(** ToBoolean: [if (v)]. *)
Definition truthy (v : option json) : bool :=
  match v with
  | None => false
  | Some JNull => false
  | Some (JBool b) => b
  | Some (JNum n) => negb (n =? 0)
  | Some (JStr s) => negb (String.eqb s "")
  | Some (JArr _) => true
  | Some (JObj _) => true
  end.

(** [v === s] for a string literal [s]; this is also the test that
    [[...].includes(v)] applies to each element. *)
Definition strict_eq_str (v : option json) (s : string) : bool :=
  match v with
  | Some (JStr t) => String.eqb t s
  | _ => false
  end.

(** [names.includes(v)] for an array of string literals. *)
Definition includes (names : list string) (v : option json) : bool :=
  existsb (strict_eq_str v) names.

(** [v == s] for a string literal [s] that is not the text of a number:
    a string compares by content, an array or object is first converted
    to its string, and the comparison throws when it has none ([None]);
    [null], [undefined], booleans and numbers are never equal to such a
    string. *)
Definition loose_eq_str (v : option json) (s : string) : option bool :=
  match v with
  | Some (JStr t) => Some (String.eqb t s)
  | Some (JArr items) => option_map (fun t => String.eqb t s) (js_to_string (JArr items))
  | Some (JObj props) => option_map (fun t => String.eqb t s) (js_to_string (JObj props))
  | _ => Some false
  end.

(** [JSON.stringify] drops the properties of an object literal whose
    value is [undefined]; [js_object] builds the object that is left. *)
Fixpoint js_object (fields : list (string * option json)) : list (string * json) :=
  match fields with
  | [] => []
  | (k, Some v) :: rest => (k, v) :: js_object rest
  | (_, None) :: rest => js_object rest
  end.

(** SameValueZero on values, the equality a [Map] applies to its keys
    (objects and arrays are compared by content here; the adapter only
    ever uses identifiers, which are strings). *)
Fixpoint json_eqb (a b : json) : bool :=
  match a, b with
  | JNull, JNull => true
  | JBool x, JBool y => Bool.eqb x y
  | JNum x, JNum y => (x =? y)
  | JStr x, JStr y => String.eqb x y
  | JArr xs, JArr ys =>
      (fix items (xs ys : list json) : bool :=
         match xs, ys with
         | [], [] => true
         | x :: xs', y :: ys' => json_eqb x y && items xs' ys'
         | _, _ => false
         end) xs ys
  | JObj xs, JObj ys =>
      (fix props (xs ys : list (string * json)) : bool :=
         match xs, ys with
         | [], [] => true
         | (k, x) :: xs', (l, y) :: ys' =>
             String.eqb k l && json_eqb x y && props xs' ys'
         | _, _ => false
         end) xs ys
  | _, _ => false
  end.

(* ================================================================== *)
(** * The runtime: promises, errors, network, clock, log *)
(* ================================================================== *)

(** What the adapter reads off a [Response]: the status line, and how
    the two body readers settle.  [None] is a rejected promise: for
    [json()] a body that is not JSON, for [text()] a body that cannot
    be read. *)
Record response : Type := mkResponse {
  resp_status : Z;
  resp_statusText : string;
  resp_json : option json;
  resp_text : option string
}.

(** [response.ok]: the status is in the range 200 to 299. *)
Definition resp_ok (r : response) : bool :=
  (200 <=? resp_status r) && (resp_status r <=? 299).

(** A thrown [Error] object, by the properties the adapter inspects:
    [e.name], [e instanceof TypeError], [e.message], [e.response]. *)
Record error : Type := mkError {
  err_name : string;
  err_instanceof_TypeError : bool;
  err_message : string;
  err_response : option response
}.

(** [new Error(message)] *)
Definition Error (message : string) : error :=
  mkError "Error" false message None.

(** [new TypeError(message)], as the runtime throws it. *)
Definition TypeError (message : string) : error :=
  mkError "TypeError" true message None.

(** [new SyntaxError(message)], as [JSON.parse] throws it. *)
Definition SyntaxError (message : string) : error :=
  mkError "SyntaxError" false message None.

(** How a [fetch] promise settles. *)
Inductive fetched : Type :=
| Responds (r : response)
| Fails (e : error).

Definition headers : Type := list (string * string).

(** The arguments of one [fetch(url, {method, body, headers})]. *)
Record request : Type := mkRequest {
  req_url : string;
  req_method : string;
  req_body : option string;
  req_headers : headers
}.

Inductive level : Type := Info | Err.

(** What a run does that the outside can see, in the order it does it:
    requests, timers, log lines (by level and message) and progress
    reports. *)
Inductive event : Type :=
| EFetch (r : request)
| EDelay (ms : Z)
| ELog (l : level) (message : string)
| EProgress (progress total : Z).

(** One record of the session [Map]. *)
Record session : Type := mkSession {
  created : Z;
  lastActivity : Z
}.

(** The state a run works on.  [net] and [clock] are the environment:
    how the i-th [fetch] of the run settles given its request, and what
    the i-th [Date.now()] reads.  [tool_calls] is [debug_stats.tool_calls],
    [active_sessions] the [Map] inside [createSessionManager], in
    insertion order. *)
Record world : Type := mkWorld {
  net : nat -> request -> fetched;
  fetches : nat;
  clock : nat -> Z;
  clock_reads : nat;
  trace : list event;
  tool_calls : gmap string Z;
  active_sessions : list (json * session)
}.

(** How an [async] function has settled when the observation ends:
    fulfilled, rejected, or still pending (the fuel of a loop ran out). *)
Inductive settled (A : Type) : Type :=
| Return (a : A)
| Throw (e : error)
| Pending.
Arguments Return {A} a.
Arguments Throw {A} e.
Arguments Pending {A}.

Definition M (A : Type) : Type := world -> settled A * world.

Definition ret {A} (a : A) : M A := fun w => (Return a, w).

Definition throw {A} (e : error) : M A := fun w => (Throw e, w).

Definition pending {A} : M A := fun w => (Pending, w).

Definition bind {A B} (m : M A) (k : A -> M B) : M B :=
  fun w =>
    match m w with
    | (Return a, w') => k a w'
    | (Throw e, w') => (Throw e, w')
    | (Pending, w') => (Pending, w')
    end.

Notation "x <- m ;; k" := (bind m (fun x => k))
  (at level 100, m at next level, right associativity).
Notation "m ;;; k" := (bind m (fun _ => k))
  (at level 100, right associativity).

(** [try { body } catch (e) { handler }] *)
Definition try_catch {A} (body : M A) (handler : error -> M A) : M A :=
  fun w =>
    match body w with
    | (Throw e, w') => handler e w'
    | settled_otherwise => settled_otherwise
    end.

(** [try { body } finally { finalizer }]: the finalizer runs once the
    body has settled, and the body's outcome stands unless the
    finalizer itself throws. *)
Definition try_finally {A} (body : M A) (finalizer : M unit) : M A :=
  fun w =>
    match body w with
    | (Pending, w') => (Pending, w')
    | (r, w') =>
        match finalizer w' with
        | (Return _, w'') => (r, w'')
        | (Throw e, w'') => (Throw e, w'')
        | (Pending, w'') => (Pending, w'')
        end
    end.

(** The world after [n] more requests and the events [evs]. *)
Definition advance (n : nat) (evs : list event) (w : world) : world :=
  mkWorld (net w) (n + fetches w) (clock w) (clock_reads w)
          (trace w ++ evs) (tool_calls w) (active_sessions w).

Definition emit (e : event) : M unit :=
  fun w => (Return tt, advance 0 [e] w).

(** [await fetch(url, options)] *)
Definition fetch (r : request) : M response :=
  fun w =>
    match net w (fetches w) r with
    | Responds resp => (Return resp, advance 1 [EFetch r] w)
    | Fails e => (Throw e, advance 1 [EFetch r] w)
    end.

(** The world after one more reading of the clock. *)
Definition tick (w : world) : world :=
  mkWorld (net w) (fetches w) (clock w) (S (clock_reads w))
          (trace w) (tool_calls w) (active_sessions w).

(** [Date.now()] *)
Definition Date_now : M Z :=
  fun w => (Return (clock w (clock_reads w)), tick w).

(** [await new Promise(resolve => setTimeout(resolve, ms))] *)
Definition sleep (ms : Z) : M unit := emit (EDelay ms).

Definition log_info (message : string) : M unit := emit (ELog Info message).
Definition log_error (message : string) : M unit := emit (ELog Err message).

(** [await response.json()] *)
Definition response_json (r : response) : M json :=
  match resp_json r with
  | Some v => ret v
  | None => throw (SyntaxError "Unexpected token in JSON")
  end.

(** [await response.text()] *)
Definition response_text (r : response) : M string :=
  match resp_text r with
  | Some s => ret s
  | None => throw (TypeError "Body is unusable")
  end.

(** [v.key] for one of the keys the adapter reads ([status], [result],
    [error], [executionId]), on a value that has properties: an object
    gives its own property, every other value gives [undefined]. *)
Definition field (v : json) (key : string) : option json :=
  match v with
  | JObj props => assoc key props
  | _ => None
  end.

(** [v.key] as an expression: [null] has no properties and throws. *)
Definition get_prop (v : json) (key : string) : M (option json) :=
  match v with
  | JNull => throw (TypeError ("Cannot read properties of null (reading '" +:+ key +:+ "')"))
  | _ => ret (field v key)
  end.

(** The error of a conversion to a primitive that finds none. *)
Definition no_primitive : error :=
  TypeError "Cannot convert object to primitive value".

(** A conversion to a string or a loose comparison as an expression:
    it gives its value or throws. *)
Definition converted {A} (o : option A) : M A :=
  match o with
  | Some a => ret a
  | None => throw no_primitive
  end.

(** The execution context a tool receives: [log] is always there,
    [reportProgress] may or may not be a function. *)
Record context : Type := mkContext {
  reportProgress_is_function : bool
}.

(* ================================================================== *)
(** * [JSON.stringify] and [JSON.parse] *)
(* ================================================================== *)

Module JSON.

Local Open Scope char_scope.

(** The double quote, U+0022. *)
Definition dquote : ascii := ascii_of_N 34.

(** The sixteen lower-case hexadecimal digits. *)
Definition hex_char (n : N) : ascii :=
  match n with
  | 0 => "0" | 1 => "1" | 2 => "2" | 3 => "3" | 4 => "4" | 5 => "5"
  | 6 => "6" | 7 => "7" | 8 => "8" | 9 => "9" | 10 => "a" | 11 => "b"
  | 12 => "c" | 13 => "d" | 14 => "e" | _ => "f"
  end%N.

(** How [JSON.stringify] writes one character inside a string literal:
    the quote and the backslash are escaped, the control characters
    below U+0020 get their short escape or a [\u00XX] escape. *)
Definition escape_char (c : ascii) : string :=
  let n := N_of_ascii c in
  if (c =? dquote)%char then String "\" (String dquote "")
  else if (c =? "\")%char then String "\" (String "\" "")
  else if (n =? 8)%N then String "\" (String "b" "")
  else if (n =? 12)%N then String "\" (String "f" "")
  else if (n =? 10)%N then String "\" (String "n" "")
  else if (n =? 13)%N then String "\" (String "r" "")
  else if (n =? 9)%N then String "\" (String "t" "")
  else if (n <? 32)%N then
    String "\" (String "u" (String "0" (String "0"
      (String (hex_char (n / 16)) (String (hex_char (n mod 16)) "")))))
  else String c "".

Fixpoint escape (s : string) : string :=
  match s with
  | EmptyString => EmptyString
  | String c rest => escape_char c +:+ escape rest
  end.

Definition quote (s : string) : string :=
  String dquote (escape s +:+ String dquote "").

(** [JSON.stringify(v)] without indentation. *)
Fixpoint stringify (v : json) : string :=
  match v with
  | JNull => "null"%string
  | JBool true => "true"%string
  | JBool false => "false"%string
  | JNum n => string_of_Z n
  | JStr s => quote s
  | JArr items =>
      String "[" (join "," (map stringify items) +:+ String "]" "")
  | JObj props =>
      String "{"
        (join "," (map (fun kv => quote (fst kv) +:+ String ":" (stringify (snd kv))) props)
         +:+ String "}" "")
  end.

(** ** The parser *)

Definition is_ws (c : ascii) : bool :=
  let n := N_of_ascii c in
  (n =? 32)%N || (n =? 9)%N || (n =? 10)%N || (n =? 13)%N.

Fixpoint skip_ws (s : string) : string :=
  match s with
  | String c rest => if is_ws c then skip_ws rest else s
  | EmptyString => EmptyString
  end.

(** [strip p s] removes the prefix [p] from [s]. *)
Fixpoint strip (p s : string) : option string :=
  match p, s with
  | EmptyString, _ => Some s
  | String a p', String b s' => if (a =? b)%char then strip p' s' else None
  | String _ _, EmptyString => None
  end.

Definition hex_value (c : ascii) : option N :=
  let n := N_of_ascii c in
  if (48 <=? n)%N && (n <=? 57)%N then Some (n - 48)%N
  else if (97 <=? n)%N && (n <=? 102)%N then Some (n - 87)%N
  else if (65 <=? n)%N && (n <=? 70)%N then Some (n - 55)%N
  else None.

(** [\uXXXX]: the code unit, when it is one of the 256 characters the
    model of strings has. *)
Definition unicode_escape (a b c d : ascii) : option ascii :=
  match hex_value a, hex_value b, hex_value c, hex_value d with
  | Some x, Some y, Some z, Some t =>
      if (x =? 0)%N && (y =? 0)%N then Some (ascii_of_N (16 * z + t)) else None
  | _, _, _, _ => None
  end.

Definition cons_char (c : ascii) (r : option (string * string)) : option (string * string) :=
  match r with
  | Some (s, rest) => Some (String c s, rest)
  | None => None
  end.

(** The characters of a string literal after its opening quote, up to
    and including the closing quote. *)
Fixpoint string_body (s : string) : option (string * string) :=
  match s with
  | EmptyString => None
  | String c rest =>
      if (c =? dquote)%char then Some (EmptyString, rest)
      else if (c =? "\")%char then
        match rest with
        | String "u" (String h1 (String h2 (String h3 (String h4 rest')))) =>
            match unicode_escape h1 h2 h3 h4 with
            | Some x => cons_char x (string_body rest')
            | None => None
            end
        | String e rest' =>
            if (e =? dquote)%char then cons_char dquote (string_body rest')
            else if (e =? "\")%char then cons_char "\" (string_body rest')
            else if (e =? "/")%char then cons_char "/" (string_body rest')
            else if (e =? "b")%char then cons_char (ascii_of_N 8) (string_body rest')
            else if (e =? "f")%char then cons_char (ascii_of_N 12) (string_body rest')
            else if (e =? "n")%char then cons_char (ascii_of_N 10) (string_body rest')
            else if (e =? "r")%char then cons_char (ascii_of_N 13) (string_body rest')
            else if (e =? "t")%char then cons_char (ascii_of_N 9) (string_body rest')
            else None
        | EmptyString => None
        end
      else if (N_of_ascii c <? 32)%N then None
      else cons_char c (string_body rest)
  end.

Definition digit_of_char (c : ascii) : option (uint -> uint) :=
  match c with
  | "0" => Some D0 | "1" => Some D1 | "2" => Some D2 | "3" => Some D3
  | "4" => Some D4 | "5" => Some D5 | "6" => Some D6 | "7" => Some D7
  | "8" => Some D8 | "9" => Some D9 | _ => None
  end.

(** The longest run of decimal digits at the head of [s]. *)
Fixpoint digits (s : string) : uint * string :=
  match s with
  | EmptyString => (Nil, EmptyString)
  | String c rest =>
      match digit_of_char c with
      | Some d => let (u, rest') := digits rest in (d u, rest')
      | None => (Nil, s)
      end
  end.

(** A run of digits is a JSON integer when it is not empty, has no
    leading zero, and no fraction or exponent follows (those would be
    numbers outside the integers). *)
Definition integer_ok (u : uint) (rest : string) : bool :=
  match u with
  | Nil => false
  | D0 (D0 _ | D1 _ | D2 _ | D3 _ | D4 _ | D5 _ | D6 _ | D7 _ | D8 _ | D9 _) => false
  | _ =>
      match rest with
      | String c _ => negb ((c =? ".") || (c =? "e") || (c =? "E"))%char
      | EmptyString => true
      end
  end.

Definition number (s : string) : option (Z * string) :=
  match s with
  | String "-" rest =>
      let (u, rest') := digits rest in
      if integer_ok u rest' then Some (Z.of_int (Neg u), rest') else None
  | _ =>
      let (u, rest') := digits s in
      if integer_ok u rest' then Some (Z.of_int (Pos u), rest') else None
  end.

(** Recursive descent on the grammar of JSON.  Every call that goes
    down into an array, an object or an element takes one unit of fuel;
    [parse] supplies as much fuel as the text has characters. *)
Fixpoint value (fuel : nat) (s : string) : option (json * string) :=
  match fuel with
  | O => None
  | S fuel' =>
      match skip_ws s with
      | String "n" rest =>
          match strip "ull" rest with
          | Some rest' => Some (JNull, rest')
          | None => None
          end
      | String "t" rest =>
          match strip "rue" rest with
          | Some rest' => Some (JBool true, rest')
          | None => None
          end
      | String "f" rest =>
          match strip "alse" rest with
          | Some rest' => Some (JBool false, rest')
          | None => None
          end
      | String (Ascii false true false false false true false false) rest =>
          match string_body rest with
          | Some (str, rest') => Some (JStr str, rest')
          | None => None
          end
      | String "[" rest =>
          match skip_ws rest with
          | String "]" rest' => Some (JArr [], rest')
          | _ =>
              match elements fuel' rest with
              | Some (items, rest') => Some (JArr items, rest')
              | None => None
              end
          end
      | String "{" rest =>
          match skip_ws rest with
          | String "}" rest' => Some (JObj [], rest')
          | _ =>
              match members fuel' rest with
              | Some (props, rest') => Some (JObj props, rest')
              | None => None
              end
          end
      | s' =>
          match number s' with
          | Some (n, rest) => Some (JNum n, rest)
          | None => None
          end
      end
  end
with elements (fuel : nat) (s : string) : option (list json * string) :=
  match fuel with
  | O => None
  | S fuel' =>
      match value fuel' s with
      | Some (v, rest) =>
          match skip_ws rest with
          | String "," rest' =>
              match elements fuel' rest' with
              | Some (vs, rest'') => Some (v :: vs, rest'')
              | None => None
              end
          | String "]" rest' => Some ([v], rest')
          | _ => None
          end
      | None => None
      end
  end
with members (fuel : nat) (s : string) : option (list (string * json) * string) :=
  match fuel with
  | O => None
  | S fuel' =>
      match skip_ws s with
      | String (Ascii false true false false false true false false) rest =>
          match string_body rest with
          | Some (key, rest1) =>
              match skip_ws rest1 with
              | String ":" rest2 =>
                  match value fuel' rest2 with
                  | Some (v, rest3) =>
                      match skip_ws rest3 with
                      | String "," rest4 =>
                          match members fuel' rest4 with
                          | Some (kvs, rest5) => Some ((key, v) :: kvs, rest5)
                          | None => None
                          end
                      | String "}" rest4 => Some ([(key, v)], rest4)
                      | _ => None
                      end
                  | None => None
                  end
              | _ => None
              end
          | None => None
          end
      | _ => None
      end
  end.

(** [JSON.parse(text)]; [None] stands for the [SyntaxError]. *)
Definition parse (text : string) : option json :=
  match value (String.length text) text with
  | Some (v, rest) =>
      match skip_ws rest with
      | EmptyString => Some v
      | String _ _ => None
      end
  | None => None
  end.

End JSON.


(* ================================================================== *)
(** * utils.js *)
(* ================================================================== *)

Record package : Type := mkPackage {
  pkg_name : string;
  pkg_version : string
}.

(** [create_api_headers(package_json, api_token)]: a function that
    builds a new header collection on every call. *)
Definition create_api_headers (package_json : package) (api_token : string)
  : unit -> headers :=
  fun _ =>
    [("user-agent", pkg_name package_json +:+ "/" +:+ pkg_version package_json);
     ("authorization", "apikey " +:+ api_token);
     ("Content-Type", "application/json")].

(** The request of one poll of [task_id], whose string form ends the
    URL.  An identifier without string form is never polled: the URL
    template throws before any request is made. *)
Definition poll_request (task_id : json) (headers_fn : unit -> headers) : request :=
  mkRequest ("https://browser.ai/api/v1/tasks/" +:+ default "" (js_to_string task_id))
            "GET" None (headers_fn tt).

(** The body of [while (true)] in [poll_task_result], with the loop
    variable [idx] as an argument; one unit of fuel per iteration.
    [idx] is a count of iterations, far below the 2^53 where a
    JavaScript number stops being exact. *)
Fixpoint poll_loop (fuel : nat) (task_id : json) (headers_fn : unit -> headers)
         (ctx : context) (idx : Z) : M (option json) :=
  match fuel with
  | O => pending
  | S fuel' =>
      id_text <- converted (js_to_string task_id) ;;
      response <- fetch (mkRequest ("https://browser.ai/api/v1/tasks/" +:+ id_text)
                                   "GET" None (headers_fn tt)) ;;
      result_data <- response_json response ;;
      status <- get_prop result_data "status" ;;
      log_info "Task poll status" ;;;
      idx' <- (if reportProgress_is_function ctx
               then emit (EProgress idx 20) ;;; ret (idx + 1)
               else ret idx) ;;
      if includes ["finalized"; "awaiting"] status then
        status_text <- converted (template status) ;;
        result <- get_prop result_data "result" ;;
        log_info ("Task " +:+ status_text) ;;;
        ret result
      else
        failed <- converted (loose_eq_str status "failed") ;;
        if failed then
          error <- get_prop result_data "error" ;;
          log_error "Task poll failed" ;;;
          id_text <- converted (js_to_string task_id) ;;
          error_text <- converted (template error) ;;
          throw (Error ("Task " +:+ id_text +:+ " failed: " +:+ error_text))
        else
          sleep 3000 ;;;
          poll_loop fuel' task_id headers_fn ctx idx'
  end.

(** [poll_task_result(task_id, headers_fn, {log, reportProgress})] *)
Definition poll_task_result (fuel : nat) (task_id : json)
           (headers_fn : unit -> headers) (ctx : context) : M (option json) :=
  poll_loop fuel task_id headers_fn ctx 0.

(** The request body every task submission shares. *)
Definition task_body (geoLocation : json) (actions : list string)
           (project_name : string) : json :=
  JObj [("geoLocation", geoLocation);
        ("awaitable", JBool true);
        ("instructions", JArr (map (fun a => JObj [("action", JStr a)]) actions));
        ("project", JStr project_name);
        ("type", JStr "natural_language")].

Definition US : json := JObj [("country", JStr "US")].

(** The request [send_session_instructions] posts. *)
Definition instructions_request (executionId : string) (instructionsPayload : list string)
           (headers_fn : unit -> headers) (project_name : string) : request :=
  mkRequest ("https://browser.ai/api/v1/tasks/" +:+ executionId +:+ "/instructions")
            "POST"
            (Some (JSON.stringify (task_body US instructionsPayload project_name)))
            (headers_fn tt).

(** The last two statements of [send_session_instructions], reached
    when [task_id] is not truthy. *)
Definition no_task_id {A} : M A :=
  log_error "No task_id received after sending instructions" ;;;
  throw (Error "No task ID received from API after sending instructions").

(** [send_session_instructions(executionId, instructionsPayload,
    headers_fn, {log, reportProgress}, project_name)].  The
    instructions are given by their [action] texts. *)
Definition send_session_instructions (fuel : nat) (executionId : string)
           (instructionsPayload : list string) (headers_fn : unit -> headers)
           (ctx : context) (project_name : string) : M string :=
  log_info "Sending instructions to session" ;;;
  response <- fetch (instructions_request executionId instructionsPayload
                                          headers_fn project_name) ;;
  (if negb (resp_ok response) then
     errorText <- response_text response ;;
     log_error "Failed to send instructions" ;;;
     throw (Error ("Failed to send instructions: "
                   +:+ string_of_Z (resp_status response) +:+ " "
                   +:+ resp_statusText response +:+ " - " +:+ errorText))
   else ret tt) ;;;
  data <- response_json response ;;
  task_id <- get_prop data "executionId" ;;
  sleep 1000 ;;;
  log_info "Received task ID from API after sending instructions" ;;;
  match task_id with
  | Some id =>
      if truthy task_id then
        result <- poll_task_result fuel id headers_fn ctx ;;
        ret (JSON.stringify (JObj (js_object [("executionId", Some id); ("result", result)])))
      else no_task_id
  | None => no_task_id
  end.

(** The world after one more call of the tool [name] is counted. *)
Definition counted (name : string) (w : world) : world :=
  mkWorld (net w) (fetches w) (clock w) (clock_reads w) (trace w)
          (<[name := default 0 (tool_calls w !! name) + 1]> (tool_calls w))
          (active_sessions w).

(** [debug_stats.tool_calls[name] = (debug_stats.tool_calls[name] || 0) + 1] *)
Definition count_call (name : string) : M unit :=
  fun w => (Return tt, counted name w).

(** The [catch (e)] block of the wrapper. *)
Definition tool_catch {A} (name : string) (e : error) : M A :=
  match err_response e with
  | Some response =>
      error_text <- try_catch (response_text response)
                      (fun textError =>
                         log_error ("[" +:+ name +:+ "] Failed to get error response text") ;;;
                         ret "") ;;
      log_error ("[" +:+ name +:+ "] HTTP error") ;;;
      if negb (String.eqb error_text "") then
        throw (Error ("HTTP " +:+ string_of_Z (resp_status response) +:+ ": " +:+ error_text))
      else
        throw (Error ("HTTP " +:+ string_of_Z (resp_status response) +:+ ": "
                      +:+ (if String.eqb (resp_statusText response) ""
                           then "Unknown HTTP error"
                           else resp_statusText response)))
  | None =>
      if String.eqb (err_name e) "FetchError" || err_instanceof_TypeError e then
        log_error ("[" +:+ name +:+ "] Fetch error") ;;;
        throw (Error ("Network error: " +:+ err_message e))
      else
        log_error ("[" +:+ name +:+ "] Unexpected error") ;;;
        throw e
  end.

(** [create_tool_fn(debug_stats)(name, fn)]: the wrapped tool, applied
    to [(params, executionContext)]. *)
Definition create_tool_fn {P A} (name : string) (fn : P -> context -> M A)
  : P -> context -> M A :=
  fun params executionContext =>
    count_call name ;;;
    ts <- Date_now ;;
    log_info ("[" +:+ name +:+ "] Executing tool") ;;;
    try_finally
      (try_catch (fn params executionContext) (tool_catch name))
      (now <- Date_now ;;
       let dur := now - ts in
       log_info ("[" +:+ name +:+ "] Tool finished")).

(* ================================================================== *)
(** * The server script: session registry and tools *)
(* ================================================================== *)

(** ** A [Map] in insertion order *)

Fixpoint Map_get {V} (key : json) (m : list (json * V)) : option V :=
  match m with
  | [] => None
  | (k, v) :: rest => if json_eqb k key then Some v else Map_get key rest
  end.

(** [m.set(key, v)]: a key that is present keeps its place and takes the
    new value, a new key goes to the end. *)
Fixpoint Map_set {V} (key : json) (v : V) (m : list (json * V)) : list (json * V) :=
  match m with
  | [] => [(key, v)]
  | (k, old) :: rest =>
      if json_eqb k key then (k, v) :: rest else (k, old) :: Map_set key v rest
  end.

Fixpoint Map_delete {V} (key : json) (m : list (json * V)) : list (json * V) :=
  match m with
  | [] => []
  | (k, v) :: rest => if json_eqb k key then rest else (k, v) :: Map_delete key rest
  end.

(** ** [createSessionManager()] *)

Definition set_active_sessions (m : list (json * session)) : M unit :=
  fun w => (Return tt,
            mkWorld (net w) (fetches w) (clock w) (clock_reads w) (trace w)
                    (tool_calls w) m).

Definition get_sessions : M (list (json * session)) :=
  fun w => (Return (active_sessions w), w).

Definition track_session (id : json) : M unit :=
  c <- Date_now ;;
  l <- Date_now ;;
  m <- get_sessions ;;
  set_active_sessions (Map_set id (mkSession c l) m).

(** The record found is updated in place: the entry keeps its key, its
    position and its [created]. *)
Definition update_activity (id : json) : M unit :=
  m <- get_sessions ;;
  match Map_get id m with
  | Some session =>
      now <- Date_now ;;
      set_active_sessions (Map_set id (mkSession (created session) now) m)
  | None => ret tt
  end.

Definition remove_session (id : json) : M bool :=
  m <- get_sessions ;;
  set_active_sessions (Map_delete id m) ;;;
  ret (match Map_get id m with Some _ => true | None => false end).

Definition tasks_url : string := "https://browser.ai/api/v1/tasks".

(** A string between double quotes, for the prompts that show a JSON
    shape. *)
Definition q (s : string) : string :=
  String JSON.dquote (s +:+ String JSON.dquote "").

(** ** First revision of the script *)

Module ServerV1.

Definition extract_prompt : string :=
  "Extract all interactive elements and page html markup as a string.
                    Return result as valid JSON string: {" +:+ q "interactive_elements"
  +:+ ": string[], " +:+ q "html_markup" +:+ ": string}.
                    Do not verify any content, the result is always correct.
                    Do not add quotes, extra notes, or any interpretation — just the keep format".

(** The [execute] function of [start_new_session], before it is
    wrapped.  What it returns is a JavaScript value: [JStr] when it is
    a string. *)
Definition start_new_session_fn (fuel : nat) (api_headers : unit -> headers)
           (project_name : string) (instruction : string) (ctx : context) : M json :=
  log_info "start_new_session task started" ;;;
  let body := task_body US [instruction; extract_prompt] project_name in
  log_info "Fetching URL" ;;;
  response <- fetch (mkRequest tasks_url "POST" (Some (JSON.stringify body)) (api_headers tt)) ;;
  data <- response_json response ;;
  task_id <- get_prop data "executionId" ;;
  log_info "Received task ID from API" ;;;
  match task_id with
  | Some id =>
      if truthy task_id then
        result <- poll_task_result fuel id api_headers ctx ;;
        ret (JStr (JSON.stringify
                     (JObj (js_object [("executionId", Some id); ("result", result)]))))
      else ret data
  | None => ret data
  end.

Definition start_new_session (fuel : nat) (api_headers : unit -> headers)
           (project_name : string) : string -> context -> M json :=
  create_tool_fn "start_new_session" (start_new_session_fn fuel api_headers project_name).

Definition interact_prompt : string :=
  "Extract all interactive elements and html markup.
                Return result as an object: {" +:+ q "interactive_elements"
  +:+ ": string[], " +:+ q "html_markup" +:+ ": string}.
                Do not add quotes, extra notes, or any interpretation — just the keep format".

Definition interact_in_session (fuel : nat) (api_headers : unit -> headers)
           (project_name : string) : string * string -> context -> M json :=
  create_tool_fn "interact_in_session"
    (fun '(instruction, executionId) ctx =>
       log_info "interact_in_session task started" ;;;
       text <- send_session_instructions fuel executionId [instruction; interact_prompt]
                 api_headers ctx project_name ;;
       ret (JStr text)).

Definition extract_from_session (fuel : nat) (api_headers : unit -> headers)
           (project_name : string) : string * string -> context -> M json :=
  create_tool_fn "extract_from_session"
    (fun '(instruction, executionId) ctx =>
       log_info "extract_from_session task started" ;;;
       text <- send_session_instructions fuel executionId
                 [instruction;
                  "Return result as an object.
                Do not add quotes, extra notes, or any interpretation — just the keep format"]
                 api_headers ctx project_name ;;
       ret (JStr text)).

End ServerV1.

(** ** Second revision of the script *)

Module ServerV2.

Definition extract_prompt : string :=
  "Extract all clickable elements, input fields, buttons, and links from the page. "
  +:+ "Also get the complete HTML markup. "
  +:+ "Return the result as a JSON object with this exact format: "
  +:+ "{" +:+ q "interactive_elements" +:+ ": [" +:+ q "element1" +:+ ", " +:+ q "element2"
  +:+ ", ...], " +:+ q "html_markup" +:+ ": " +:+ q "complete_html_string" +:+ "}. "
  +:+ "Do not add any extra text or formatting.".

Record start_params : Type := mkStartParams {
  sp_instruction : string;
  sp_geoLocation : option string;   (* the country of [geoLocation], when given *)
  sp_extractData : bool
}.

Definition start_new_session_fn (fuel : nat) (api_headers : unit -> headers)
           (project_name : string) (params : start_params) (ctx : context) : M json :=
  log_info "start_new_session task started" ;;;
  let instructions :=
    ([sp_instruction params] ++ (if sp_extractData params then [extract_prompt] else []))%list in
  let geo := match sp_geoLocation params with
             | Some country => JObj [("country", JStr country)]
             | None => US
             end in
  let body := task_body geo instructions project_name in
  log_info "Fetching URL" ;;;
  response <- fetch (mkRequest tasks_url "POST" (Some (JSON.stringify body)) (api_headers tt)) ;;
  (if negb (resp_ok response) then
     errorText <- response_text response ;;
     log_error "Failed to start new session" ;;;
     throw (Error ("Failed to start new session: "
                   +:+ string_of_Z (resp_status response) +:+ " "
                   +:+ resp_statusText response +:+ " - " +:+ errorText))
   else ret tt) ;;;
  data <- response_json response ;;
  task_id <- get_prop data "executionId" ;;
  log_info "Received task ID from API" ;;;
  match task_id with
  | Some id =>
      if truthy task_id then
        track_session id ;;;
        result <- poll_task_result fuel id api_headers ctx ;;
        ret (JStr (JSON.stringify
                     (JObj (js_object [("executionId", Some id); ("result", result)]))))
      else throw (Error "No execution ID received from API")
  | None => throw (Error "No execution ID received from API")
  end.

Definition start_new_session (fuel : nat) (api_headers : unit -> headers)
           (project_name : string) : start_params -> context -> M json :=
  create_tool_fn "start_new_session" (start_new_session_fn fuel api_headers project_name).

Definition interact_prompt : string :=
  "After performing the actions, extract all clickable elements, input fields, buttons, and links from the current page. "
  +:+ "Also get the complete HTML markup. "
  +:+ "Return the result as a JSON object with this exact format: "
  +:+ "{" +:+ q "interactive_elements" +:+ ": [" +:+ q "element1" +:+ ", " +:+ q "element2"
  +:+ ", ...], " +:+ q "html_markup" +:+ ": " +:+ q "complete_html_string" +:+ "}. "
  +:+ "Do not add any extra text or formatting.".

Record interact_params : Type := mkInteractParams {
  ip_instructions : list string;
  ip_executionId : string;
  ip_extractData : bool;
  ip_waitTime : Z                   (* seconds, a whole number here *)
}.

Definition interact_and_extract_in_session (fuel : nat) (api_headers : unit -> headers)
           (project_name : string) : interact_params -> context -> M json :=
  create_tool_fn "interact_and_extract_in_session"
    (fun params ctx =>
       log_info "interact_and_extract_in_session task started" ;;;
       let instructions_payload :=
         (ip_instructions params
          ++ (if 0 <? ip_waitTime params
              then ["Wait " +:+ string_of_Z (ip_waitTime params)
                    +:+ " seconds for the page to update after the interaction"]
              else [])
          ++ (if ip_extractData params then [interact_prompt] else []))%list in
       update_activity (JStr (ip_executionId params)) ;;;
       text <- send_session_instructions fuel (ip_executionId params) instructions_payload
                 api_headers ctx project_name ;;
       ret (JStr text)).

Definition extract_from_session (fuel : nat) (api_headers : unit -> headers)
           (project_name : string) : list string * string -> context -> M json :=
  create_tool_fn "extract_from_session"
    (fun '(instructions, executionId) ctx =>
       log_info "extract_from_session task started" ;;;
       let instructions_payload :=
         (instructions
          ++ ["Return the extracted data as a clean JSON object. "
              +:+ "No additional text, explanations, or formatting. "
              +:+ "Just the JSON response as specified in the extraction instruction."])%list in
       update_activity (JStr executionId) ;;;
       text <- send_session_instructions fuel executionId instructions_payload
                 api_headers ctx project_name ;;
       ret (JStr text)).

Definition get_session_status (api_headers : unit -> headers)
  : string -> context -> M json :=
  create_tool_fn "get_session_status"
    (fun executionId ctx =>
       log_info "get_session_status task started" ;;;
       response <- fetch (mkRequest (tasks_url +:+ "/" +:+ executionId) "GET" None
                                    (api_headers tt)) ;;
       (if negb (resp_ok response) then
          errorText <- response_text response ;;
          log_error "Failed to get session status" ;;;
          throw (Error ("Failed to get session status: "
                        +:+ string_of_Z (resp_status response) +:+ " "
                        +:+ resp_statusText response +:+ " - " +:+ errorText))
        else ret tt) ;;;
       data <- response_json response ;;
       ret (JStr (JSON.stringify data))).

(** The shape the prompts of the later tools show, up to the
    [html_markup] entry. *)
Definition page_shape : string :=
  "{" +:+ q "interactive_elements" +:+ ": [" +:+ q "element1" +:+ ", " +:+ q "element2"
  +:+ ", ...], " +:+ q "html_markup" +:+ ": " +:+ q "complete_html_string".

Record wait_params : Type := mkWaitParams {
  wp_instruction : string;
  wp_executionId : string;
  wp_timeout : Z                    (* seconds, a whole number here *)
}.

Definition wait_instructions (params : wait_params) : list string :=
  ["Wait up to " +:+ string_of_Z (wp_timeout params)
   +:+ " seconds for this element to appear: " +:+ wp_instruction params;
   "Once the element is found, extract all clickable elements, input fields, buttons, and links from the current page. "
   +:+ "Also get the complete HTML markup. "
   +:+ "Return the result as a JSON object with this exact format: "
   +:+ page_shape +:+ ", " +:+ q "element_found" +:+ ": true}. "
   +:+ "If timeout occurs, return {" +:+ q "element_found" +:+ ": false, "
   +:+ q "error" +:+ ": " +:+ q "Element not found within timeout" +:+ "}."].

Definition wait_for_element (fuel : nat) (api_headers : unit -> headers)
           (project_name : string) : wait_params -> context -> M json :=
  create_tool_fn "wait_for_element"
    (fun params ctx =>
       log_info "wait_for_element task started" ;;;
       text <- send_session_instructions fuel (wp_executionId params)
                 (wait_instructions params) api_headers ctx project_name ;;
       ret (JStr text)).

Definition navigate_instructions (url : string) : list string :=
  ["Navigate to " +:+ url;
   "After navigation completes, extract all clickable elements, input fields, buttons, and links from the page. "
   +:+ "Also get the complete HTML markup and current URL. "
   +:+ "Return the result as a JSON object with this exact format: "
   +:+ page_shape +:+ ", " +:+ q "current_url" +:+ ": " +:+ q "actual_url" +:+ "}. "
   +:+ "Do not add any extra text or formatting."].

Definition navigate_to_url (fuel : nat) (api_headers : unit -> headers)
           (project_name : string) : string * string -> context -> M json :=
  create_tool_fn "navigate_to_url"
    (fun '(url, executionId) ctx =>
       log_info "navigate_to_url task started" ;;;
       text <- send_session_instructions fuel executionId (navigate_instructions url)
                 api_headers ctx project_name ;;
       ret (JStr text)).

Definition page_info_instructions : list string :=
  ["Extract comprehensive page information including title, URL, meta description, meta keywords, and page structure";
   "Return the page information as a JSON object with this exact format: "
   +:+ "{" +:+ q "title" +:+ ": " +:+ q "page_title" +:+ ", " +:+ q "url" +:+ ": "
   +:+ q "current_url" +:+ ", " +:+ q "meta_description" +:+ ": " +:+ q "description"
   +:+ ", " +:+ q "meta_keywords" +:+ ": " +:+ q "keywords" +:+ ", "
   +:+ q "page_structure" +:+ ": {" +:+ q "headings" +:+ ": [" +:+ q "h1" +:+ ", "
   +:+ q "h2" +:+ ", ...], " +:+ q "forms" +:+ ": [" +:+ q "form1" +:+ ", " +:+ q "form2"
   +:+ ", ...], " +:+ q "images" +:+ ": [" +:+ q "img1" +:+ ", " +:+ q "img2"
   +:+ ", ...]}}. "
   +:+ "Do not add any extra text or formatting."].

Definition get_page_info (fuel : nat) (api_headers : unit -> headers)
           (project_name : string) : string -> context -> M json :=
  create_tool_fn "get_page_info"
    (fun executionId ctx =>
       log_info "get_page_info task started" ;;;
       text <- send_session_instructions fuel executionId page_info_instructions
                 api_headers ctx project_name ;;
       ret (JStr text)).

Record batch_params : Type := mkBatchParams {
  bp_actions : list string;
  bp_executionId : string;
  bp_stopOnError : bool;
  bp_delayBetweenActions : Z        (* seconds, a whole number here *)
}.

(** The callback of [actions.forEach] applied from position [index]
    on: each action is pushed, and a wait after it unless it is the
    last of the [len] actions or the delay is not positive. *)
Fixpoint batch_each (len : nat) (delay : Z) (index : nat) (actions : list string)
  : list string :=
  match actions with
  | [] => []
  | action :: rest =>
      (action
       :: (if (Z.of_nat index <? Z.of_nat len - 1) && (0 <? delay)
           then ["Wait " +:+ string_of_Z delay +:+ " seconds before next action"]
           else [])
       ++ batch_each len delay (S index) rest)%list
  end.

Definition batch_prompt (count : nat) : string :=
  "After completing all actions, extract all clickable elements, input fields, buttons, and links from the final page. "
  +:+ "Also get the complete HTML markup. "
  +:+ "Return the result as a JSON object with this exact format: "
  +:+ page_shape +:+ ", " +:+ q "actions_completed" +:+ ": "
  +:+ string_of_Z (Z.of_nat count) +:+ "}. "
  +:+ "Do not add any extra text or formatting.".

(** [instructionsPayload] of [batch_actions], by its [action] texts. *)
Definition batch_instructions (actions : list string) (delay : Z) : list string :=
  (batch_each (length actions) delay 0 actions ++ [batch_prompt (length actions)])%list.

Definition batch_actions (fuel : nat) (api_headers : unit -> headers)
           (project_name : string) : batch_params -> context -> M json :=
  create_tool_fn "batch_actions"
    (fun params ctx =>
       log_info "batch_actions task started" ;;;
       text <- send_session_instructions fuel (bp_executionId params)
                 (batch_instructions (bp_actions params) (bp_delayBetweenActions params))
                 api_headers ctx project_name ;;
       ret (JStr text)).

(** [Math.round(ms / 60000)] on a whole number of milliseconds: the
    nearest whole number of minutes, a half going up. *)
Definition round_minutes (ms : Z) : Z := (ms + 30000) / 60000.

(** [sessions.map(([id, data]) => ({...}))] in [list_active_sessions]:
    the callback reads the clock once for each entry.  [toISOString]
    stands for [new Date(ms).toISOString()]. *)
Fixpoint session_data (toISOString : Z -> string) (sessions : list (json * session))
  : M (list json) :=
  match sessions with
  | [] => ret []
  | (id, data) :: rest =>
      now <- Date_now ;;
      entries <- session_data toISOString rest ;;
      ret (JObj [("executionId", id);
                 ("created", JStr (toISOString (created data)));
                 ("lastActivity", JStr (toISOString (lastActivity data)));
                 ("ageMinutes", JNum (round_minutes (now - created data)))]
           :: entries)
  end.

Definition list_active_sessions_fn (toISOString : Z -> string)
  : unit -> context -> M json :=
  fun _ ctx =>
    log_info "list_active_sessions task started" ;;;
    sessions <- get_sessions ;;
    sessionData <- session_data toISOString sessions ;;
    now <- Date_now ;;
    ret (JStr (JSON.stringify
                 (JObj [("activeSessions", JArr sessionData);
                        ("totalSessions", JNum (Z.of_nat (length sessionData)));
                        ("timestamp", JStr (toISOString now))]))).

Definition list_active_sessions (toISOString : Z -> string)
  : unit -> context -> M json :=
  create_tool_fn "list_active_sessions" (list_active_sessions_fn toISOString).

End ServerV2.

(* ================================================================== *)
(** * Vocabulary of the properties *)
(* ================================================================== *)

(** ** Runs of the poller *)

(** The next requests of the run, when they are [req], are answered by
    [rs] in this order. *)
Definition answered (w : world) (req : request) (rs : list response) : Prop :=
  forall i r, rs !! i = Some r -> net w (fetches w + i)%nat req = Responds r.

(** A status other than the three names, in the words of the
    specification. *)
Definition other_status (status : option json) : bool :=
  negb (strict_eq_str status "finalized")
  && negb (strict_eq_str status "awaiting")
  && negb (strict_eq_str status "failed").

(** A status on which the poller goes on polling: it is not the string
    [finalized] or [awaiting], and [== 'failed'] is evaluated and finds
    it different.  Every string but the three names is one, and so are
    [null], a boolean, a number and a missing status; an array or an
    object is one when it has a string form and that is not [failed]. *)
Definition nonterminal (status : option json) : bool :=
  negb (includes ["finalized"; "awaiting"] status)
  && match loose_eq_str status "failed" with
     | Some false => true
     | _ => false
     end.

(** A status that ends the poll with a result. *)
Definition terminal_success (status : option json) : bool :=
  strict_eq_str status "finalized" || strict_eq_str status "awaiting".

(** A response whose body is JSON data with properties. *)
Definition carries (r : response) (d : json) : Prop :=
  resp_json r = Some d /\ d <> JNull.

(** A poll response that reports a task still running. *)
Definition reports_running (r : response) : Prop :=
  exists d, carries r d /\ nonterminal (field d "status") = true.

(** The error that ends an iteration when the answer to its request
    cannot be used: the request failed, the body is not JSON, or the
    data is [null]. *)
Definition unusable (o : fetched) : option error :=
  match o with
  | Fails e => Some e
  | Responds r =>
      match resp_json r with
      | None => Some (SyntaxError "Unexpected token in JSON")
      | Some JNull => Some (TypeError "Cannot read properties of null (reading 'status')")
      | Some _ => None
      end
  end.

(** The loop variable after an iteration: [idx ++] happens only inside
    the call of the progress sink. *)
Definition next_idx (ctx : context) (idx : Z) : Z :=
  if reportProgress_is_function ctx then idx + 1 else idx.

(** The loop variable after [n] iterations. *)
Fixpoint idx_after (n : nat) (ctx : context) (idx : Z) : Z :=
  match n with
  | O => idx
  | S n' => idx_after n' ctx (next_idx ctx idx)
  end.

(** What one iteration does before it looks at the status. *)
Definition poll_events (req : request) (ctx : context) (idx : Z) : list event :=
  EFetch req :: ELog Info "Task poll status"
  :: (if reportProgress_is_function ctx then [EProgress idx 20] else []).

(** What [n] iterations do that each find the task still running. *)
Fixpoint running_events (n : nat) (req : request) (ctx : context) (idx : Z) : list event :=
  match n with
  | O => []
  | S n' => poll_events req ctx idx ++ [EDelay 3000]
            ++ running_events n' req ctx (next_idx ctx idx)
  end.

(** The reports of [m] iterations that start counting at [idx]. *)
Definition counting (idx : Z) (m : nat) : list (Z * Z) :=
  map (fun i => (idx + Z.of_nat i, 20)) (seq 0 m).

(** ** Traces *)

(** The requests and the timers of a trace, in order. *)
Fixpoint io (evs : list event) : list event :=
  match evs with
  | [] => []
  | EFetch r :: rest => EFetch r :: io rest
  | EDelay ms :: rest => EDelay ms :: io rest
  | _ :: rest => io rest
  end.

Fixpoint requests (evs : list event) : list request :=
  match evs with
  | [] => []
  | EFetch r :: rest => r :: requests rest
  | _ :: rest => requests rest
  end.

Fixpoint delays (evs : list event) : list Z :=
  match evs with
  | [] => []
  | EDelay ms :: rest => ms :: delays rest
  | _ :: rest => delays rest
  end.

Fixpoint progress_reports (evs : list event) : list (Z * Z) :=
  match evs with
  | [] => []
  | EProgress p t :: rest => (p, t) :: progress_reports rest
  | _ :: rest => progress_reports rest
  end.

Fixpoint without_progress (evs : list event) : list event :=
  match evs with
  | [] => []
  | EProgress _ _ :: rest => without_progress rest
  | e :: rest => e :: without_progress rest
  end.

(** [GET, delay, GET, delay, ..., GET]: [n] polls each followed by the
    delay, then one more poll. *)
Fixpoint polls_and_delays (n : nat) (req : request) : list event :=
  match n with
  | O => [EFetch req]
  | S n' => EFetch req :: EDelay 3000 :: polls_and_delays n' req
  end.

(** ** The dispatcher and the wrapper *)

(** [part] occurs in [whole], character for character. *)
Definition contains (part whole : string) : Prop :=
  exists before after, whole = before +:+ part +:+ after.

(** What [send_session_instructions] does, after a successful POST,
    before it looks at the identifier. *)
Definition settle_events (post : request) : list event :=
  [ELog Info "Sending instructions to session"; EFetch post; EDelay 1000;
   ELog Info "Received task ID from API after sending instructions"].

(** The world in which a wrapped tool starts its implementation: the
    call is counted, the start time is read, the start is logged. *)
Definition tool_entry (name : string) (w : world) : world :=
  advance 0 [ELog Info ("[" +:+ name +:+ "] Executing tool")] (tick (counted name w)).

(** The world after the [finally] block of the wrapper. *)
Definition tool_exit (name : string) (w : world) : world :=
  advance 0 [ELog Info ("[" +:+ name +:+ "] Tool finished")] (tick w).

(** The status text the wrapper falls back on. *)
Definition status_text_or_fallback (r : response) : string :=
  if String.eqb (resp_statusText r) "" then "Unknown HTTP error" else resp_statusText r.

(** ** The registry *)

(** The records a list of entries holds under the key [id]. *)
Fixpoint records_of (id : json) (m : list (json * session)) : list session :=
  match m with
  | [] => []
  | (k, v) :: rest =>
      if json_eqb k id then v :: records_of id rest else records_of id rest
  end.

(** What a [Map] guarantees: no key occurs twice. *)
Definition distinct_keys (m : list (json * session)) : Prop :=
  NoDup (map fst m).

(** ** JSON text *)

(** The fuel that parsing the text of a value takes at most. *)
Fixpoint weight (v : json) : nat :=
  match v with
  | JArr items => S (list_sum (map (fun x => S (weight x)) items))
  | JObj props => S (list_sum (map (fun kv => S (weight (snd kv))) props))
  | _ => 1
  end.

(** What may follow the text of a value: nothing, a comma, or a
    closing bracket or brace. *)
Definition delimited (rest : string) : bool :=
  match rest with
  | EmptyString => true
  | String c _ => ((c =? ",") || (c =? "]") || (c =? "}"))%char
  end.

(** With enough fuel the parser reads [v] back from its text, whatever
    delimited text follows. *)
Definition parses_back (v : json) : Prop :=
  forall fuel rest,
    (weight v <= fuel)%nat ->
    delimited rest = true ->
    JSON.value fuel (JSON.stringify v +:+ rest) = Some (v, rest).

(** The characters a number starts with, and those any JSON text
    written by [stringify] starts with. *)
Definition number_start (c : ascii) : bool :=
  (c =? "-")%char
  || match JSON.digit_of_char c with Some _ => true | None => false end.

Definition value_start (c : ascii) : bool :=
  number_start c
  || (c =? "n")%char || (c =? "t")%char || (c =? "f")%char
  || (c =? JSON.dquote)%char || (c =? "[")%char || (c =? "{")%char.

(** ** Further vocabulary *)

(** [sep] between each two consecutive elements of [l]. *)
Fixpoint interleave {A} (sep : A) (l : list A) : list A :=
  match l with
  | [] => []
  | [a] => [a]
  | a :: rest => a :: sep :: interleave sep rest
  end.

(** [GET, delay, GET, delay, ...] with a delay after each of [n]
    polls: what a run has done when its fuel runs out. *)
Fixpoint polls_each_delayed (n : nat) (req : request) : list event :=
  match n with
  | O => []
  | S n' => EFetch req :: EDelay 3000 :: polls_each_delayed n' req
  end.

(** Requests of [req] and delays of 3000 ms in turn, starting with a
    request: the trace ends on a delay, or is empty, or ends on a
    request. *)
Definition alternating (req : request) (l : list event) : Prop :=
  exists k, l = polls_each_delayed k req \/ l = polls_and_delays k req.

(** Two worlds that differ only in what was added by requests and
    events: same clock readings, counters and registry. *)
Definition same_state (w w' : world) : Prop :=
  clock_reads w' = clock_reads w
  /\ tool_calls w' = tool_calls w
  /\ active_sessions w' = active_sessions w.

(** The keys of a registry, in order. *)
Definition session_ids (m : list (json * session)) : list json := map fst m.

(** The world after [track_session id]. *)
Definition tracked (id : json) (w : world) : world :=
  mkWorld (net w) (fetches w) (clock w) (S (S (clock_reads w))) (trace w) (tool_calls w)
          (Map_set id (mkSession (clock w (clock_reads w)) (clock w (S (clock_reads w))))
                   (active_sessions w)).

(** The world after [n] more readings of the clock. *)
Fixpoint ticks (n : nat) (w : world) : world :=
  match n with
  | O => w
  | S n' => ticks n' (tick w)
  end.

(** The request of [get_session_status]. *)
Definition status_request (executionId : string) (hf : unit -> headers) : request :=
  mkRequest (tasks_url +:+ "/" +:+ executionId) "GET" None (hf tt).

(** The request the second revision of [start_new_session] posts. *)
Definition start_request (hf : unit -> headers) (project : string)
           (params : ServerV2.start_params) : request :=
  mkRequest tasks_url "POST"
    (Some (JSON.stringify
             (task_body
                (match ServerV2.sp_geoLocation params with
                 | Some country => JObj [("country", JStr country)]
                 | None => US
                 end)
                ([ServerV2.sp_instruction params]
                 ++ (if ServerV2.sp_extractData params
                     then [ServerV2.extract_prompt] else []))%list
                project)))
    (hf tt).

(** The request the first revision of [start_new_session] posts. *)
Definition start_request_v1 (hf : unit -> headers) (project : string)
           (instruction : string) : request :=
  mkRequest tasks_url "POST"
    (Some (JSON.stringify (task_body US [instruction; ServerV1.extract_prompt] project)))
    (hf tt).

(** The error that ends a dispatch, right after its request, when the
    answer cannot be used: the request failed, or the status is in
    200..299 and the body is not JSON or is the data [null]. *)
Definition unusable_dispatch (o : fetched) : option error :=
  match o with
  | Fails e => Some e
  | Responds r =>
      if resp_ok r then
        match resp_json r with
        | None => Some (SyntaxError "Unexpected token in JSON")
        | Some JNull =>
            Some (TypeError "Cannot read properties of null (reading 'executionId')")
        | Some _ => None
        end
      else None
  end.

(** A request as the adapter sends it with the headers of [hf]. *)
Definition sent_with (hf : unit -> headers) (q : request) : Prop :=
  req_headers q = hf tt.

(** A run from [w] adds to the trace events whose requests are [post]
    first and then only GETs, and ends with the registry [sessions]. *)
Definition dispatches {A} (run : world -> settled A * world) (post : request)
           (sessions : list (json * session)) (w : world) : Prop :=
  exists outcome evs polls w',
    run w = (outcome, w')
    /\ trace w' = (trace w ++ evs)%list
    /\ requests evs = post :: polls
    /\ Forall (fun q => req_method q = "GET") polls
    /\ fetches w' = (S (length polls) + fetches w)%nat
    /\ active_sessions w' = sessions.

(** The registry after [update_activity id]: the record of [id], when
    there is one, has the clock reading [now] as its [lastActivity]. *)
Definition touched (id : json) (now : Z) (m : list (json * session))
  : list (json * session) :=
  match Map_get id m with
  | Some s => Map_set id (mkSession (created s) now) m
  | None => m
  end.

(** A run from [w] forgets no session: the identifiers it leaves are
    those it found, in their order, with at most one more at the end,
    and they are distinct when they were. *)
Definition keeps_sessions {A} (run : world -> settled A * world) (w : world) : Prop :=
  exists outcome w',
    run w = (outcome, w')
    /\ (exists added,
          session_ids (active_sessions w')
          = (session_ids (active_sessions w) ++ added)%list
          /\ (length added <= 1)%nat)
    /\ (distinct_keys (active_sessions w) -> distinct_keys (active_sessions w')).

(** A sample of [toISOString] for running the definitions: the text of
    the milliseconds. *)
Definition sample_iso (ms : Z) : string := string_of_Z ms.

(** ** Worlds to run the definitions on *)

(** A response with status 200 whose body is the text of [d]. *)
Definition ok_response (d : json) : response :=
  mkResponse 200 "OK" (Some d) (Some (JSON.stringify d)).

(** A world at its start whose network answers the requests with
    [script] in order and is down afterwards, and whose clock ticks
    once per reading. *)
Definition scripted (script : list fetched) : world :=
  mkWorld (fun i _ => nth i script (Fails (TypeError "fetch failed")))
          0 (fun i => 1700000000000 + Z.of_nat i) 0 [] ∅ [].

Definition status_only (status : string) : json :=
  JObj [("status", JStr status)].

Definition test_headers : unit -> headers :=
  create_api_headers (mkPackage "browserai-mcp" "1.0.0") "secret".

Definition with_progress : context := mkContext true.
Definition without_sink : context := mkContext false.

(* ================================================================== *)
(** * Properties *)
(* ================================================================== *)

(** ** The monad and the world *)

Lemma advance_advance a b e1 e2 w :
  advance a e1 (advance b e2 w) = advance (a + b) (e2 ++ e1) w.
Proof.
  unfold advance; simpl. f_equal; [lia | now rewrite app_assoc].
Qed.

Lemma bind_return {A B} (m : M A) (k : A -> M B) w a w' :
  m w = (Return a, w') -> bind m k w = k a w'.
Proof. intros H. unfold bind. now rewrite H. Qed.

Lemma bind_throw {A B} (m : M A) (k : A -> M B) w e w' :
  m w = (Throw e, w') -> bind m k w = (Throw e, w').
Proof. intros H. unfold bind. now rewrite H. Qed.

Lemma bind_pending {A B} (m : M A) (k : A -> M B) w w' :
  m w = (Pending, w') -> bind m k w = (Pending, w').
Proof. intros H. unfold bind. now rewrite H. Qed.

Lemma fetch_responds req w r :
  net w (fetches w) req = Responds r ->
  fetch req w = (Return r, advance 1 [EFetch req] w).
Proof. intros H. unfold fetch. now rewrite H. Qed.

Lemma answered_cons w req r rs evs :
  answered w req (r :: rs) ->
  net w (fetches w) req = Responds r /\ answered (advance 1 evs w) req rs.
Proof.
  intros H. split.
  - specialize (H 0%nat r eq_refl). now rewrite Nat.add_0_r in H.
  - intros i r' Hi. unfold advance; simpl. specialize (H (S i) r' Hi).
    now replace (S (fetches w + i))%nat with (fetches w + S i)%nat by lia.
Qed.

(** ** Classification of the status *)

Lemma nonterminal_tests status :
  nonterminal status = true ->
  includes ["finalized"; "awaiting"] status = false
  /\ loose_eq_str status "failed" = Some false.
Proof.
  unfold nonterminal. intros H. apply andb_true_iff in H as [Hinc Hloose].
  split; [now apply negb_true_iff in Hinc |].
  now destruct (loose_eq_str status "failed") as [[] |].
Qed.

(** On strings the statuses that keep the poller polling are those of
    the specification: every string but the three names. *)
Lemma nonterminal_string s :
  nonterminal (Some (JStr s)) = other_status (Some (JStr s)).
Proof.
  unfold nonterminal, other_status, includes. cbn.
  destruct (String.eqb s "finalized"), (String.eqb s "awaiting"),
    (String.eqb s "failed"); reflexivity.
Qed.

(** A status that has no properties to convert keeps the poller
    polling. *)
Lemma nonterminal_plain status :
  match status with
  | None | Some JNull | Some (JBool _) | Some (JNum _) => nonterminal status = true
  | _ => True
  end.
Proof. destruct status as [[| b | n | s | items | props] |]; try exact I; reflexivity. Qed.

Example loose_eq_failed_array :
  loose_eq_str (Some (JArr [JStr "failed"])) "failed" = Some true.
Proof. reflexivity. Qed.

Lemma terminal_success_tests status :
  terminal_success status = true ->
  includes ["finalized"; "awaiting"] status = true.
Proof.
  unfold terminal_success, includes. simpl. intros H. now rewrite orb_false_r.
Qed.

(** A status that ends the poll with a result is a string. *)
Lemma terminal_success_text status :
  includes ["finalized"; "awaiting"] status = true ->
  exists text, status = Some (JStr text) /\ template status = Some text.
Proof.
  destruct status as [[| b | n | s | items | props] |]; try discriminate. eauto.
Qed.

Lemma loosely_failed_is_no_success status :
  loose_eq_str status "failed" = Some true ->
  includes ["finalized"; "awaiting"] status = false.
Proof.
  destruct status as [[| b | n | t | items | props] |]; try reflexivity.
  cbn [loose_eq_str]. intros [= Ht]. apply String.eqb_eq in Ht. now subst t.
Qed.

(** ** One iteration of the poll loop *)

Lemma get_prop_field d key w :
  d <> JNull -> get_prop d key w = (Return (field d key), w).
Proof. destruct d; intros H; try reflexivity. now destruct H. Qed.

Lemma poll_request_text id hf text :
  js_to_string id = Some text ->
  poll_request id hf
  = mkRequest ("https://browser.ai/api/v1/tasks/" +:+ text) "GET" None (hf tt).
Proof. intros Hid. unfold poll_request. now rewrite Hid. Qed.

(** An identifier without string form: the iteration throws at the URL
    template, before any request. *)
Lemma poll_loop_without_text fuel id hf ctx idx w :
  js_to_string id = None ->
  poll_loop (S fuel) id hf ctx idx w = (Throw no_primitive, w).
Proof. intros Hid. simpl. now rewrite Hid. Qed.

(** The common head of an iteration: request, body, status, log line,
    progress report. *)
Lemma poll_iteration fuel id hf ctx idx w r d text :
  js_to_string id = Some text ->
  net w (fetches w) (poll_request id hf) = Responds r ->
  carries r d ->
  poll_loop (S fuel) id hf ctx idx w =
  (let status := field d "status" in
   if includes ["finalized"; "awaiting"] status then
     status_text <- converted (template status) ;;
     result <- get_prop d "result" ;;
     log_info ("Task " +:+ status_text) ;;;
     ret result
   else
     failed <- converted (loose_eq_str status "failed") ;;
     if failed then
       error <- get_prop d "error" ;;
       log_error "Task poll failed" ;;;
       error_text <- converted (template error) ;;
       throw (Error ("Task " +:+ text +:+ " failed: " +:+ error_text))
     else
       sleep 3000 ;;;
       poll_loop fuel id hf ctx (next_idx ctx idx))
    (advance 1 (poll_events (poll_request id hf) ctx idx) w).
Proof.
  intros Hid Hnet [Hjson Hnull]. rewrite (poll_request_text id hf text Hid) in *.
  simpl. rewrite Hid. unfold converted at 1. unfold bind at 1, ret at 1.
  rewrite (bind_return _ _ _ _ _ (fetch_responds _ _ _ Hnet)).
  unfold response_json. rewrite Hjson.
  unfold bind at 1, ret at 1.
  rewrite (bind_return _ _ _ _ _ (get_prop_field d "status" _ Hnull)).
  unfold log_info, emit, bind at 1. rewrite advance_advance.
  unfold poll_events, next_idx.
  destruct (reportProgress_is_function ctx).
  - unfold bind at 1. unfold bind at 1. rewrite advance_advance. reflexivity.
  - unfold bind at 1, ret at 1. reflexivity.
Qed.

Lemma sleep_then {A} ms (k : M A) n evs w :
  (sleep ms ;;; k) (advance n evs w) = k (advance n (evs ++ [EDelay ms]) w).
Proof.
  unfold sleep, emit, bind. rewrite advance_advance. reflexivity.
Qed.

Lemma log_then {A} l msg (k : M A) n evs w :
  (emit (ELog l msg) ;;; k) (advance n evs w) = k (advance n (evs ++ [ELog l msg]) w).
Proof.
  unfold emit, bind. rewrite advance_advance. reflexivity.
Qed.

(** What an iteration does once it has the status: either it settles,
    having added at most one line to the log, or the status keeps the
    poller polling and the iteration ends in the delay. *)
Lemma poll_iteration_cases id hf r d text :
  js_to_string id = Some text ->
  carries r d ->
  (exists outcome log,
      outcome <> Pending
      /\ (log = [] \/ exists level message, log = [ELog level message])
      /\ nonterminal (field d "status") = false
      /\ (forall v, outcome = Return v ->
                    terminal_success (field d "status") = true /\ v = field d "result")
      /\ forall fuel ctx idx w,
          net w (fetches w) (poll_request id hf) = Responds r ->
          poll_loop (S fuel) id hf ctx idx w
          = (outcome, advance 1 (poll_events (poll_request id hf) ctx idx ++ log) w))
  \/ (nonterminal (field d "status") = true
      /\ forall fuel ctx idx w,
          net w (fetches w) (poll_request id hf) = Responds r ->
          poll_loop (S fuel) id hf ctx idx w
          = poll_loop fuel id hf ctx (next_idx ctx idx)
              (advance 1 (poll_events (poll_request id hf) ctx idx ++ [EDelay 3000]) w)).
Proof.
  intros Hid Hd. unfold nonterminal.
  destruct (includes ["finalized"; "awaiting"] (field d "status")) eqn:Hinc.
  { left. destruct (terminal_success_text _ Hinc) as (status_text & Hst & Htext).
    exists (Return (field d "result")), [ELog Info ("Task " +:+ status_text)].
    split; [discriminate |]. split; [right; eauto |]. split; [reflexivity |].
    split.
    - intros v [= <-]. split; [| reflexivity].
      unfold includes in Hinc. simpl in Hinc. unfold terminal_success.
      now rewrite orb_false_r in Hinc.
    - intros fuel ctx idx w Hnet.
      rewrite (poll_iteration _ _ _ _ _ _ _ _ _ Hid Hnet Hd). cbv zeta. rewrite Hinc, Htext.
      unfold converted. unfold bind at 1, ret at 1.
      rewrite (bind_return _ _ _ _ _ (get_prop_field d "result" _ (proj2 Hd))).
      unfold log_info. rewrite log_then. reflexivity. }
  destruct (loose_eq_str (field d "status") "failed") as [[] |] eqn:Hloose.
  - left. destruct (template (field d "error")) as [error_text |] eqn:Herr.
    + exists (Throw (Error ("Task " +:+ text +:+ " failed: " +:+ error_text))),
        [ELog Err "Task poll failed"].
      split; [discriminate |]. split; [right; eauto |]. split; [reflexivity |].
      split; [discriminate |].
      intros fuel ctx idx w Hnet.
      rewrite (poll_iteration _ _ _ _ _ _ _ _ _ Hid Hnet Hd). cbv zeta. rewrite Hinc, Hloose.
      unfold converted at 1. unfold bind at 1, ret at 1.
      rewrite (bind_return _ _ _ _ _ (get_prop_field d "error" _ (proj2 Hd))).
      unfold log_error. rewrite log_then. rewrite Herr. reflexivity.
    + exists (Throw no_primitive), [ELog Err "Task poll failed"].
      split; [discriminate |]. split; [right; eauto |]. split; [reflexivity |].
      split; [discriminate |].
      intros fuel ctx idx w Hnet.
      rewrite (poll_iteration _ _ _ _ _ _ _ _ _ Hid Hnet Hd). cbv zeta. rewrite Hinc, Hloose.
      unfold converted at 1. unfold bind at 1, ret at 1.
      rewrite (bind_return _ _ _ _ _ (get_prop_field d "error" _ (proj2 Hd))).
      unfold log_error. rewrite log_then. rewrite Herr. reflexivity.
  - right. split; [reflexivity |].
    intros fuel ctx idx w Hnet.
    rewrite (poll_iteration _ _ _ _ _ _ _ _ _ Hid Hnet Hd). cbv zeta. rewrite Hinc, Hloose.
    unfold converted. unfold bind at 1, ret at 1. now rewrite sleep_then.
  - left. exists (Throw no_primitive), [].
    split; [discriminate |]. split; [now left |]. split; [reflexivity |].
    split; [discriminate |].
    intros fuel ctx idx w Hnet.
    rewrite (poll_iteration _ _ _ _ _ _ _ _ _ Hid Hnet Hd). cbv zeta. rewrite Hinc, Hloose.
    rewrite app_nil_r. reflexivity.
Qed.

(** A status that keeps the poller polling: the iteration ends in the
    delay and hands over to the next. *)
Lemma poll_iteration_running fuel id hf ctx idx w r d text :
  js_to_string id = Some text ->
  net w (fetches w) (poll_request id hf) = Responds r ->
  carries r d ->
  nonterminal (field d "status") = true ->
  poll_loop (S fuel) id hf ctx idx w
  = poll_loop fuel id hf ctx (next_idx ctx idx)
      (advance 1 (poll_events (poll_request id hf) ctx idx ++ [EDelay 3000]) w).
Proof.
  intros Hid Hnet Hd Hst.
  destruct (poll_iteration_cases id hf r d text Hid Hd)
    as [(outcome & log & _ & _ & Hno & _) | [_ Hstep]].
  - congruence.
  - now apply Hstep.
Qed.

(** Iterations that find the task running: each consumes one response
    and one unit of fuel, and leaves its events and the delay behind. *)
Lemma poll_loop_running running :
  forall fuel id hf ctx idx w text,
    js_to_string id = Some text ->
    answered w (poll_request id hf) running ->
    Forall reports_running running ->
    poll_loop (length running + fuel) id hf ctx idx w =
    poll_loop fuel id hf ctx (idx_after (length running) ctx idx)
      (advance (length running)
               (running_events (length running) (poll_request id hf) ctx idx) w).
Proof.
  induction running as [| r running IH]; intros fuel id hf ctx idx w text Hid Hans Hrun.
  - simpl. unfold advance. rewrite app_nil_r. now destruct w.
  - apply Forall_cons_1 in Hrun as [(d & Hd & Hst) Hrun].
    set (evs := (poll_events (poll_request id hf) ctx idx ++ [EDelay 3000])%list).
    destruct (answered_cons _ _ _ _ evs Hans) as [Hnet Hrest].
    simpl length. simpl Nat.add.
    rewrite (poll_iteration_running _ _ _ _ _ _ _ _ _ Hid Hnet Hd Hst). fold evs.
    rewrite (IH fuel id hf ctx (next_idx ctx idx) _ text Hid Hrest Hrun).
    rewrite advance_advance. simpl.
    f_equal. unfold evs. rewrite <- app_assoc.
    replace (length running + 1)%nat with (S (length running)) by lia.
    reflexivity.
Qed.

(** ** Projections of the traces *)

Lemma io_app a b : io (a ++ b) = (io a ++ io b)%list.
Proof.
  induction a as [| [] a IH]; simpl; auto. all: now rewrite IH.
Qed.

Lemma requests_app a b : requests (a ++ b) = (requests a ++ requests b)%list.
Proof.
  induction a as [| [] a IH]; simpl; auto. now rewrite IH.
Qed.

Lemma delays_app a b : delays (a ++ b) = (delays a ++ delays b)%list.
Proof.
  induction a as [| [] a IH]; simpl; auto. now rewrite IH.
Qed.

Lemma progress_reports_app a b :
  progress_reports (a ++ b) = (progress_reports a ++ progress_reports b)%list.
Proof.
  induction a as [| [] a IH]; simpl; auto. now rewrite IH.
Qed.

Lemma without_progress_app a b :
  without_progress (a ++ b) = (without_progress a ++ without_progress b)%list.
Proof.
  induction a as [| [] a IH]; simpl; auto. all: now rewrite IH.
Qed.

Lemma requests_io evs : requests (io evs) = requests evs.
Proof. induction evs as [| [] evs IH]; simpl; auto. now rewrite IH. Qed.

Lemma delays_io evs : delays (io evs) = delays evs.
Proof. induction evs as [| [] evs IH]; simpl; auto. now rewrite IH. Qed.

Lemma io_poll_events req ctx idx : io (poll_events req ctx idx) = [EFetch req].
Proof. unfold poll_events. now destruct (reportProgress_is_function ctx). Qed.

Lemma io_running_events n :
  forall req ctx idx tail,
    io tail = [EFetch req] ->
    io (running_events n req ctx idx ++ tail) = polls_and_delays n req.
Proof.
  induction n as [| n IH]; intros req ctx idx tail Htail.
  - exact Htail.
  - cbn [running_events]. rewrite <- !app_assoc, io_app, io_poll_events.
    simpl. now rewrite IH.
Qed.

Lemma requests_polls_and_delays n req :
  requests (polls_and_delays n req) = replicate (S n) req.
Proof. induction n as [| n IH]; simpl; auto. now rewrite IH. Qed.

Lemma delays_polls_and_delays n req :
  delays (polls_and_delays n req) = replicate n 3000.
Proof. induction n as [| n IH]; simpl; auto. now rewrite IH. Qed.

(** ** The poller on a task that ends *)

Lemma poll_to_the_last running final :
  forall fuel id hf ctx w d text,
    js_to_string id = Some text ->
    answered w (poll_request id hf) (running ++ [final]) ->
    Forall reports_running running ->
    carries final d ->
    (length running < fuel)%nat ->
    exists fuel' w',
      poll_task_result fuel id hf ctx w =
      poll_loop (S fuel') id hf ctx (idx_after (length running) ctx 0) w'
      /\ w' = advance (length running)
                (running_events (length running) (poll_request id hf) ctx 0) w
      /\ net w' (fetches w') (poll_request id hf) = Responds final.
Proof.
  intros fuel id hf ctx w d text Hid Hans Hrun Hd Hfuel.
  exists (fuel - S (length running))%nat. eexists. split; [| split; [reflexivity |]].
  - unfold poll_task_result.
    replace fuel with (length running + S (fuel - S (length running)))%nat at 1 by lia.
    apply (poll_loop_running running _ _ _ _ _ _ text Hid); [| exact Hrun].
    intros i r Hi. apply Hans. now apply lookup_app_l_Some.
  - simpl. rewrite Nat.add_comm. apply Hans.
    rewrite lookup_app_r by lia. now rewrite Nat.sub_diag.
Qed.

(** C1.  When the polls of a task are answered by [n] responses with
    a status that keeps the poller polling and then by one whose
    status is [finalized] or [awaiting], the poller, given fuel for
    more than [n] iterations, returns the [result] property of that
    last response; it has then made exactly [n + 1] requests, all of
    them the GET of the task's URL, and exactly [n] delays of 3000 ms,
    one between each two consecutive requests.  The statuses that keep
    it polling are those that are not the string [finalized] or
    [awaiting] and that [== 'failed'] finds different from [failed].
    (An identifier that has no string form is never polled: the poller
    throws at the URL template, before any request.) *)
Theorem poll_returns_terminal_result
  (fuel : nat) (id : json) (hf : unit -> headers) (ctx : context) (w : world)
  (running : list response) (final : response) (d : json) :
  answered w (poll_request id hf) (running ++ [final]) ->
  Forall reports_running running ->
  carries final d ->
  terminal_success (field d "status") = true ->
  (length running < fuel)%nat ->
  match js_to_string id with
  | Some text =>
      exists evs,
        poll_task_result fuel id hf ctx w
        = (Return (field d "result"), advance (S (length running)) evs w)
        /\ io evs = polls_and_delays (length running) (poll_request id hf)
        /\ requests evs = replicate (S (length running)) (poll_request id hf)
        /\ poll_request id hf
           = mkRequest ("https://browser.ai/api/v1/tasks/" +:+ text) "GET" None (hf tt)
        /\ delays evs = replicate (length running) 3000
  | None => poll_task_result fuel id hf ctx w = (Throw no_primitive, w)
  end.
Proof.
  intros Hans Hrun Hd Hst Hfuel.
  destruct (js_to_string id) as [text |] eqn:Hid.
  2: { destruct fuel as [| fuel]; [lia |]. now apply poll_loop_without_text. }
  destruct (poll_to_the_last running final fuel id hf ctx w d text Hid Hans Hrun Hd Hfuel)
    as (fuel' & w' & Heq & -> & Hnet).
  destruct (terminal_success_text _ (terminal_success_tests _ Hst))
    as (status_text & _ & Htext).
  set (n := length running) in *.
  set (req := poll_request id hf) in *.
  set (idx := idx_after n ctx 0) in *.
  exists (running_events n req ctx 0
          ++ poll_events req ctx idx
          ++ [ELog Info ("Task " +:+ status_text)])%list.
  assert (Hio : io (running_events n req ctx 0
                    ++ poll_events req ctx idx
                    ++ [ELog Info ("Task " +:+ status_text)])
                = polls_and_delays n req).
  { apply io_running_events. now rewrite io_app, io_poll_events. }
  split; [| split; [exact Hio | split; [| split; [now apply poll_request_text |]]]].
  - rewrite Heq, (poll_iteration _ _ _ _ _ _ _ _ _ Hid Hnet Hd).
    cbv zeta. rewrite (terminal_success_tests _ Hst), Htext.
    unfold converted. unfold bind at 1, ret at 1.
    rewrite advance_advance.
    rewrite (bind_return _ _ _ _ _ (get_prop_field d "result" _ (proj2 Hd))).
    unfold log_info. rewrite log_then. unfold ret.
    rewrite <- app_assoc. reflexivity.
  - now rewrite <- requests_io, Hio, requests_polls_and_delays.
  - now rewrite <- delays_io, Hio, delays_polls_and_delays.
Qed.

(** The task [t1] of the scenario: [pending], [pending], then
    [finalized] with result [{x: 1}]; three requests and two delays. *)
Lemma poll_returns_terminal_result_witness :
  let script := [ok_response (status_only "pending");
                 ok_response (status_only "pending");
                 ok_response (JObj [("status", JStr "finalized");
                                    ("result", JObj [("x", JNum 1)])])] in
  let w := scripted (map Responds script) in
  exists evs,
    poll_task_result 3 (JStr "t1") test_headers with_progress w
    = (Return (Some (JObj [("x", JNum 1)])), advance 3 evs w)
    /\ io evs = polls_and_delays 2 (poll_request (JStr "t1") test_headers)
    /\ requests evs = replicate 3 (poll_request (JStr "t1") test_headers)
    /\ poll_request (JStr "t1") test_headers
       = mkRequest "https://browser.ai/api/v1/tasks/t1" "GET" None (test_headers tt)
    /\ delays evs = [3000; 3000].
Proof.
  intros script w.
  apply (poll_returns_terminal_result 3 (JStr "t1") test_headers with_progress w
           [ok_response (status_only "pending"); ok_response (status_only "pending")]
           (ok_response (JObj [("status", JStr "finalized");
                               ("result", JObj [("x", JNum 1)])]))
           (JObj [("status", JStr "finalized"); ("result", JObj [("x", JNum 1)])])).
  - intros [| [| [| i]]] r Hi; simpl in Hi; inversion Hi; reflexivity.
  - repeat constructor.
    all: exists (status_only "pending"); repeat split; discriminate.
  - split; [reflexivity | discriminate].
  - reflexivity.
  - simpl; lia.
Defined.

(** A status that is none of the three names and yet stops the poller:
    the array holding the string [failed], which [==] converts to that
    string.  The first response has it, the second is [finalized]; the
    poller throws after the first request and never sees the second. *)
Lemma poll_returns_terminal_result_counterexample :
  let odd := ok_response (JObj [("status", JArr [JStr "failed"])]) in
  let final := ok_response (JObj [("status", JStr "finalized");
                                  ("result", JObj [("x", JNum 1)])]) in
  let w := scripted [Responds odd; Responds final] in
  let run := poll_task_result 5 (JStr "t1") test_headers with_progress w in
  other_status (Some (JArr [JStr "failed"])) = true
  /\ fst run = Throw (Error "Task t1 failed: undefined")
  /\ fst run <> Return (Some (JObj [("x", JNum 1)]))
  /\ requests (trace (snd run)) = [poll_request (JStr "t1") test_headers]
  /\ delays (trace (snd run)) = [].
Proof.
  intros odd final w run.
  assert (Hrun : fst run = Throw (Error "Task t1 failed: undefined"))
    by (vm_compute; reflexivity).
  split; [reflexivity |]. split; [exact Hrun |].
  split; [rewrite Hrun; discriminate |].
  split; vm_compute; reflexivity.
Qed.

(** C2.  When the polls of a task are answered by [k - 1] responses
    that report it running and then by one with status [failed] and
    error string [err], the poller throws the error whose message names
    the task id, by its string form, and [err]; it has then made
    exactly [k] requests, all of them the GET of the task's URL with
    the adapter's headers, and [k - 1] delays, and however much fuel is
    left no request follows.  (An identifier that has no string form
    is never polled: the poller throws at the URL template, before any
    request.) *)
Theorem poll_signals_task_failed
  (fuel : nat) (id : json) (hf : unit -> headers) (ctx : context) (w : world)
  (running : list response) (final : response) (d : json) (err : string) :
  answered w (poll_request id hf) (running ++ [final]) ->
  Forall reports_running running ->
  carries final d ->
  field d "status" = Some (JStr "failed") ->
  field d "error" = Some (JStr err) ->
  (length running < fuel)%nat ->
  match js_to_string id with
  | Some text =>
      exists evs,
        poll_task_result fuel id hf ctx w
        = (Throw (Error ("Task " +:+ text +:+ " failed: " +:+ err)),
           advance (S (length running)) evs w)
        /\ io evs = polls_and_delays (length running) (poll_request id hf)
        /\ requests evs = replicate (S (length running)) (poll_request id hf)
        /\ Forall (fun q => req_method q = "GET"
                            /\ req_url q = "https://browser.ai/api/v1/tasks/" +:+ text
                            /\ req_headers q = hf tt)
                  (requests evs)
        /\ delays evs = replicate (length running) 3000
  | None => poll_task_result fuel id hf ctx w = (Throw no_primitive, w)
  end.
Proof.
  intros Hans Hrun Hd Hst Herr Hfuel.
  destruct (js_to_string id) as [text |] eqn:Hid.
  2: { destruct fuel as [| fuel]; [lia |]. now apply poll_loop_without_text. }
  destruct (poll_to_the_last running final fuel id hf ctx w d text Hid Hans Hrun Hd Hfuel)
    as (fuel' & w' & Heq & -> & Hnet).
  pose proof (poll_request_text id hf text Hid) as Hreq.
  set (n := length running) in *.
  set (req := poll_request id hf) in *.
  set (idx := idx_after n ctx 0) in *.
  exists (running_events n req ctx 0
          ++ poll_events req ctx idx ++ [ELog Err "Task poll failed"])%list.
  assert (Hio : io (running_events n req ctx 0
                    ++ poll_events req ctx idx ++ [ELog Err "Task poll failed"])
                = polls_and_delays n req).
  { apply io_running_events. now rewrite io_app, io_poll_events. }
  assert (Hreqs : requests (running_events n req ctx 0
                            ++ poll_events req ctx idx ++ [ELog Err "Task poll failed"])
                  = replicate (S n) req).
  { now rewrite <- requests_io, Hio, requests_polls_and_delays. }
  split; [| split; [exact Hio | split; [exact Hreqs | split]]].
  - rewrite Heq, (poll_iteration _ _ _ _ _ _ _ _ _ Hid Hnet Hd).
    cbv zeta. rewrite Hst. cbn [includes existsb strict_eq_str loose_eq_str].
    simpl (String.eqb _ _). cbn [orb].
    unfold converted at 1. unfold bind at 1, ret at 1.
    rewrite advance_advance.
    rewrite (bind_return _ _ _ _ _ (get_prop_field d "error" _ (proj2 Hd))).
    unfold log_error. rewrite log_then. rewrite Herr. unfold throw.
    rewrite <- app_assoc. reflexivity.
  - rewrite Hreqs. apply Forall_replicate. rewrite Hreq. repeat split.
  - now rewrite <- delays_io, Hio, delays_polls_and_delays.
Qed.

(** The task [t2] of the scenario: [failed] with error [blocked] on
    the first poll; one request, no delay. *)
Lemma poll_signals_task_failed_witness :
  let final := ok_response (JObj [("status", JStr "failed"); ("error", JStr "blocked")]) in
  let w := scripted [Responds final] in
  exists evs,
    poll_task_result 10 (JStr "t2") test_headers with_progress w
    = (Throw (Error "Task t2 failed: blocked"), advance 1 evs w)
    /\ io evs = [EFetch (poll_request (JStr "t2") test_headers)]
    /\ requests evs = [poll_request (JStr "t2") test_headers]
    /\ Forall (fun q => req_method q = "GET"
                        /\ req_url q = "https://browser.ai/api/v1/tasks/t2"
                        /\ req_headers q = test_headers tt)
              (requests evs)
    /\ delays evs = [].
Proof.
  intros final w.
  apply (poll_signals_task_failed 10 (JStr "t2") test_headers with_progress w
           [] final (JObj [("status", JStr "failed"); ("error", JStr "blocked")])
           "blocked").
  - intros [| i] r Hi; simpl in Hi; inversion Hi; reflexivity.
  - constructor.
  - split; [reflexivity | discriminate].
  - reflexivity.
  - reflexivity.
  - simpl; lia.
Defined.

(** ** Every run of the poll loop *)

(** An iteration whose response cannot be used throws after its
    request. *)
Lemma poll_loop_aborts id hf w e text :
  js_to_string id = Some text ->
  unusable (net w (fetches w) (poll_request id hf)) = Some e ->
  forall fuel ctx idx,
    poll_loop (S fuel) id hf ctx idx w
    = (Throw e, advance 1 [EFetch (poll_request id hf)] w).
Proof.
  intros Hid Hun fuel ctx idx. rewrite (poll_request_text id hf text Hid) in *.
  simpl. rewrite Hid. unfold converted at 1. unfold bind at 1, ret at 1.
  unfold bind at 1, fetch.
  destruct (net w (fetches w) _) as [r | e']; simpl in Hun.
  - unfold response_json.
    destruct (resp_json r) as [[] |]; try discriminate; now injection Hun as <-.
  - now injection Hun as <-.
Qed.

Lemma carries_dec o :
  (exists r d, o = Responds r /\ carries r d) \/ (exists e, unusable o = Some e).
Proof.
  destruct o as [r | e]; simpl; [| right; eauto].
  destruct (resp_json r) as [d |] eqn:Hjson; [| right; eauto].
  destruct d; try (right; eexists; reflexivity).
  all: left; eexists _, _; split; [reflexivity | split; [eassumption | discriminate]].
Qed.

(** What a settling iteration adds to the log is neither a request, a
    delay nor a progress report. *)
Lemma log_only log :
  log = [] \/ (exists level message, log = [ELog level message]) ->
  io log = [] /\ requests log = [] /\ delays log = []
  /\ progress_reports log = [] /\ without_progress log = log.
Proof. intros [-> | (level & message & ->)]; repeat split. Qed.

(** Whatever the fuel and the network, a run of the loop for an
    identifier that has a string form only adds requests and events
    to the world, and an iteration starts with the GET of the task. *)
Lemma poll_loop_advances fuel :
  forall id hf ctx idx w text,
    js_to_string id = Some text ->
    exists outcome n evs,
      poll_loop (S fuel) id hf ctx idx w
      = (outcome, advance (S n) (EFetch (poll_request id hf) :: evs) w).
Proof.
  induction fuel as [| fuel IH]; intros id hf ctx idx w text Hid.
  all: destruct (carries_dec (net w (fetches w) (poll_request id hf)))
    as [(r & d & Hnet & Hd) | [e Hno]].
  2, 4: rewrite (poll_loop_aborts id hf w e text Hid Hno);
     exists (Throw e), 0%nat, []; reflexivity.
  all: destruct (poll_iteration_cases id hf r d text Hid Hd)
    as [(outcome & log & _ & _ & _ & _ & Hstep) | [_ Hstep]];
    rewrite (Hstep _ ctx idx w Hnet).
  1, 3: exists outcome, 0%nat; eexists; unfold poll_events;
     rewrite <- ?app_comm_cons; reflexivity.
  - simpl. unfold pending. eexists _, 0%nat, _.
    unfold poll_events. rewrite <- ?app_comm_cons. reflexivity.
  - destruct (IH id hf ctx (next_idx ctx idx)
                (advance 1 (poll_events (poll_request id hf) ctx idx ++ [EDelay 3000]) w)
                text Hid)
      as (outcome & n & evs & ->).
    rewrite advance_advance.
    exists outcome, (S n). eexists.
    replace (S n + 1)%nat with (S (S n)) by lia.
    unfold poll_events. rewrite <- ?app_comm_cons. reflexivity.
Qed.

(** A result is returned only from an iteration whose response carried
    data with status [finalized] or [awaiting], and it is the [result]
    property of that response; this iteration made the last request. *)
Lemma poll_loop_returns_terminal fuel :
  forall id hf ctx idx w v w',
    poll_loop fuel id hf ctx idx w = (Return v, w') ->
    exists k evs r d,
      w' = advance (S k) evs w
      /\ net w (fetches w + k)%nat (poll_request id hf) = Responds r
      /\ carries r d
      /\ terminal_success (field d "status") = true
      /\ v = field d "result".
Proof.
  induction fuel as [| fuel IH]; intros id hf ctx idx w v w' Hrun.
  - discriminate.
  - destruct (js_to_string id) as [text |] eqn:Hid.
    2: { rewrite (poll_loop_without_text _ _ _ _ _ _ Hid) in Hrun. discriminate. }
    destruct (carries_dec (net w (fetches w) (poll_request id hf)))
      as [(r & d & Hnet & Hd) | [e Hno]].
    2: { rewrite (poll_loop_aborts id hf w e text Hid Hno) in Hrun. discriminate. }
    destruct (poll_iteration_cases id hf r d text Hid Hd)
      as [(outcome & log & _ & _ & _ & Hret & Hstep) | [_ Hstep]];
      rewrite (Hstep _ ctx idx w Hnet) in Hrun.
    + injection Hrun as -> <-. destruct (Hret v eq_refl) as [Hst ->].
      exists 0%nat. eexists. exists r, d.
      rewrite Nat.add_0_r. repeat split; try assumption; apply Hd.
    + destruct (IH _ _ _ _ _ _ _ Hrun) as (k & evs & r' & d' & -> & Hnet' & Hd' & Hst & ->).
      exists (S k). eexists. exists r', d'.
      rewrite advance_advance. simpl in Hnet'.
      replace (fetches w + S k)%nat with (S (fetches w + k)) by lia.
      replace (S k + 1)%nat with (S (S k)) by lia.
      repeat split; try assumption; apply Hd'.
Qed.

(** C7.  At a step of the poll loop whose response carries data:
    when the status is [finalized] or [awaiting] the loop returns the
    result with no further request; when it is [failed], or a value
    that [==] converts to that string, the loop throws with no further
    request, however much fuel is left; when it is neither of the two
    success names and [==] finds it different from [failed], the step
    returns nothing, waits, and hands over to the next iteration,
    which issues a further GET of the task's URL; when [==] cannot
    convert it, the loop throws the conversion's error.  And whenever
    the loop returns a result, the response last received had status
    [finalized] or [awaiting] and the result is its [result].  On
    strings the statuses that lead to a further iteration are exactly
    those other than the three names.  (An identifier that has no
    string form is never polled: the step throws at the URL template,
    before any request.) *)
Theorem poll_acts_on_status
  (fuel : nat) (id : json) (hf : unit -> headers) (ctx : context) (idx : Z)
  (w : world) (r : response) (d : json) :
  net w (fetches w) (poll_request id hf) = Responds r ->
  carries r d ->
  match js_to_string id with
  | None => poll_loop (S fuel) id hf ctx idx w = (Throw no_primitive, w)
  | Some text =>
  let status := field d "status" in
  let req := poll_request id hf in
  (terminal_success status = true ->
   exists evs,
     poll_loop (S fuel) id hf ctx idx w = (Return (field d "result"), advance 1 evs w)
     /\ io evs = [EFetch req])
  /\ (loose_eq_str status "failed" = Some true ->
      exists e evs,
        poll_loop (S fuel) id hf ctx idx w = (Throw e, advance 1 evs w)
        /\ io evs = [EFetch req])
  /\ (nonterminal status = true ->
      poll_loop 1 id hf ctx idx w
      = (Pending, advance 1 (poll_events req ctx idx ++ [EDelay 3000]) w)
      /\ poll_loop (S fuel) id hf ctx idx w
         = poll_loop fuel id hf ctx (next_idx ctx idx)
             (advance 1 (poll_events req ctx idx ++ [EDelay 3000]) w)
      /\ exists outcome n evs,
          poll_loop (S (S fuel)) id hf ctx idx w
          = (outcome,
             advance (S (S n))
                     (poll_events req ctx idx ++ EDelay 3000 :: EFetch req :: evs) w))
  /\ (terminal_success status = false ->
      loose_eq_str status "failed" = None ->
      poll_loop (S fuel) id hf ctx idx w
      = (Throw no_primitive, advance 1 (poll_events req ctx idx) w))
  /\ (forall v w',
        poll_loop (S fuel) id hf ctx idx w = (Return v, w') ->
        exists k evs r' d',
          w' = advance (S k) evs w
          /\ net w (fetches w + k)%nat req = Responds r'
          /\ carries r' d'
          /\ terminal_success (field d' "status") = true
          /\ v = field d' "result")
  /\ req = mkRequest ("https://browser.ai/api/v1/tasks/" +:+ text) "GET" None (hf tt)
  /\ (forall s, nonterminal (Some (JStr s)) = other_status (Some (JStr s)))
  end.
Proof.
  intros Hnet Hd.
  destruct (js_to_string id) as [text |] eqn:Hid; [| now apply poll_loop_without_text].
  intros status req.
  assert (Hcases := poll_iteration_cases id hf r d text Hid Hd). fold status req in Hcases.
  split; [| split; [| split; [| split; [| split; [| split]]]]].
  - intros Hst.
    destruct Hcases as [(outcome & log & _ & Hlog & _ & _ & Hstep) | [Hno _]].
    2: { unfold nonterminal in Hno. fold status in Hno.
         rewrite (terminal_success_tests _ Hst) in Hno. discriminate. }
    rewrite (poll_iteration _ _ _ _ _ _ _ _ _ Hid Hnet Hd). cbv zeta. fold status.
    rewrite (terminal_success_tests _ Hst).
    destruct (terminal_success_text _ (terminal_success_tests _ Hst))
      as (status_text & _ & ->).
    unfold converted. unfold bind at 1, ret at 1.
    rewrite (bind_return _ _ _ _ _ (get_prop_field d "result" _ (proj2 Hd))).
    unfold log_info. rewrite log_then. eexists. split; [reflexivity |].
    now rewrite io_app, io_poll_events.
  - intros Hst.
    destruct Hcases as [(outcome & log & Hsettled & Hlog & _ & Hret & Hstep) | [Hno _]].
    2: { unfold nonterminal in Hno. fold status in Hno. rewrite Hst in Hno.
         now rewrite andb_false_r in Hno. }
    destruct outcome as [v | e |].
    + destruct (Hret v eq_refl) as [Hsucc _].
      apply terminal_success_tests in Hsucc.
      rewrite (loosely_failed_is_no_success _ Hst) in Hsucc. discriminate.
    + exists e. eexists. split; [apply Hstep, Hnet |].
      destruct (log_only log Hlog) as (Hio & _).
      now rewrite io_app, io_poll_events, Hio.
    + now destruct Hsettled.
  - intros Hst.
    assert (Hstep : forall f,
               poll_loop (S f) id hf ctx idx w
               = poll_loop f id hf ctx (next_idx ctx idx)
                   (advance 1 (poll_events req ctx idx ++ [EDelay 3000]) w)).
    { intros f. now apply (poll_iteration_running _ _ _ _ _ _ r d text). }
    split; [| split].
    + now rewrite Hstep.
    + apply Hstep.
    + rewrite Hstep.
      destruct (poll_loop_advances fuel id hf ctx (next_idx ctx idx)
                  (advance 1 (poll_events req ctx idx ++ [EDelay 3000]) w) text Hid)
        as (outcome & n & evs & ->).
      exists outcome, n, evs. rewrite advance_advance.
      replace (S n + 1)%nat with (S (S n)) by lia.
      now rewrite <- app_assoc.
  - intros Hsucc Hnone.
    rewrite (poll_iteration _ _ _ _ _ _ _ _ _ Hid Hnet Hd). cbv zeta. fold status.
    assert (Hinc : includes ["finalized"; "awaiting"] status = false).
    { unfold terminal_success in Hsucc. unfold includes. simpl.
      now rewrite orb_false_r. }
    now rewrite Hinc, Hnone.
  - intros v w' Hrun. exact (poll_loop_returns_terminal _ _ _ _ _ _ _ _ Hrun).
  - now apply poll_request_text.
  - apply nonterminal_string.
Qed.

Lemma poll_acts_on_status_witness :
  let w := scripted [Responds (ok_response (status_only "pending"))] in
  poll_loop 1 (JStr "t1") test_headers with_progress 0 w
  = (Pending,
     advance 1 (poll_events (poll_request (JStr "t1") test_headers) with_progress 0
                ++ [EDelay 3000]) w).
Proof.
  intros w.
  destruct (poll_acts_on_status 0 (JStr "t1") test_headers with_progress 0 w
              (ok_response (status_only "pending")) (status_only "pending")
              eq_refl ltac:(split; [reflexivity | discriminate]))
    as (_ & _ & Hrunning & _).
  apply Hrunning. reflexivity.
Defined.

(** Two statuses that are none of the three names and lead to no
    further poll: the array holding [failed] makes the step throw the
    task's failure, and an object with an own [toString] makes the
    comparison itself throw.  In both runs the fuel would allow four
    more iterations and the network a second answer. *)
Lemma poll_acts_on_status_counterexample :
  let array_status := JArr [JStr "failed"] in
  let object_status := JObj [("toString", JNum 1)] in
  let answers status := [Responds (ok_response (JObj [("status", status)]));
                         Responds (ok_response (status_only "finalized"))] in
  let run status :=
    poll_loop 5 (JStr "t1") test_headers with_progress 0 (scripted (answers status)) in
  other_status (Some array_status) = true
  /\ fst (run array_status) = Throw (Error "Task t1 failed: undefined")
  /\ requests (trace (snd (run array_status))) = [poll_request (JStr "t1") test_headers]
  /\ other_status (Some object_status) = true
  /\ fst (run object_status) = Throw no_primitive
  /\ requests (trace (snd (run object_status))) = [poll_request (JStr "t1") test_headers].
Proof.
  intros array_status object_status answers run.
  repeat split; vm_compute; reflexivity.
Qed.

(** ** Progress reports *)

Lemma counting_S idx m : counting idx (S m) = (idx, 20) :: counting (idx + 1) m.
Proof.
  unfold counting. simpl. rewrite Z.add_0_r. f_equal.
  rewrite <- seq_shift, map_map. apply map_ext.
  intros i. f_equal. lia.
Qed.

Lemma counting_lookup idx m k p t :
  counting idx m !! k = Some (p, t) -> p = idx + Z.of_nat k /\ t = 20.
Proof.
  unfold counting. rewrite list_lookup_fmap.
  destruct (seq 0 m !! k) as [i |] eqn:Hi; [| discriminate].
  apply lookup_seq in Hi as [-> _]. simpl. intros [= <- <-]. auto.
Qed.

(** With and without a progress sink, in worlds with the same network,
    the loop settles the same way after the same requests; the sink
    adds one report per iteration that got as far as reading the
    status, counting up from [idx] with total 20, and nothing else
    changes. *)
Lemma poll_loop_progress fuel :
  forall id hf on off idx idx' w w',
    reportProgress_is_function on = true ->
    reportProgress_is_function off = false ->
    net w = net w' ->
    fetches w = fetches w' ->
    exists outcome n evs m,
      poll_loop fuel id hf on idx w = (outcome, advance n evs w)
      /\ poll_loop fuel id hf off idx' w' = (outcome, advance n (without_progress evs) w')
      /\ progress_reports evs = counting idx m
      /\ progress_reports (without_progress evs) = []
      /\ (m <= n <= S m)%nat
      /\ requests evs = replicate n (poll_request id hf).
Proof.
  induction fuel as [| fuel IH]; intros id hf on off idx idx' w w' Hon Hoff Hnw Hfw.
  - exists Pending, 0%nat, [], 0%nat. simpl. unfold pending, advance.
    rewrite !app_nil_r. destruct w, w'; simpl. repeat split; reflexivity || lia.
  - destruct (js_to_string id) as [text |] eqn:Hid.
    2: { exists (Throw no_primitive), 0%nat, [], 0%nat.
         rewrite !(poll_loop_without_text _ _ _ _ _ _ Hid). unfold advance.
         rewrite !app_nil_r. destruct w, w'; simpl. repeat split; reflexivity || lia. }
    assert (Hsame : net w' (fetches w') (poll_request id hf)
                    = net w (fetches w) (poll_request id hf)) by now rewrite Hnw, Hfw.
    destruct (carries_dec (net w (fetches w) (poll_request id hf)))
      as [(r & d & Hnet & Hd) | [e Hno]].
    2: { exists (Throw e), 1%nat, [EFetch (poll_request id hf)], 0%nat.
         rewrite (poll_loop_aborts id hf w e text Hid Hno).
         rewrite <- Hsame in Hno. rewrite (poll_loop_aborts id hf w' e text Hid Hno).
         repeat split; reflexivity || lia. }
    assert (Hnet' : net w' (fetches w') (poll_request id hf) = Responds r)
      by now rewrite Hsame.
    assert (Hev : without_progress (poll_events (poll_request id hf) on idx)
                  = poll_events (poll_request id hf) off idx').
    { unfold poll_events. now rewrite Hon, Hoff. }
    assert (Hpr : progress_reports (poll_events (poll_request id hf) on idx) = [(idx, 20)]).
    { unfold poll_events. now rewrite Hon. }
    assert (Hpr' : progress_reports (poll_events (poll_request id hf) off idx') = []).
    { unfold poll_events. now rewrite Hoff. }
    assert (Hrq : requests (poll_events (poll_request id hf) on idx) = [poll_request id hf]).
    { unfold poll_events. now rewrite Hon. }
    destruct (poll_iteration_cases id hf r d text Hid Hd)
      as [(outcome & log & _ & Hlog & _ & _ & Hstep) | [_ Hstep]];
      rewrite (Hstep _ on idx w Hnet), (Hstep _ off idx' w' Hnet').
    { destruct (log_only log Hlog) as (_ & Hlr & _ & Hlp & Hlw).
      eexists _, 1%nat, _, 1%nat. split; [reflexivity |].
      rewrite without_progress_app, Hev, Hlw, !progress_reports_app, Hpr, Hpr', Hlp,
        counting_S.
      rewrite requests_app, Hrq, Hlr.
      repeat split; reflexivity || lia. }
    assert (Hnext : next_idx on idx = idx + 1) by (unfold next_idx; now rewrite Hon).
    assert (Hnext' : next_idx off idx' = idx') by (unfold next_idx; now rewrite Hoff).
    rewrite Hnext, Hnext'.
    set (evs1 := (poll_events (poll_request id hf) on idx ++ [EDelay 3000])%list).
    set (evs1' := (poll_events (poll_request id hf) off idx' ++ [EDelay 3000])%list).
    assert (Hevs1 : without_progress evs1 = evs1').
    { unfold evs1, evs1'. now rewrite without_progress_app, Hev. }
    assert (Hp1 : progress_reports evs1 = [(idx, 20)]).
    { unfold evs1. now rewrite progress_reports_app, Hpr. }
    destruct (IH id hf on off (idx + 1) idx' (advance 1 evs1 w) (advance 1 evs1' w')
                Hon Hoff Hnw ltac:(simpl; now rewrite Hfw))
      as (outcome & n & evs & m & Hrun & Hrun' & Hrep & Hnone & Hm & Hreqs).
    exists outcome, (S n), (evs1 ++ evs)%list, (S m).
    assert (Hrq1 : requests evs1 = [poll_request id hf]).
    { unfold evs1. now rewrite requests_app, Hrq. }
    rewrite requests_app, Hrq1, Hreqs.
    rewrite Hrun, Hrun', !advance_advance.
    replace (n + 1)%nat with (S n) by lia.
    rewrite without_progress_app, Hevs1, !progress_reports_app, Hp1, Hnone.
    rewrite counting_S, Hrep.
    assert (Hp1' : progress_reports evs1' = []).
    { unfold evs1'. now rewrite progress_reports_app, Hpr'. }
    rewrite Hp1'. repeat split; reflexivity || lia.
Qed.

Lemma requests_without_progress evs : requests (without_progress evs) = requests evs.
Proof. induction evs as [| [] evs IH]; simpl; auto. now rewrite IH. Qed.

(** Whatever the fuel and the network, a run of the loop only adds to
    the world, and the requests it adds are polls of its task. *)
Lemma poll_loop_settles fuel id hf ctx idx w :
  exists outcome n evs,
    poll_loop fuel id hf ctx idx w = (outcome, advance n evs w)
    /\ requests evs = replicate n (poll_request id hf).
Proof.
  destruct (reportProgress_is_function ctx) eqn:Hflag.
  - destruct (poll_loop_progress fuel id hf ctx without_sink idx idx w w
                Hflag eq_refl eq_refl eq_refl) as (o & n & evs & _ & H & _ & _ & _ & _ & Hr).
    eauto.
  - destruct (poll_loop_progress fuel id hf with_progress ctx idx idx w w
                eq_refl Hflag eq_refl eq_refl) as (o & n & evs & _ & _ & H & _ & _ & _ & Hr).
    exists o, n, (without_progress evs). now rewrite requests_without_progress.
Qed.

(** An iteration whose response carries data does what [poll_events]
    lists before anything else. *)
Lemma poll_loop_carrying fuel id hf ctx idx w r d text :
  js_to_string id = Some text ->
  net w (fetches w) (poll_request id hf) = Responds r ->
  carries r d ->
  exists outcome n tail,
    poll_loop (S fuel) id hf ctx idx w
    = (outcome, advance (S n) (poll_events (poll_request id hf) ctx idx ++ tail) w).
Proof.
  intros Hid Hnet Hd.
  destruct (poll_iteration_cases id hf r d text Hid Hd)
    as [(outcome & log & _ & _ & _ & _ & Hstep) | [_ Hstep]];
    rewrite (Hstep _ ctx idx w Hnet).
  { eexists _, 0%nat, _. reflexivity. }
  destruct (poll_loop_settles fuel id hf ctx (next_idx ctx idx)
              (advance 1 (poll_events (poll_request id hf) ctx idx ++ [EDelay 3000]) w))
    as (outcome & n & evs & -> & _).
  rewrite advance_advance. exists outcome, n, ([EDelay 3000] ++ evs)%list.
  rewrite Nat.add_1_r, <- app_assoc. reflexivity.
Qed.

Lemma idx_after_on n :
  forall ctx idx,
    reportProgress_is_function ctx = true ->
    idx_after n ctx idx = idx + Z.of_nat n.
Proof.
  induction n as [| n IH]; intros ctx idx Hon.
  - simpl. lia.
  - cbn [idx_after]. rewrite (IH _ _ Hon). unfold next_idx. rewrite Hon. lia.
Qed.

(** C10.  With a progress sink the loop reports once per iteration,
    total 20 each time and progress counting up from 0 by one: the
    report number [k + 1] carries progress [k], which is above the
    total once [k] is 21 or more.  The reports number as many as the
    requests, or one fewer when the last response could not be used.
    Without a sink nothing is reported, and the outcome, the requests
    and every other event are the same.  When the task is reported
    running [n] times and the next response carries data, iteration
    [n + 1] issues its request, logs the status and reports progress
    [n] of 20.  (An identifier that has no string form is never
    polled: the poller throws before any request or report.) *)
Theorem progress_counts_iterations
  (fuel : nat) (id : json) (hf : unit -> headers) (on off : context) (w : world) :
  reportProgress_is_function on = true ->
  reportProgress_is_function off = false ->
  (exists outcome n evs m,
      poll_task_result fuel id hf on w = (outcome, advance n evs w)
      /\ poll_task_result fuel id hf off w = (outcome, advance n (without_progress evs) w)
      /\ progress_reports (without_progress evs) = []
      /\ length (progress_reports evs) = m
      /\ (m <= n <= S m)%nat
      /\ forall k p t,
          progress_reports evs !! k = Some (p, t) ->
          p = Z.of_nat k /\ t = 20 /\ ((21 <= k)%nat -> p > t))
  /\ (forall running r d,
        answered w (poll_request id hf) (running ++ [r]) ->
        Forall reports_running running ->
        carries r d ->
        (length running < fuel)%nat ->
        match js_to_string id with
        | Some _ =>
            exists outcome n tail,
              poll_task_result fuel id hf on w
              = (outcome,
                 advance n
                   (running_events (length running) (poll_request id hf) on 0
                    ++ [EFetch (poll_request id hf); ELog Info "Task poll status";
                        EProgress (Z.of_nat (length running)) 20]
                    ++ tail) w)
        | None => poll_task_result fuel id hf on w = (Throw no_primitive, w)
        end).
Proof.
  intros Hon Hoff. split.
  - unfold poll_task_result.
    destruct (poll_loop_progress fuel id hf on off 0 0 w w Hon Hoff eq_refl eq_refl)
      as (outcome & n & evs & m & Hrun & Hrun' & Hrep & Hnone & Hm & _).
    exists outcome, n, evs, m. repeat split; try assumption; try lia.
    + rewrite Hrep. unfold counting. now rewrite length_map, length_seq.
    + rewrite Hrep in H. apply counting_lookup in H. lia.
    + rewrite Hrep in H. apply counting_lookup in H. lia.
    + rewrite Hrep in H. apply counting_lookup in H. lia.
  - intros running r d Hans Hrun Hd Hfuel.
    destruct (js_to_string id) as [text |] eqn:Htext.
    2: { destruct fuel as [| fuel]; [lia |]. now apply poll_loop_without_text. }
    destruct (poll_to_the_last running r fuel id hf on w d text Htext Hans Hrun Hd Hfuel)
      as (fuel' & w' & Heq & -> & Hnet).
    destruct (poll_loop_carrying fuel' id hf on (idx_after (length running) on 0) _ r d text
                Htext Hnet Hd)
      as (outcome & n & tail & Hlast).
    rewrite Heq, Hlast, advance_advance.
    exists outcome. eexists. exists tail.
    rewrite (idx_after_on _ _ _ Hon), Z.add_0_l.
    unfold poll_events. rewrite Hon. reflexivity.
Qed.

(** Twenty-two polls that find the task pending: the last of them
    reports progress 21 of 20. *)
Lemma progress_counts_iterations_witness :
  let pending_response := ok_response (status_only "pending") in
  let w := scripted (replicate 22 (Responds pending_response)) in
  let req := poll_request (JStr "t1") test_headers in
  exists outcome n tail,
    poll_task_result 22 (JStr "t1") test_headers with_progress w
    = (outcome,
       advance n
         (running_events 21 req with_progress 0
          ++ [EFetch req; ELog Info "Task poll status"; EProgress 21 20] ++ tail) w).
Proof.
  intros pending_response w req.
  destruct (progress_counts_iterations 22 (JStr "t1") test_headers
              with_progress without_sink w eq_refl eq_refl) as [_ Hscenario].
  apply (Hscenario (replicate 21 pending_response) pending_response
                   (status_only "pending")).
  - intros i r Hi.
    do 22 (destruct i as [| i]; [inversion Hi; reflexivity |]).
    inversion Hi.
  - apply Forall_replicate. exists (status_only "pending").
    repeat split; discriminate.
  - split; [reflexivity | discriminate].
  - simpl. lia.
Defined.

(** ** The instruction dispatcher *)

Lemma append_assoc a b c : (a +:+ b) +:+ c = a +:+ b +:+ c.
Proof.
  induction a as [| x a IH]; [reflexivity |].
  change (String x ((a +:+ b) +:+ c) = String x (a +:+ b +:+ c)).
  now rewrite IH.
Qed.

Lemma append_String c a b : String c a +:+ b = String c (a +:+ b).
Proof. reflexivity. Qed.

Lemma append_empty_l a : "" +:+ a = a.
Proof. reflexivity. Qed.

Lemma append_empty_r a : a +:+ "" = a.
Proof.
  induction a as [| x a IH]; [reflexivity |].
  change (String x (a +:+ "") = String x a). now rewrite IH.
Qed.

Lemma emit_then {A} e (k : M A) w : (emit e ;;; k) w = k (advance 0 [e] w).
Proof. reflexivity. Qed.

(** The dispatcher up to the point where it has the response. *)
Lemma send_posts fuel executionId payload hf ctx project w r :
  net w (fetches w) (instructions_request executionId payload hf project) = Responds r ->
  send_session_instructions fuel executionId payload hf ctx project w =
  ((if negb (resp_ok r) then
      errorText <- response_text r ;;
      log_error "Failed to send instructions" ;;;
      throw (Error ("Failed to send instructions: "
                    +:+ string_of_Z (resp_status r) +:+ " "
                    +:+ resp_statusText r +:+ " - " +:+ errorText))
    else ret tt) ;;;
   data <- response_json r ;;
   task_id <- get_prop data "executionId" ;;
   sleep 1000 ;;;
   log_info "Received task ID from API after sending instructions" ;;;
   match task_id with
   | Some id =>
       if truthy task_id then
         result <- poll_task_result fuel id hf ctx ;;
         ret (JSON.stringify (JObj (js_object [("executionId", Some id); ("result", result)])))
       else no_task_id
   | None => no_task_id
   end)
    (advance 1 [ELog Info "Sending instructions to session";
                EFetch (instructions_request executionId payload hf project)] w).
Proof.
  intros Hnet. unfold send_session_instructions, log_info.
  rewrite emit_then.
  assert (Hnet' : net (advance 0 [ELog Info "Sending instructions to session"] w)
                      (fetches (advance 0 [ELog Info "Sending instructions to session"] w))
                      (instructions_request executionId payload hf project) = Responds r)
    by exact Hnet.
  rewrite (bind_return _ _ _ _ _ (fetch_responds _ _ _ Hnet')).
  rewrite advance_advance. reflexivity.
Qed.



(** C5.  When the POST is answered with a status in 200..299 and data
    other than [null] whose [executionId] is absent or not truthy, the
    dispatcher throws
    the error that says no task id was received; by then it has made
    the POST and waited the 1000 ms, in this order, and it makes no
    other request. *)
Theorem send_signals_missing_identifier
  (fuel : nat) (executionId : string) (payload : list string)
  (hf : unit -> headers) (ctx : context) (project : string) (w : world)
  (r : response) (d : json) :
  let post := instructions_request executionId payload hf project in
  net w (fetches w) post = Responds r ->
  resp_ok r = true ->
  carries r d ->
  truthy (field d "executionId") = false ->
  send_session_instructions fuel executionId payload hf ctx project w
  = (Throw (Error "No task ID received from API after sending instructions"),
     advance 1 (settle_events post
                ++ [ELog Err "No task_id received after sending instructions"]) w)
  /\ io (settle_events post
         ++ [ELog Err "No task_id received after sending instructions"])
     = [EFetch post; EDelay 1000].
Proof.
  intros post Hnet Hok [Hjson Hnull] Hid.
  split; [| reflexivity].
  rewrite (send_posts _ _ _ _ _ _ _ _ Hnet). rewrite Hok. cbn [negb].
  unfold bind at 1, ret at 1.
  unfold response_json. rewrite Hjson. unfold bind at 1, ret at 1.
  rewrite (bind_return _ _ _ _ _ (get_prop_field d "executionId" _ Hnull)).
  rewrite sleep_then. unfold log_info. rewrite log_then.
  assert (Hno : forall n evs,
             @no_task_id string (advance n evs w)
             = (Throw (Error "No task ID received from API after sending instructions"),
                advance n (evs ++ [ELog Err "No task_id received after sending instructions"]) w)).
  { intros n evs. unfold no_task_id, log_error. now rewrite log_then. }
  destruct (field d "executionId") as [id |].
  - rewrite Hid, Hno. reflexivity.
  - rewrite Hno. reflexivity.
Qed.

(** A 200 whose body is the empty object. *)
Lemma send_signals_missing_identifier_witness :
  let w := scripted [Responds (ok_response (JObj []))] in
  let post := instructions_request "e-1" ["Click OK"] test_headers "demo" in
  send_session_instructions 5 "e-1" ["Click OK"] test_headers with_progress "demo" w
  = (Throw (Error "No task ID received from API after sending instructions"),
     advance 1 (settle_events post
                ++ [ELog Err "No task_id received after sending instructions"]) w).
Proof.
  intros w post.
  apply (send_signals_missing_identifier 5 "e-1" ["Click OK"] test_headers with_progress
           "demo" w (ok_response (JObj [])) (JObj [])).
  - reflexivity.
  - reflexivity.
  - split; [reflexivity | discriminate].
  - reflexivity.
Defined.

(** A 200 whose body is the JSON text [null]: it parses and holds no
    identifier, and yet the dispatcher does not reach the delay or the
    error of the missing identifier.  Reading [executionId] off [null]
    throws a [TypeError] right after the POST. *)
Lemma send_signals_missing_identifier_counterexample :
  let r := ok_response JNull in
  let w := scripted [Responds r] in
  let run := send_session_instructions 5 "e-1" ["Click OK"] test_headers with_progress
               "demo" w in
  resp_ok r = true
  /\ resp_json r = Some JNull
  /\ field JNull "executionId" = None
  /\ fst run = Throw (TypeError "Cannot read properties of null (reading 'executionId')")
  /\ fst run <> Throw (Error "No task ID received from API after sending instructions")
  /\ delays (trace (snd run)) = []
  /\ requests (trace (snd run))
     = [instructions_request "e-1" ["Click OK"] test_headers "demo"].
Proof.
  intros r w run.
  assert (Hrun : fst run
                 = Throw (TypeError "Cannot read properties of null (reading 'executionId')"))
    by (vm_compute; reflexivity).
  split; [reflexivity |]. split; [reflexivity |]. split; [reflexivity |].
  split; [exact Hrun |]. split; [rewrite Hrun; discriminate |].
  split; vm_compute; reflexivity.
Qed.

(** ** The tool wrapper *)

Lemma create_tool_fn_enters {P A} name (fn : P -> context -> M A) params ctx w :
  create_tool_fn name fn params ctx w =
  try_finally
    (try_catch (fn params ctx) (tool_catch name))
    (now <- Date_now ;;
     log_info ("[" +:+ name +:+ "] Tool finished"))
    (tool_entry name w).
Proof. reflexivity. Qed.

Lemma tool_finally {A} name (body : M A) w r w' :
  body w = (r, w') ->
  r <> Pending ->
  try_finally body
    (now <- Date_now ;; log_info ("[" +:+ name +:+ "] Tool finished")) w
  = (r, tool_exit name w').
Proof.
  intros Hbody Hr. unfold try_finally. rewrite Hbody.
  destruct r; try reflexivity. now destruct Hr.
Qed.

(** The [catch] block on an error that carries a response. *)
Lemma tool_catch_response {A} name e resp w :
  err_response e = Some resp ->
  exists evs,
    @tool_catch A name e w
    = (Throw (Error ("HTTP " +:+ string_of_Z (resp_status resp) +:+ ": "
                     +:+ match resp_text resp with
                         | Some (String c t) => String c t
                         | _ => status_text_or_fallback resp
                         end)),
       advance 0 evs w).
Proof.
  intros Hresp. unfold tool_catch. rewrite Hresp.
  unfold try_catch, response_text, bind at 1.
  destruct (resp_text resp) as [[| c t] |].
  - eexists. unfold ret, log_error. rewrite emit_then. unfold throw. reflexivity.
  - eexists. unfold ret, log_error. rewrite emit_then. unfold throw. reflexivity.
  - eexists. unfold throw at 1, log_error. rewrite emit_then.
    unfold ret. rewrite log_then. unfold throw. reflexivity.
Qed.

Lemma tool_catch_throws {A} name e w :
  exists e' evs, @tool_catch A name e w = (Throw e', advance 0 evs w).
Proof.
  destruct (err_response e) as [resp |] eqn:Hresp.
  - destruct (@tool_catch_response A name e resp w Hresp) as [evs ->]. eauto.
  - unfold tool_catch. rewrite Hresp.
    destruct (_ || _); unfold log_error; rewrite emit_then; unfold throw; eauto.
Qed.

(** C6.  When the wrapped implementation throws, the wrapper throws
    too, after its [finally] block: no error is turned into a result.
    When the error carries a response, the error thrown is the one
    whose message is [HTTP], the status code, and then the body text if
    that could be read and is not empty, otherwise the status text, or
    the fixed fallback when the status text is empty too.  With status
    404 the message contains [404], next to the status text or fallback
    for an empty body and next to the body text otherwise. *)
Theorem wrapper_resignals_errors
  {P A : Type} (name : string) (fn : P -> context -> M A) (params : P)
  (ctx : context) (w : world) (e : error) (w1 : world) :
  fn params ctx (tool_entry name w) = (Throw e, w1) ->
  exists e' evs,
    create_tool_fn name fn params ctx w
    = (Throw e', tool_exit name (advance 0 evs w1))
    /\ forall resp,
        err_response e = Some resp ->
        (resp_text resp = Some "" \/ resp_text resp = None ->
         e' = Error ("HTTP " +:+ string_of_Z (resp_status resp) +:+ ": "
                     +:+ status_text_or_fallback resp)
         /\ contains (status_text_or_fallback resp) (err_message e'))
        /\ (forall body,
              resp_text resp = Some body -> body <> "" ->
              e' = Error ("HTTP " +:+ string_of_Z (resp_status resp) +:+ ": " +:+ body)
              /\ contains body (err_message e'))
        /\ (resp_status resp = 404 -> contains "404" (err_message e')).
Proof.
  intros Hfn. rewrite create_tool_fn_enters.
  destruct (err_response e) as [resp |] eqn:Hresp.
  - destruct (@tool_catch_response A name e resp w1 Hresp) as [evs Hcatch].
    eexists _, evs. split.
    + apply tool_finally; [| discriminate].
      unfold try_catch. rewrite Hfn. exact Hcatch.
    + intros resp' [= <-]. split; [| split].
      * intros Hbody.
        assert (Hsel : match resp_text resp with
                       | Some (String c t) => String c t
                       | _ => status_text_or_fallback resp
                       end = status_text_or_fallback resp)
          by (destruct Hbody as [-> | ->]; reflexivity).
        rewrite Hsel. split; [reflexivity |]. simpl err_message.
        exists ("HTTP " +:+ string_of_Z (resp_status resp) +:+ ": "), "".
        now rewrite append_empty_r, !append_assoc.
      * intros body Hbody Hne. rewrite Hbody.
        destruct body as [| c t]; [now destruct Hne |].
        split; [reflexivity |]. simpl err_message.
        exists ("HTTP " +:+ string_of_Z (resp_status resp) +:+ ": "), "".
        now rewrite append_empty_r, !append_assoc.
      * intros ->. simpl err_message.
        exists "HTTP ", (": " +:+ match resp_text resp with
                                  | Some (String c t) => String c t
                                  | _ => status_text_or_fallback resp
                                  end).
        reflexivity.
  - destruct (@tool_catch_throws A name e w1) as (e' & evs & Hcatch).
    exists e', evs. split.
    + apply tool_finally; [| discriminate].
      unfold try_catch. rewrite Hfn. exact Hcatch.
    + intros resp [=].
Qed.

(** A tool that throws an error carrying a 404 response with an empty
    body and no status text. *)
Lemma wrapper_resignals_errors_witness :
  let not_found := mkResponse 404 "" None (Some "") in
  let failing : unit -> context -> M json :=
    fun _ _ => throw (mkError "HTTPError" false "Request failed" (Some not_found)) in
  let w := scripted [] in
  exists w2,
    create_tool_fn "demo" failing tt with_progress w
    = (Throw (Error "HTTP 404: Unknown HTTP error"), w2).
Proof.
  intros not_found failing w.
  destruct (wrapper_resignals_errors "demo" failing tt with_progress w
              (mkError "HTTPError" false "Request failed" (Some not_found))
              (tool_entry "demo" w) eq_refl)
    as (e' & evs & Hrun & Hresp).
  destruct (Hresp not_found eq_refl) as [Hempty _].
  destruct (Hempty (or_introl eq_refl)) as [-> _].
  eexists. exact Hrun.
Defined.

(** ** Equality of values *)

Lemma json_nested_ind (P : json -> Prop) :
  P JNull ->
  (forall b, P (JBool b)) ->
  (forall n, P (JNum n)) ->
  (forall s, P (JStr s)) ->
  (forall items, Forall P items -> P (JArr items)) ->
  (forall props, Forall (fun kv => P (snd kv)) props -> P (JObj props)) ->
  forall v, P v.
Proof.
  intros Hnull Hbool Hnum Hstr Harr Hobj.
  fix IH 1.
  intros [| b | n | s | items | props];
    [exact Hnull | apply Hbool | apply Hnum | apply Hstr | apply Harr | apply Hobj].
  - induction items as [| x items IHitems]; constructor; [apply IH | exact IHitems].
  - induction props as [| [k x] props IHprops]; constructor; [apply IH | exact IHprops].
Qed.

Lemma json_eqb_eq a : forall b, json_eqb a b = true <-> a = b.
Proof.
  induction a as [| x | x | x | xs IHxs | xs IHxs] using json_nested_ind;
    intros [| y | y | y | ys | ys]; simpl; try (split; [discriminate | intros [=]]).
  - tauto.
  - rewrite Bool.eqb_true_iff. split; congruence.
  - rewrite Z.eqb_eq. split; congruence.
  - rewrite String.eqb_eq. split; congruence.
  - revert ys. induction IHxs as [| x xs Hx _ IH]; intros [| y ys];
      try (split; [discriminate | intros [=]]); [tauto |].
    rewrite andb_true_iff, Hx, (IH ys). split.
    + intros [-> [= ->]]. reflexivity.
    + intros [= -> ->]. auto.
  - revert ys. induction IHxs as [| [k x] xs Hx _ IH]; intros [| [l y] ys];
      try (split; [discriminate | intros [=]]); [tauto |].
    simpl in Hx. rewrite !andb_true_iff, String.eqb_eq, Hx, (IH ys). split.
    + intros [[-> ->] [= ->]]. reflexivity.
    + intros [= -> -> ->]. auto.
Qed.

Lemma json_eqb_refl a : json_eqb a a = true.
Proof. now apply json_eqb_eq. Qed.

(** ** The session registry *)

Lemma records_of_absent id m : id ∉ map fst m -> records_of id m = [].
Proof.
  induction m as [| [k v] m IH]; simpl; [reflexivity |].
  intros Hnot. apply not_elem_of_cons in Hnot as [Hne Hnot].
  destruct (json_eqb k id) eqn:Hk.
  - apply json_eqb_eq in Hk. congruence.
  - auto.
Qed.

Lemma Map_get_absent {V} id (m : list (json * V)) :
  Map_get id m = None <-> id ∉ map fst m.
Proof.
  induction m as [| [k v] m IH]; simpl.
  - split; [intros _; apply not_elem_of_nil | reflexivity].
  - rewrite not_elem_of_cons. destruct (json_eqb k id) eqn:Hk.
    + apply json_eqb_eq in Hk. split; [discriminate | intros [Hne _]; congruence].
    + rewrite IH. split; [| tauto]. intros Hnot. split; [| exact Hnot].
      intros ->. now rewrite json_eqb_refl in Hk.
Qed.

Lemma Map_get_set {V} id (v : V) m : Map_get id (Map_set id v m) = Some v.
Proof.
  induction m as [| [k old] m IH]; simpl.
  - now rewrite json_eqb_refl.
  - destruct (json_eqb k id) eqn:Hk; simpl; now rewrite Hk.
Qed.

Lemma Map_set_set {V} id (v v' : V) m : Map_set id v' (Map_set id v m) = Map_set id v' m.
Proof.
  induction m as [| [k old] m IH]; simpl.
  - now rewrite json_eqb_refl.
  - destruct (json_eqb k id) eqn:Hk; simpl; rewrite Hk; [reflexivity | now rewrite IH].
Qed.

Lemma Map_set_keys {V} id (v : V) m :
  map fst (Map_set id v m)
  = match Map_get id m with
    | Some _ => map fst m
    | None => (map fst m ++ [id])%list
    end.
Proof.
  induction m as [| [k old] m IH]; simpl; [reflexivity |].
  destruct (json_eqb k id) eqn:Hk; [reflexivity |].
  simpl. rewrite IH. now destruct (Map_get id m).
Qed.

(** [set] keeps the keys of a [Map] distinct. *)
Lemma Map_set_distinct id v m : distinct_keys m -> distinct_keys (Map_set id v m).
Proof.
  unfold distinct_keys. intros Hm. rewrite Map_set_keys.
  destruct (Map_get id m) eqn:Hget; [exact Hm |].
  apply Map_get_absent in Hget.
  apply NoDup_app. repeat split; [exact Hm | | apply NoDup_singleton].
  intros x Hx Hin. apply list_elem_of_singleton in Hin. congruence.
Qed.

(** [delete] keeps the keys of a [Map] distinct. *)
Lemma Map_delete_distinct (id : json) (m : list (json * session)) :
  distinct_keys m -> distinct_keys (Map_delete id m).
Proof.
  unfold distinct_keys. induction m as [| [k v] m IH]; simpl; [auto |].
  intros Hm. apply NoDup_cons in Hm as [Hk Hm].
  destruct (json_eqb k id); [exact Hm |].
  simpl. apply NoDup_cons. split; [| auto].
  intros Hin. apply Hk. clear - Hin.
  induction m as [| [k' v'] m IH]; simpl in *; [exact Hin |].
  destruct (json_eqb k' id); [now apply list_elem_of_further |].
  simpl in Hin. apply elem_of_cons in Hin as [-> | Hin];
    [apply list_elem_of_here | apply list_elem_of_further; auto].
Qed.

Lemma records_of_set id s m :
  distinct_keys m -> records_of id (Map_set id s m) = [s].
Proof.
  unfold distinct_keys. induction m as [| [k old] m IH]; simpl.
  - now rewrite json_eqb_refl.
  - intros Hm. apply NoDup_cons in Hm as [Hk Hm].
    destruct (json_eqb k id) eqn:Hid; simpl; rewrite Hid.
    + apply json_eqb_eq in Hid. subst k. now rewrite records_of_absent.
    + auto.
Qed.

(** The operations of the registry keep its keys distinct, so every
    registry that starts empty has distinct keys. *)
Lemma registry_keeps_keys_distinct id w :
  distinct_keys (active_sessions w) ->
  distinct_keys (active_sessions (snd (track_session id w)))
  /\ distinct_keys (active_sessions (snd (update_activity id w)))
  /\ distinct_keys (active_sessions (snd (remove_session id w))).
Proof.
  intros Hkeys. split; [| split].
  - simpl. now apply Map_set_distinct.
  - unfold update_activity, get_sessions, bind.
    destruct (Map_get id (active_sessions w)); simpl; [| exact Hkeys].
    now apply Map_set_distinct.
  - simpl. now apply Map_delete_distinct.
Qed.

(** C9.  In a registry whose keys are distinct, as those of a [Map]
    are, and under a clock that never goes back: [track_session id],
    [update_activity id], [get_sessions] yields a list that holds
    exactly one record under [id], and its [lastActivity] is not
    before its [created].  And [update_activity] on an id the registry
    does not hold leaves the whole world as it was. *)
Theorem registry_track_touch_list (id : json) (w : world) :
  distinct_keys (active_sessions w) ->
  (forall i j, (i <= j)%nat -> clock w i <= clock w j) ->
  (exists l w' s,
      (track_session id ;;; update_activity id ;;; get_sessions) w = (Return l, w')
      /\ records_of id l = [s]
      /\ created s <= lastActivity s)
  /\ (forall unknown,
        Map_get unknown (active_sessions w) = None ->
        update_activity unknown w = (Return tt, w)).
Proof.
  intros Hkeys Hclock. split.
  - set (c := clock w (clock_reads w)).
    set (l := clock w (S (clock_reads w))).
    set (now := clock w (S (S (clock_reads w)))).
    exists (Map_set id (mkSession c now) (active_sessions w)).
    eexists. exists (mkSession c now).
    split; [| split].
    + unfold track_session, update_activity, get_sessions, set_active_sessions,
        Date_now, bind, ret. simpl.
      rewrite Map_get_set. simpl. rewrite Map_set_set. reflexivity.
    + now apply records_of_set.
    + simpl. apply Hclock. lia.
  - intros unknown Hget. unfold update_activity, get_sessions, bind. now rewrite Hget.
Qed.

(** A registry that holds two other sessions, one of them under the
    id that is tracked again. *)
Lemma registry_track_touch_list_witness :
  let w := mkWorld (fun _ _ => Fails (TypeError "fetch failed")) 0
                   (fun i => 1000 * Z.of_nat i) 7 [] ∅
                   [(JStr "a", mkSession 10 20); (JStr "b", mkSession 30 40)] in
  exists l w' s,
    (track_session (JStr "a") ;;; update_activity (JStr "a") ;;; get_sessions) w
    = (Return l, w')
    /\ records_of (JStr "a") l = [s]
    /\ created s <= lastActivity s.
Proof.
  intros w.
  refine (proj1 (registry_track_touch_list (JStr "a") w _ _)).
  - unfold distinct_keys. simpl. repeat constructor.
    + intros Hin. apply list_elem_of_singleton in Hin. discriminate.
    + apply not_elem_of_nil.
  - intros i j Hle. simpl. lia.
Defined.

(** ** What a tool hands to the host *)

Lemma wrapper_returns {P A} name (fn : P -> context -> M A) params ctx w v w1 :
  fn params ctx (tool_entry name w) = (Return v, w1) ->
  create_tool_fn name fn params ctx w = (Return v, tool_exit name w1).
Proof.
  intros Hfn. rewrite create_tool_fn_enters.
  apply tool_finally; [| discriminate].
  unfold try_catch. now rewrite Hfn.
Qed.

(** What the wrapper returns is what the implementation returned. *)
Lemma wrapper_returns_only {P A} name (fn : P -> context -> M A) params ctx w v w2 :
  create_tool_fn name fn params ctx w = (Return v, w2) ->
  exists w1, fn params ctx (tool_entry name w) = (Return v, w1).
Proof.
  rewrite create_tool_fn_enters. unfold try_finally, try_catch.
  destruct (fn params ctx (tool_entry name w)) as [[v' | e |] w1] eqn:Hfn.
  - intros [= <- _]. eauto.
  - destruct (@tool_catch_throws A name e w1) as (e' & evs & ->). discriminate.
  - discriminate.
Qed.

(** The second revision of [start_new_session] returns strings only. *)
Lemma start_new_session_v2_returns_text fuel hf project params ctx w v w' :
  ServerV2.start_new_session fuel hf project params ctx w = (Return v, w') ->
  exists text, v = JStr text.
Proof.
  intros Hrun. apply wrapper_returns_only in Hrun as [w1 Hrun].
  unfold ServerV2.start_new_session_fn, bind in Hrun.
  repeat match type of Hrun with
         | context [match ?x with _ => _ end] => destruct x eqn:?; try discriminate
         end.
  all: injection Hrun as <- _; eauto.
Qed.

(** So do the tools that hand their instructions to the dispatcher, and
    the status tool. *)
Lemma dispatching_tools_return_text fuel hf project ctx w v w' :
  (forall params,
      ServerV1.interact_in_session fuel hf project params ctx w = (Return v, w') ->
      exists text, v = JStr text)
  /\ (forall params,
        ServerV2.extract_from_session fuel hf project params ctx w = (Return v, w') ->
        exists text, v = JStr text)
  /\ (forall executionId,
        ServerV2.get_session_status hf executionId ctx w = (Return v, w') ->
        exists text, v = JStr text).
Proof.
  split; [| split].
  - intros [instruction executionId] Hrun.
    apply wrapper_returns_only in Hrun as [w1 Hrun]. unfold bind in Hrun.
    repeat match type of Hrun with
           | context [match ?x with _ => _ end] => destruct x eqn:?; try discriminate
           end.
    injection Hrun as <- _; eauto.
  - intros [instructions executionId] Hrun.
    apply wrapper_returns_only in Hrun as [w1 Hrun]. unfold bind in Hrun.
    repeat match type of Hrun with
           | context [match ?x with _ => _ end] => destruct x eqn:?; try discriminate
           end.
    injection Hrun as <- _; eauto.
  - intros executionId Hrun.
    apply wrapper_returns_only in Hrun as [w1 Hrun]. unfold bind in Hrun.
    repeat match type of Hrun with
           | context [match ?x with _ => _ end] => destruct x eqn:?; try discriminate
           end.
    all: injection Hrun as <- _; eauto.
Qed.

(** The second revision on a response without identifier: it throws. *)
Lemma start_new_session_v2_without_identifier :
  let data := JObj [("message", JStr "quota exceeded")] in
  let w := scripted [Responds (ok_response data)] in
  fst (ServerV2.start_new_session 5 test_headers "demo"
         (ServerV2.mkStartParams "Go to example.com" None true) with_progress w)
  = Throw (Error "No execution ID received from API").
Proof. vm_compute. reflexivity. Qed.

(** The function of the first revision of [start_new_session], as it
    is written, on a 200 whose body is an object without
    [executionId]: it returns that object itself, a structured value
    and not a string. *)
Lemma start_new_session_v1_returns_object :
  let data := JObj [("message", JStr "quota exceeded")] in
  let w := scripted [Responds (ok_response data)] in
  fst (ServerV1.start_new_session 5 test_headers "demo" "Go to example.com"
         with_progress w)
  = Return data
  /\ forall text, data <> JStr text.
Proof.
  split; [vm_compute; reflexivity | discriminate].
Qed.

(** ** [JSON.parse] inverts [JSON.stringify] *)

Lemma string_body_escape_char c rest :
  JSON.string_body (JSON.escape_char c +:+ rest)
  = JSON.cons_char c (JSON.string_body rest).
Proof.
  destruct c as [[] [] [] [] [] [] [] []]; reflexivity.
Qed.

Lemma string_body_escape s rest :
  JSON.string_body (JSON.escape s +:+ String JSON.dquote rest) = Some (s, rest).
Proof.
  induction s as [| c s IH]; [reflexivity |].
  cbn [JSON.escape]. rewrite append_assoc, string_body_escape_char, IH. reflexivity.
Qed.

(** *** Numbers *)

Lemma digits_string_of_uint u rest :
  delimited rest = true ->
  JSON.digits (NilEmpty.string_of_uint u +:+ rest) = (u, rest).
Proof.
  intros Hrest. induction u as [| u IH | u IH | u IH | u IH | u IH | u IH | u IH
                                | u IH | u IH | u IH].
  2-11: cbn [NilEmpty.string_of_uint];
        change (String ?c ?a +:+ ?b) with (String c (a +:+ b));
        cbn [JSON.digits JSON.digit_of_char]; now rewrite IH.
  destruct rest as [| c rest]; [reflexivity |].
  change (NilEmpty.string_of_uint Nil +:+ String c rest) with (String c rest).
  cbn [JSON.digits]. unfold delimited in Hrest.
  destruct (JSON.digit_of_char c) eqn:Hc; [| reflexivity].
  exfalso. revert Hrest Hc. clear.
  destruct c as [[] [] [] [] [] [] [] []]; simpl; discriminate.
Qed.

Lemma to_uint_head p :
  Pos.to_uint p <> Nil /\ forall u, Pos.to_uint p <> D0 u.
Proof.
  split; [apply DecimalPos.Unsigned.to_uint_nonnil |].
  intros u Hu.
  assert (Hnorm : unorm (Pos.to_uint p) = Pos.to_uint p).
  { rewrite <- DecimalPos.Unsigned.to_of, DecimalPos.Unsigned.of_to. reflexivity. }
  rewrite Hu in Hnorm. unfold unorm in Hnorm. rewrite DecimalFacts.nzhead_D0 in Hnorm.
  destruct (nzhead u) eqn:Hnz.
  1: { injection Hnorm as <-. now apply (DecimalPos.Unsigned.to_uint_nonzero p). }
  1: exact (DecimalFacts.nzhead_nonzero u _ Hnz).
  all: discriminate.
Qed.

Lemma integer_ok_delimited u rest :
  u <> Nil -> (forall u', u <> D0 u') \/ u = D0 Nil ->
  delimited rest = true ->
  JSON.integer_ok u rest = true.
Proof.
  intros Hnil Hzero Hrest.
  assert (Hfollow : match rest with
                    | String c _ => negb ((c =? ".") || (c =? "e") || (c =? "E"))%char
                    | EmptyString => true
                    end = true).
  { destruct rest as [| c rest]; [reflexivity |]. revert Hrest. clear. unfold delimited.
    destruct c as [[] [] [] [] [] [] [] []]; simpl; (discriminate || reflexivity). }
  unfold JSON.integer_ok.
  destruct u as [| u | u | u | u | u | u | u | u | u | u]; try exact Hfollow.
  - now destruct Hnil.
  - destruct Hzero as [Hzero | [= ->]]; [now destruct (Hzero u) | exact Hfollow].
Qed.

Lemma number_of_uint_text u rest :
  u <> Nil ->
  JSON.number (NilEmpty.string_of_uint u +:+ rest)
  = (let (u', rest') := JSON.digits (NilEmpty.string_of_uint u +:+ rest) in
     if JSON.integer_ok u' rest' then Some (Z.of_int (Pos u'), rest') else None).
Proof.
  destruct u; intros Hnil; [now destruct Hnil | reflexivity ..].
Qed.

Lemma number_string_of_Z n rest :
  delimited rest = true ->
  JSON.number (string_of_Z n +:+ rest) = Some (n, rest).
Proof.
  intros Hrest. unfold string_of_Z.
  rewrite <- (DecimalZ.of_to n) at 2.
  destruct n as [| p | p]; cbn [Z.to_int NilZero.string_of_int].
  - change (NilZero.string_of_uint zero) with (NilEmpty.string_of_uint (D0 Nil)).
    rewrite number_of_uint_text by discriminate.
    rewrite digits_string_of_uint by assumption.
    rewrite integer_ok_delimited; [reflexivity | discriminate | now right | assumption].
  - destruct (to_uint_head p) as [Hnil Hzero].
    replace (NilZero.string_of_uint (Pos.to_uint p))
      with (NilEmpty.string_of_uint (Pos.to_uint p))
      by (unfold NilZero.string_of_uint; destruct (Pos.to_uint p); congruence).
    rewrite number_of_uint_text by assumption.
    rewrite digits_string_of_uint by assumption.
    rewrite integer_ok_delimited; [reflexivity | assumption | now left | assumption].
  - destruct (to_uint_head p) as [Hnil Hzero].
    replace (NilZero.string_of_uint (Pos.to_uint p))
      with (NilEmpty.string_of_uint (Pos.to_uint p))
      by (unfold NilZero.string_of_uint; destruct (Pos.to_uint p); congruence).
    change (String "-" ?a +:+ ?b) with (String "-" (a +:+ b)).
    cbn [JSON.number].
    rewrite digits_string_of_uint by assumption.
    rewrite integer_ok_delimited; [reflexivity | assumption | now left | assumption].
Qed.

(** *** How the text of a value starts *)

Lemma string_of_Z_head n :
  exists c t, string_of_Z n = String c t /\ number_start c = true.
Proof.
  unfold string_of_Z.
  assert (Huint : forall p, exists c t,
               NilZero.string_of_uint (Pos.to_uint p) = String c t
               /\ number_start c = true).
  { intros p. destruct (to_uint_head p) as [Hnil _].
    unfold NilZero.string_of_uint.
    destruct (Pos.to_uint p); [now destruct Hnil | ..];
      eexists _, _; (split; [reflexivity | reflexivity]). }
  destruct n as [| p | p]; cbn [Z.to_int NilZero.string_of_int].
  - exists "0"%char, "". split; reflexivity.
  - apply Huint.
  - eexists _, _. split; reflexivity.
Qed.

Lemma stringify_head v :
  exists c t, JSON.stringify v = String c t /\ value_start c = true.
Proof.
  destruct v as [| [] | n | s | items | props]; cbn [JSON.stringify].
  4: { destruct (string_of_Z_head n) as (c & t & -> & Hc).
       exists c, t. split; [reflexivity |]. unfold value_start. now rewrite Hc. }
  all: eexists _, _; split; reflexivity.
Qed.

Lemma value_of_number fuel c t :
  number_start c = true ->
  JSON.value (S fuel) (String c t)
  = match JSON.number (String c t) with
    | Some (n, rest) => Some (JNum n, rest)
    | None => None
    end.
Proof.
  destruct c as [[] [] [] [] [] [] [] []]; intros H; try discriminate H; reflexivity.
Qed.

Lemma value_of_array fuel c t :
  value_start c = true ->
  JSON.value (S fuel) (String "[" (String c t))
  = match JSON.elements fuel (String c t) with
    | Some (items, rest) => Some (JArr items, rest)
    | None => None
    end.
Proof.
  destruct c as [[] [] [] [] [] [] [] []]; intros H; try discriminate H; reflexivity.
Qed.

Lemma skip_ws_delimiter c rest :
  delimited (String c rest) = true -> JSON.skip_ws (String c rest) = String c rest.
Proof.
  unfold delimited.
  destruct c as [[] [] [] [] [] [] [] []]; intros H; try discriminate H; reflexivity.
Qed.

(** *** Arrays, objects, values *)

Lemma elements_stringify items :
  Forall parses_back items ->
  items <> [] ->
  forall fuel rest,
    (list_sum (map (fun x => S (weight x)) items) <= fuel)%nat ->
    JSON.elements fuel (join "," (map JSON.stringify items) +:+ String "]" rest)
    = Some (items, rest).
Proof.
  induction 1 as [| x xs Hx Hxs IH]; intros Hne fuel rest Hfuel; [now destruct Hne |].
  simpl in Hfuel.
  destruct fuel as [| fuel]; [lia |].
  destruct xs as [| y ys].
  - cbn [map join JSON.elements].
    rewrite (Hx fuel (String "]" rest)) by (simpl in *; reflexivity || lia).
    reflexivity.
  - change (map JSON.stringify (x :: y :: ys))
      with (JSON.stringify x :: map JSON.stringify (y :: ys)).
    set (tail := map JSON.stringify (y :: ys)) in *.
    change (join "," (JSON.stringify x :: tail))
      with (JSON.stringify x +:+ String "," (join "," tail)).
    rewrite append_assoc.
    change (String "," ?a +:+ ?b) with (String "," (a +:+ b)).
    cbn [JSON.elements].
    rewrite (Hx fuel (String "," _)) by (simpl in *; reflexivity || lia).
    rewrite skip_ws_delimiter by reflexivity.
    rewrite (IH ltac:(discriminate) fuel rest) by (simpl in *; lia).
    reflexivity.
Qed.

Lemma members_step fuel k text :
  JSON.members (S fuel)
    (String JSON.dquote (JSON.escape k +:+ String JSON.dquote (String ":" text)))
  = match JSON.value fuel text with
    | Some (v, rest) =>
        match JSON.skip_ws rest with
        | String "," rest' =>
            match JSON.members fuel rest' with
            | Some (kvs, rest'') => Some ((k, v) :: kvs, rest'')
            | None => None
            end
        | String "}" rest' => Some ([(k, v)], rest')
        | _ => None
        end
    | None => None
    end.
Proof.
  cbn [JSON.members].
  change (JSON.skip_ws (String JSON.dquote ?x)) with (String JSON.dquote x).
  change JSON.dquote with (Ascii false true false false false true false false) at 1.
  cbv iota. rewrite string_body_escape. reflexivity.
Qed.

Lemma member_text k v rest :
  (JSON.quote k +:+ String ":" (JSON.stringify v)) +:+ rest
  = String JSON.dquote
      (JSON.escape k +:+ String JSON.dquote (String ":" (JSON.stringify v +:+ rest))).
Proof.
  unfold JSON.quote.
  now rewrite !append_String, !append_assoc, !append_String, append_empty_l.
Qed.

Lemma members_stringify props :
  Forall (fun kv => parses_back (snd kv)) props ->
  props <> [] ->
  forall fuel rest,
    (list_sum (map (fun kv => S (weight (snd kv))) props) <= fuel)%nat ->
    JSON.members fuel
      (join "," (map (fun kv => JSON.quote (fst kv) +:+ String ":" (JSON.stringify (snd kv)))
                     props)
       +:+ String "}" rest)
    = Some (props, rest).
Proof.
  induction 1 as [| [k x] xs Hx Hxs IH]; intros Hne fuel rest Hfuel; [now destruct Hne |].
  simpl in Hfuel, Hx.
  destruct fuel as [| fuel]; [lia |].
  destruct xs as [| y ys].
  - cbn [map join fst snd].
    rewrite member_text, members_step.
    rewrite (Hx fuel (String "}" rest)) by (simpl in *; reflexivity || lia).
    reflexivity.
  - set (member := fun kv : string * json =>
                     JSON.quote (fst kv) +:+ String ":" (JSON.stringify (snd kv))) in *.
    change (map member ((k, x) :: y :: ys)) with (member (k, x) :: map member (y :: ys)).
    set (tail := map member (y :: ys)) in *.
    change (join "," (member (k, x) :: tail))
      with (member (k, x) +:+ String "," (join "," tail)).
    rewrite append_assoc.
    change (String "," ?a +:+ ?b) with (String "," (a +:+ b)).
    unfold member at 1. cbn [fst snd].
    rewrite member_text, members_step.
    rewrite (Hx fuel (String "," _)) by (simpl in *; reflexivity || lia).
    rewrite skip_ws_delimiter by reflexivity.
    rewrite (IH ltac:(discriminate) fuel rest) by (simpl in *; lia).
    reflexivity.
Qed.

Lemma value_stringify v : parses_back v.
Proof.
  induction v as [| b | n | s | items IH | props IH] using json_nested_ind;
    intros fuel rest Hfuel Hrest; (destruct fuel as [| fuel]; [simpl in Hfuel; lia |]).
  - reflexivity.
  - destruct b; reflexivity.
  - cbn [JSON.stringify].
    destruct (string_of_Z_head n) as (c & t & Heq & Hc).
    pose proof (number_string_of_Z n rest Hrest) as Hnum.
    rewrite Heq in *.
    change (String c t +:+ rest) with (String c (t +:+ rest)) in *.
    rewrite (value_of_number _ _ _ Hc), Hnum. reflexivity.
  - cbn [JSON.stringify]. unfold JSON.quote.
    change (String JSON.dquote ?a +:+ ?b) with (String JSON.dquote (a +:+ b)).
    rewrite append_assoc.
    change (String JSON.dquote "" +:+ rest) with (String JSON.dquote rest).
    cbn [JSON.value].
    change (JSON.skip_ws (String JSON.dquote ?x)) with (String JSON.dquote x).
    change JSON.dquote with (Ascii false true false false false true false false) at 1.
    cbv iota. rewrite string_body_escape. reflexivity.
  - cbn [JSON.stringify].
    change (String "[" ?a +:+ ?b) with (String "[" (a +:+ b)).
    rewrite append_assoc. change (String "]" "" +:+ rest) with (String "]" rest).
    destruct items as [| x xs]; [reflexivity |].
    destruct (stringify_head x) as (c & t & Heq & Hc).
    assert (Hshape : exists t', join "," (map JSON.stringify (x :: xs)) +:+ String "]" rest
                                = String c t').
    { cbn [map]. destruct (map JSON.stringify xs); cbn [join]; rewrite Heq; eauto. }
    destruct Hshape as [t' Hshape].
    pose proof (elements_stringify (x :: xs) IH ltac:(discriminate) fuel rest
                  ltac:(simpl in *; lia)) as Helems.
    rewrite Hshape in *. rewrite (value_of_array _ _ _ Hc), Helems. reflexivity.
  - cbn [JSON.stringify].
    change (String "{" ?a +:+ ?b) with (String "{" (a +:+ b)).
    rewrite append_assoc. change (String "}" "" +:+ rest) with (String "}" rest).
    destruct props as [| [k x] xs]; [reflexivity |].
    pose proof (members_stringify ((k, x) :: xs) IH ltac:(discriminate) fuel rest
                  ltac:(simpl in *; lia)) as Hmems.
    assert (Hshape : exists t',
               join "," (map (fun kv => JSON.quote (fst kv)
                                        +:+ String ":" (JSON.stringify (snd kv)))
                             ((k, x) :: xs))
               +:+ String "}" rest
               = String JSON.dquote t').
    { cbn [map fst snd]. unfold JSON.quote at 1.
      destruct (map _ xs); cbn [join]; eauto. }
    destruct Hshape as [t' Hshape].
    rewrite Hshape in *.
    cbn [JSON.value].
    change (JSON.skip_ws (String "{" ?x)) with (String "{" x).
    cbv iota.
    change (JSON.skip_ws (String JSON.dquote ?x)) with (String JSON.dquote x).
    change JSON.dquote with (Ascii false true false false false true false false) at 1.
    cbv iota.
    change (Ascii false true false false false true false false) with JSON.dquote.
    rewrite Hmems. reflexivity.
Qed.

(** *** Enough fuel *)

Lemma length_append a b :
  String.length (a +:+ b) = (String.length a + String.length b)%nat.
Proof.
  induction a as [| c a IH]; [reflexivity |].
  rewrite append_String. simpl. now rewrite IH.
Qed.

Lemma weight_of_joined {X} (text : X -> string) (w : X -> nat) (xs : list X) :
  Forall (fun x => (w x <= String.length (text x))%nat) xs ->
  (list_sum (map (fun x => S (w x)) xs) <= S (String.length (join "," (map text xs))))%nat.
Proof.
  induction 1 as [| x xs Hx Hxs IH]; [simpl; lia |].
  destruct xs as [| y ys].
  - simpl. lia.
  - change (map text (x :: y :: ys)) with (text x :: map text (y :: ys)).
    set (tail := map text (y :: ys)) in *.
    change (join "," (text x :: tail)) with (text x +:+ String "," (join "," tail)).
    rewrite length_append.
    change (map (fun x => S (w x)) (x :: y :: ys))
      with (S (w x) :: map (fun x => S (w x)) (y :: ys)).
    simpl list_sum. simpl String.length. simpl in IH. lia.
Qed.

Lemma weight_le_length v : (weight v <= String.length (JSON.stringify v))%nat.
Proof.
  induction v as [| b | n | s | items IH | props IH] using json_nested_ind.
  - simpl. lia.
  - destruct b; simpl; lia.
  - cbn [JSON.stringify weight].
    destruct (string_of_Z_head n) as (c & t & -> & _). simpl. lia.
  - simpl. lia.
  - cbn [JSON.stringify weight]. simpl String.length. rewrite length_append.
    pose proof (weight_of_joined JSON.stringify weight items IH). simpl String.length. lia.
  - cbn [JSON.stringify weight]. simpl String.length. rewrite length_append.
    pose proof (weight_of_joined
                  (fun kv => JSON.quote (fst kv) +:+ String ":" (JSON.stringify (snd kv)))
                  (fun kv => weight (snd kv)) props) as Hsum.
    simpl String.length. 
    assert (Hmem : Forall (fun kv : string * json =>
                             (weight (snd kv)
                              <= String.length (JSON.quote (fst kv)
                                                +:+ String ":" (JSON.stringify (snd kv))))%nat)
                          props).
    { eapply Forall_impl; [exact IH |]. intros [k x] Hx. simpl in *.
      rewrite length_append. simpl. lia. }
    specialize (Hsum Hmem). lia.
Qed.

(** [JSON.parse(JSON.stringify(v))] is [v], for every value [v]. *)
Lemma parse_stringify v : JSON.parse (JSON.stringify v) = Some v.
Proof.
  unfold JSON.parse.
  rewrite <- (append_empty_r (JSON.stringify v)) at 2.
  rewrite (value_stringify v _ "" (weight_le_length v) eq_refl).
  reflexivity.
Qed.

(** ** The dispatcher on a successful dispatch *)

(** C3.  When the POST is answered with a status in 200..299 and data
    whose [executionId] is a truthy value [id], the dispatcher waits
    the 1000 ms and only then polls [id]: every request after the POST
    is a poll of [id] and comes after the delay in the trace.  The
    dispatcher settles as that poll does; when the poll returns
    [result], the dispatcher returns a text that [JSON.parse] reads as
    an object whose [executionId] is [id] and whose [result] is
    [result]. *)
Theorem send_returns_id_and_result
  (fuel : nat) (executionId : string) (payload : list string)
  (hf : unit -> headers) (ctx : context) (project : string) (w : world)
  (r : response) (d id : json) :
  let post := instructions_request executionId payload hf project in
  let w1 := advance 1 (settle_events post) w in
  net w (fetches w) post = Responds r ->
  resp_ok r = true ->
  carries r d ->
  field d "executionId" = Some id ->
  truthy (Some id) = true ->
  exists outcome n evs,
    poll_task_result fuel id hf ctx w1 = (outcome, advance n evs w1)
    /\ requests evs = replicate n (poll_request id hf)
    /\ io (settle_events post) = [EFetch post; EDelay 1000]
    /\ send_session_instructions fuel executionId payload hf ctx project w
       = (match outcome with
          | Return result =>
              Return (JSON.stringify
                        (JObj (js_object [("executionId", Some id); ("result", result)])))
          | Throw e => Throw e
          | Pending => Pending
          end,
          advance (S n) (settle_events post ++ evs) w)
    /\ forall result,
        outcome = Return result ->
        exists text obj,
          send_session_instructions fuel executionId payload hf ctx project w
          = (Return text, advance (S n) (settle_events post ++ evs) w)
          /\ JSON.parse text = Some obj
          /\ field obj "executionId" = Some id
          /\ field obj "result" = result.
Proof.
  intros post w1 Hnet Hok [Hjson Hnull] Hid Htruthy.
  destruct (poll_loop_settles fuel id hf ctx 0 w1) as (outcome & n & evs & Hpoll & Hreqs).
  fold (poll_task_result fuel id hf ctx) in Hpoll.
  assert (Hsend :
            send_session_instructions fuel executionId payload hf ctx project w
            = (match outcome with
               | Return result =>
                   Return (JSON.stringify
                             (JObj (js_object [("executionId", Some id); ("result", result)])))
               | Throw e => Throw e
               | Pending => Pending
               end,
               advance (S n) (settle_events post ++ evs) w)).
  { rewrite (send_posts _ _ _ _ _ _ _ _ Hnet). rewrite Hok. cbn [negb].
    unfold bind at 1, ret at 1.
    unfold response_json. rewrite Hjson. unfold bind at 1, ret at 1.
    rewrite (bind_return _ _ _ _ _ (get_prop_field d "executionId" _ Hnull)).
    rewrite sleep_then. unfold log_info. rewrite log_then.
    rewrite Hid, Htruthy.
    change (advance 1 _ w) with w1.
    unfold bind. rewrite Hpoll. unfold w1. rewrite advance_advance.
    rewrite Nat.add_1_r.
    destruct outcome; reflexivity. }
  exists outcome, n, evs.
  split; [exact Hpoll | split; [exact Hreqs | split; [reflexivity | split; [exact Hsend |]]]].
  intros result ->.
  eexists _, _. split; [exact Hsend |].
  split; [apply parse_stringify |].
  split; [reflexivity |].
  destruct result; reflexivity.
Qed.

(** A dispatch that is given the identifier [e-2], whose task is
    pending once and then finalized with result [{x: 1}]. *)
Lemma send_returns_id_and_result_witness :
  let created := ok_response (JObj [("executionId", JStr "e-2")]) in
  let final := ok_response (JObj [("status", JStr "finalized");
                                  ("result", JObj [("x", JNum 1)])]) in
  let w := scripted [Responds created;
                     Responds (ok_response (status_only "pending"));
                     Responds final] in
  exists text obj,
    fst (send_session_instructions 5 "e-1" ["Click OK"] test_headers with_progress "demo" w)
    = Return text
    /\ JSON.parse text = Some obj
    /\ field obj "executionId" = Some (JStr "e-2")
    /\ field obj "result" = Some (JObj [("x", JNum 1)]).
Proof.
  intros created final w.
  assert (Hnet : net w (fetches w)
                     (instructions_request "e-1" ["Click OK"] test_headers "demo")
                 = Responds created) by reflexivity.
  assert (Hok : resp_ok created = true) by reflexivity.
  assert (Hdata : carries created (JObj [("executionId", JStr "e-2")]))
    by (split; [reflexivity | discriminate]).
  destruct (send_returns_id_and_result 5 "e-1" ["Click OK"] test_headers with_progress
              "demo" w created (JObj [("executionId", JStr "e-2")]) (JStr "e-2")
              Hnet Hok Hdata eq_refl eq_refl)
    as (outcome & n & evs & Hpoll & _ & _ & _ & Hreturn).
  assert (Houtcome : outcome = Return (Some (JObj [("x", JNum 1)]))).
  { apply (f_equal fst) in Hpoll. simpl fst in Hpoll. rewrite <- Hpoll.
    vm_compute. reflexivity. }
  destruct (Hreturn _ Houtcome) as (text & obj & Hrun & Hparse & Hid & Hres).
  exists text, obj. rewrite Hrun. repeat split; assumption.
Defined.

(* ================================================================== *)
(** * Further properties of the code *)
(* ================================================================== *)

(** ** The poller on failures and on tasks that do not end *)

Lemma io_running_events_only n :
  forall req ctx idx, io (running_events n req ctx idx) = polls_each_delayed n req.
Proof.
  induction n as [| n IH]; intros req ctx idx; [reflexivity |].
  cbn [running_events]. rewrite !io_app, io_poll_events. simpl. now rewrite IH.
Qed.

(** X1.  When the polls of a task are answered by [n] responses that
    report it running and the next request fails, or is answered by a
    body that is not JSON, or by the data [null], the poller throws
    that failure's error after exactly [n + 1] requests and [n]
    delays: it does not try again, whatever fuel is left.  (An
    identifier that has no string form is never polled: the poller
    throws at the URL template, before any request.) *)
Theorem poll_stops_on_unusable_response
  (fuel : nat) (id : json) (hf : unit -> headers) (ctx : context) (w : world)
  (running : list response) (e : error) :
  answered w (poll_request id hf) running ->
  Forall reports_running running ->
  unusable (net w (fetches w + length running)%nat (poll_request id hf)) = Some e ->
  (length running < fuel)%nat ->
  match js_to_string id with
  | Some _ =>
      exists evs,
        poll_task_result fuel id hf ctx w = (Throw e, advance (S (length running)) evs w)
        /\ io evs = polls_and_delays (length running) (poll_request id hf)
        /\ requests evs = replicate (S (length running)) (poll_request id hf)
        /\ delays evs = replicate (length running) 3000
  | None => poll_task_result fuel id hf ctx w = (Throw no_primitive, w)
  end.
Proof.
  intros Hans Hrun Hun Hfuel.
  destruct (js_to_string id) as [text |] eqn:Htext.
  2: { destruct fuel as [| fuel]; [lia |]. now apply poll_loop_without_text. }
  set (n := length running) in *. set (req := poll_request id hf) in *.
  exists (running_events n req ctx 0 ++ [EFetch req])%list.
  assert (Hio : io (running_events n req ctx 0 ++ [EFetch req]) = polls_and_delays n req)
    by now apply io_running_events.
  split; [| split; [exact Hio | split]].
  - unfold poll_task_result.
    replace fuel with (n + S (fuel - S n))%nat by lia.
    unfold n. rewrite (poll_loop_running running _ _ _ _ _ _ text Htext Hans Hrun).
    fold n. fold req.
    rewrite (poll_loop_aborts id hf _ e text Htext).
    + rewrite advance_advance. now rewrite Nat.add_1_l.
    + simpl. now rewrite Nat.add_comm.
  - now rewrite <- requests_io, Hio, requests_polls_and_delays.
  - now rewrite <- delays_io, Hio, delays_polls_and_delays.
Qed.

(** Pending once, then the network is down. *)
Lemma poll_stops_on_unusable_response_witness :
  let w := scripted [Responds (ok_response (status_only "pending"))] in
  exists evs,
    poll_task_result 9 (JStr "t1") test_headers with_progress w
    = (Throw (TypeError "fetch failed"), advance 2 evs w)
    /\ delays evs = [3000].
Proof.
  intros w.
  assert (Hans : answered w (poll_request (JStr "t1") test_headers)
                   [ok_response (status_only "pending")]).
  { intros [| i] r Hi; simpl in Hi; inversion Hi; reflexivity. }
  assert (Hrunning : Forall reports_running [ok_response (status_only "pending")]).
  { repeat constructor. exists (status_only "pending"). repeat split; discriminate. }
  assert (Hfuel : (length [ok_response (status_only "pending")] < 9)%nat) by (simpl; lia).
  destruct (poll_stops_on_unusable_response 9 (JStr "t1") test_headers with_progress w
              [ok_response (status_only "pending")] (TypeError "fetch failed")
              Hans Hrunning eq_refl Hfuel)
    as (evs & Hrun & _ & _ & Hdelays).
  exists evs. split; assumption.
Defined.

(** X2.  The loop has no bound of its own: whatever the number [n], if
    the first [n] polls all find the task running, then after [n]
    iterations the poller has neither returned nor thrown; it has made
    [n] requests, each followed by the delay of 3000 ms.  (An
    identifier that has no string form is never polled: the first
    iteration throws before its request.) *)
Theorem poll_has_no_retry_limit
  (id : json) (hf : unit -> headers) (ctx : context) (w : world)
  (running : list response) :
  answered w (poll_request id hf) running ->
  Forall reports_running running ->
  match js_to_string id with
  | Some _ =>
      poll_task_result (length running) id hf ctx w
      = (Pending,
         advance (length running)
                 (running_events (length running) (poll_request id hf) ctx 0) w)
      /\ io (running_events (length running) (poll_request id hf) ctx 0)
         = polls_each_delayed (length running) (poll_request id hf)
  | None =>
      poll_task_result (length running) id hf ctx w
      = (match running with
         | [] => Pending
         | _ :: _ => Throw no_primitive
         end, w)
  end.
Proof.
  intros Hans Hrun.
  destruct (js_to_string id) as [text |] eqn:Htext.
  2: { destruct running as [| r running]; [reflexivity |].
       now apply poll_loop_without_text. }
  split; [| apply io_running_events_only].
  unfold poll_task_result.
  rewrite <- (Nat.add_0_r (length running)) at 1.
  now rewrite (poll_loop_running running _ _ _ _ _ _ text Htext Hans Hrun).
Qed.

(** Forty polls of a task that stays pending. *)
Lemma poll_has_no_retry_limit_witness :
  let w := scripted (replicate 40 (Responds (ok_response (status_only "pending")))) in
  fst (poll_task_result 40 (JStr "t1") test_headers without_sink w) = Pending.
Proof.
  intros w.
  assert (Hans : answered w (poll_request (JStr "t1") test_headers)
                   (replicate 40 (ok_response (status_only "pending")))).
  { intros i r Hi.
    do 40 (destruct i as [| i]; [inversion Hi; reflexivity |]).
    inversion Hi. }
  assert (Hrunning : Forall reports_running
                       (replicate 40 (ok_response (status_only "pending")))).
  { apply Forall_replicate. exists (status_only "pending").
    repeat split; discriminate. }
  destruct (poll_has_no_retry_limit (JStr "t1") test_headers without_sink w
              (replicate 40 (ok_response (status_only "pending"))) Hans Hrunning)
    as [Hrun _].
  rewrite length_replicate in Hrun. now rewrite Hrun.
Defined.

Lemma poll_loop_alternates fuel :
  forall id hf ctx idx w text,
    js_to_string id = Some text ->
    exists outcome n evs,
      poll_loop fuel id hf ctx idx w = (outcome, advance n evs w)
      /\ match outcome with
         | Pending => n = fuel /\ io evs = polls_each_delayed n (poll_request id hf)
         | _ => exists k, n = S k /\ (k < fuel)%nat
                          /\ io evs = polls_and_delays k (poll_request id hf)
         end.
Proof.
  induction fuel as [| fuel IH]; intros id hf ctx idx w text Hid.
  - exists Pending, 0%nat, []. split; [| split; reflexivity].
    simpl. unfold pending, advance. rewrite app_nil_r. now destruct w.
  - destruct (carries_dec (net w (fetches w) (poll_request id hf)))
      as [(r & d & Hnet & Hd) | [e Hno]].
    2: { rewrite (poll_loop_aborts id hf w e text Hid Hno).
         exists (Throw e), 1%nat, [EFetch (poll_request id hf)].
         split; [reflexivity |]. exists 0%nat. repeat split; lia. }
    destruct (poll_iteration_cases id hf r d text Hid Hd)
      as [(outcome & log & Hsettled & Hlog & _ & _ & Hstep) | [_ Hstep]];
      rewrite (Hstep _ ctx idx w Hnet).
    { destruct (log_only log Hlog) as (Hio & _).
      eexists _, 1%nat, _. split; [reflexivity |].
      destruct outcome as [v | e |]; [| | now destruct Hsettled].
      all: exists 0%nat; repeat split; try lia;
        now rewrite io_app, io_poll_events, Hio. }
    destruct (IH id hf ctx (next_idx ctx idx)
                (advance 1 (poll_events (poll_request id hf) ctx idx ++ [EDelay 3000]) w)
                text Hid)
      as (outcome & n & evs & -> & Hshape).
    rewrite advance_advance, Nat.add_1_r.
    exists outcome, (S n). eexists. split; [reflexivity |].
    rewrite !io_app, io_poll_events. simpl.
    destruct outcome as [v | e |].
    + destruct Hshape as (k & -> & Hk & ->). exists (S k). repeat split; lia || reflexivity.
    + destruct Hshape as (k & -> & Hk & ->). exists (S k). repeat split; lia || reflexivity.
    + destruct Hshape as [-> ->]. split; reflexivity.
Qed.

(** X3.  In every run of the poller, whatever the network answers,
    and at whatever iteration the run is looked at, the requests and
    delays made so far alternate, starting with a request: two polls
    are never issued without the delay of 3000 ms between them, and no
    delay is waited twice in a row.  Every request is the GET of the
    task's URL with the adapter's headers, and a run that returned a
    result ended on a request. *)
Theorem poll_always_alternates
  (fuel : nat) (id : json) (hf : unit -> headers) (ctx : context) (w : world) :
  exists outcome n evs,
    poll_task_result fuel id hf ctx w = (outcome, advance n evs w)
    /\ requests evs = replicate n (poll_request id hf)
    /\ Forall (fun q => req_method q = "GET" /\ req_headers q = hf tt
                        /\ exists text, js_to_string id = Some text
                                        /\ req_url q
                                           = "https://browser.ai/api/v1/tasks/" +:+ text)
              (requests evs)
    /\ Forall (fun ms => ms = 3000) (delays evs)
    /\ alternating (poll_request id hf) (io evs)
    /\ (forall result,
          outcome = Return result ->
          exists k, n = S k /\ io evs = polls_and_delays k (poll_request id hf)).
Proof.
  unfold poll_task_result.
  destruct (js_to_string id) as [text |] eqn:Hid.
  2: { destruct fuel as [| fuel].
       - exists Pending, 0%nat, []. simpl. unfold pending, advance. rewrite app_nil_r.
         split; [now destruct w |]. repeat split; try constructor.
         + exists 0%nat. now left.
         + discriminate.
       - exists (Throw no_primitive), 0%nat, [].
         rewrite (poll_loop_without_text _ _ _ _ _ _ Hid). unfold advance.
         rewrite app_nil_r. split; [now destruct w |]. repeat split; try constructor.
         + exists 0%nat. now left.
         + discriminate. }
  destruct (poll_loop_alternates fuel id hf ctx 0 w text Hid)
    as (outcome & n & evs & Hrun & Hshape).
  exists outcome, n, evs. split; [exact Hrun |].
  assert (Halt : alternating (poll_request id hf) (io evs)).
  { destruct outcome as [v | e |].
    - destruct Hshape as (k & _ & _ & ->). exists k. now right.
    - destruct Hshape as (k & _ & _ & ->). exists k. now right.
    - destruct Hshape as [_ ->]. exists n. now left. }
  assert (Hreqs : requests evs = replicate n (poll_request id hf)).
  { rewrite <- requests_io.
    destruct outcome as [v | e |].
    - destruct Hshape as (k & -> & _ & ->). apply requests_polls_and_delays.
    - destruct Hshape as (k & -> & _ & ->). apply requests_polls_and_delays.
    - destruct Hshape as [_ ->]. clear.
      induction n as [| n IH]; [reflexivity |]. simpl. now rewrite IH. }
  split; [exact Hreqs |]. split; [| split; [| split; [exact Halt |]]].
  - rewrite Hreqs. apply Forall_replicate.
    rewrite (poll_request_text id hf text Hid). repeat split. now exists text.
  - rewrite <- delays_io.
    destruct Halt as [k [-> | ->]].
    + clear. induction k as [| k IH]; [constructor |]. simpl. now constructor.
    + rewrite delays_polls_and_delays. apply Forall_replicate. reflexivity.
  - intros result ->. destruct Hshape as (k & -> & _ & ->). now exists k.
Qed.

(** ** The tool wrapper beyond HTTP errors *)

(** X4.  The wrapper returns a value exactly when the implementation
    returned it, and that same value: it never turns an error into a
    result and never alters a result.  On that path it adds nothing to
    the world but the second reading of the clock and the line that
    the tool finished. *)
Theorem wrapper_returns_exactly
  {P A : Type} (name : string) (fn : P -> context -> M A) (params : P)
  (ctx : context) (w : world) (v : A) (w2 : world) :
  create_tool_fn name fn params ctx w = (Return v, w2)
  <-> exists w1,
      fn params ctx (tool_entry name w) = (Return v, w1) /\ w2 = tool_exit name w1.
Proof.
  split.
  - rewrite create_tool_fn_enters. unfold try_finally, try_catch.
    destruct (fn params ctx (tool_entry name w)) as [[v' | e |] w1] eqn:Hfn.
    + intros [= <- <-]. now exists w1.
    + destruct (@tool_catch_throws A name e w1) as (e' & evs & ->). discriminate.
    + discriminate.
  - intros (w1 & Hfn & ->). now apply wrapper_returns.
Qed.

Lemma wrapper_returns_exactly_witness :
  let w := scripted [] in
  create_tool_fn "demo" (fun (_ : unit) (_ : context) => ret (JStr "done")) tt
                 with_progress w
  = (Return (JStr "done"), tool_exit "demo" (tool_entry "demo" w)).
Proof.
  intros w.
  apply (proj2 (wrapper_returns_exactly "demo"
                  (fun (_ : unit) (_ : context) => ret (JStr "done")) tt with_progress w
                  (JStr "done") (tool_exit "demo" (tool_entry "demo" w)))).
  exists (tool_entry "demo" w). split; reflexivity.
Defined.

Lemma wrapper_settles {P A} name (fn : P -> context -> M A) params ctx w r w1 :
  fn params ctx (tool_entry name w) = (r, w1) ->
  r <> Pending ->
  exists r' evs,
    create_tool_fn name fn params ctx w = (r', tool_exit name (advance 0 evs w1))
    /\ r' <> Pending
    /\ (forall v, r = Return v -> r' = Return v /\ evs = []).
Proof.
  intros Hfn Hr. rewrite create_tool_fn_enters.
  destruct r as [v | e |]; [| | now destruct Hr].
  - exists (Return v), []. split; [| split; [discriminate | now intros v' [= <-]]].
    apply tool_finally; [| discriminate]. unfold try_catch. rewrite Hfn.
    unfold advance. rewrite app_nil_r. now destruct w1.
  - destruct (@tool_catch_throws A name e w1) as (e' & evs & Hcatch).
    exists (Throw e'), evs. split; [| split; [discriminate | discriminate]].
    apply tool_finally; [| discriminate]. unfold try_catch. now rewrite Hfn.
Qed.

(** X5.  Every invocation that settles, with a result or with an error,
    is counted once under the tool's name: the counter of that name
    goes from its old value, or from nothing, to one more, the
    counters of all other names stay as they were, and the last thing
    in the trace is the line that the tool finished.  The premise is
    that the implementation does not itself touch the counters. *)
Theorem wrapper_counts_each_call
  {P A : Type} (name : string) (fn : P -> context -> M A) (params : P)
  (ctx : context) (w : world) (r : settled A) (w1 : world) :
  fn params ctx (tool_entry name w) = (r, w1) ->
  r <> Pending ->
  tool_calls w1 = tool_calls (tool_entry name w) ->
  exists r' w2,
    create_tool_fn name fn params ctx w = (r', w2)
    /\ r' <> Pending
    /\ tool_calls w2 !! name = Some (default 0 (tool_calls w !! name) + 1)
    /\ (forall other, other <> name -> tool_calls w2 !! other = tool_calls w !! other)
    /\ last (trace w2) = Some (ELog Info ("[" +:+ name +:+ "] Tool finished")).
Proof.
  intros Hfn Hr Hcalls.
  destruct (wrapper_settles name fn params ctx w r w1 Hfn Hr) as (r' & evs & Hrun & Hr' & _).
  exists r', (tool_exit name (advance 0 evs w1)).
  split; [exact Hrun | split; [exact Hr' |]].
  assert (Hc : tool_calls (tool_exit name (advance 0 evs w1))
               = <[name := default 0 (tool_calls w !! name) + 1]> (tool_calls w)).
  { simpl. rewrite Hcalls. reflexivity. }
  rewrite Hc. split; [apply lookup_insert_eq | split].
  - intros other Hne. now apply lookup_insert_ne.
  - simpl. apply last_snoc.
Qed.

(** The first call of a tool that returns at once: the counter is 1. *)
Lemma wrapper_counts_each_call_witness :
  let w := scripted [] in
  exists r' w2,
    create_tool_fn "demo" (fun (_ : unit) (_ : context) => ret (JStr "done")) tt
                   with_progress w = (r', w2)
    /\ tool_calls w2 !! "demo" = Some 1.
Proof.
  intros w.
  destruct (wrapper_counts_each_call "demo"
              (fun (_ : unit) (_ : context) => ret (JStr "done")) tt with_progress w
              (Return (JStr "done")) (tool_entry "demo" w) eq_refl
              ltac:(discriminate) eq_refl)
    as (r' & w2 & Hrun & _ & Hcount & _).
  exists r', w2. split; [exact Hrun | exact Hcount].
Defined.

(** X6.  When the implementation throws an error that carries no
    response: if its name is [FetchError] or it is a [TypeError], the
    wrapper throws a new error whose message is [Network error: ]
    followed by the original message; any other error is thrown on as
    it is, the very same error. *)
Theorem wrapper_classifies_errors
  {P A : Type} (name : string) (fn : P -> context -> M A) (params : P)
  (ctx : context) (w : world) (e : error) (w1 : world) :
  fn params ctx (tool_entry name w) = (Throw e, w1) ->
  err_response e = None ->
  exists line,
    create_tool_fn name fn params ctx w
    = (Throw (if String.eqb (err_name e) "FetchError" || err_instanceof_TypeError e
              then Error ("Network error: " +:+ err_message e)
              else e),
       tool_exit name (advance 0 [ELog Err line] w1)).
Proof.
  intros Hfn Hresp. rewrite create_tool_fn_enters.
  destruct (String.eqb (err_name e) "FetchError" || err_instanceof_TypeError e) eqn:Hkind.
  - exists ("[" +:+ name +:+ "] Fetch error").
    apply tool_finally; [| discriminate].
    unfold try_catch. rewrite Hfn. unfold tool_catch. rewrite Hresp, Hkind.
    unfold log_error. now rewrite emit_then.
  - exists ("[" +:+ name +:+ "] Unexpected error").
    apply tool_finally; [| discriminate].
    unfold try_catch. rewrite Hfn. unfold tool_catch. rewrite Hresp, Hkind.
    unfold log_error. now rewrite emit_then.
Qed.

(** A tool whose request fails on the network. *)
Lemma wrapper_classifies_errors_witness :
  let w := scripted [] in
  fst (ServerV2.get_session_status test_headers "e-1" with_progress w)
  = Throw (Error "Network error: fetch failed").
Proof.
  intros w.
  destruct (wrapper_classifies_errors "get_session_status"
              (fun executionId ctx =>
                 log_info "get_session_status task started" ;;;
                 response <- fetch (mkRequest (tasks_url +:+ "/" +:+ executionId) "GET" None
                                              (test_headers tt)) ;;
                 (if negb (resp_ok response) then
                    errorText <- response_text response ;;
                    log_error "Failed to get session status" ;;;
                    throw (Error ("Failed to get session status: "
                                  +:+ string_of_Z (resp_status response) +:+ " "
                                  +:+ resp_statusText response +:+ " - " +:+ errorText))
                  else ret tt) ;;;
                 data <- response_json response ;;
                 ret (JStr (JSON.stringify data)))
              "e-1" with_progress w (TypeError "fetch failed")
              (advance 1 [ELog Info "get_session_status task started";
                          EFetch (status_request "e-1" test_headers)]
                       (tool_entry "get_session_status" w))
              eq_refl eq_refl) as [line Hrun].
  unfold ServerV2.get_session_status. now rewrite Hrun.
Defined.

(** ** The dispatcher on every path *)

Lemma fetch_fails req w e :
  net w (fetches w) req = Fails e ->
  fetch req w = (Throw e, advance 1 [EFetch req] w).
Proof. intros H. unfold fetch. now rewrite H. Qed.

Lemma send_fetch_fails fuel executionId payload hf ctx project w e :
  net w (fetches w) (instructions_request executionId payload hf project) = Fails e ->
  send_session_instructions fuel executionId payload hf ctx project w
  = (Throw e,
     advance 1 [ELog Info "Sending instructions to session";
                EFetch (instructions_request executionId payload hf project)] w).
Proof.
  intros Hnet. unfold send_session_instructions, log_info. rewrite emit_then.
  assert (Hnet' : net (advance 0 [ELog Info "Sending instructions to session"] w)
                      (fetches (advance 0 [ELog Info "Sending instructions to session"] w))
                      (instructions_request executionId payload hf project) = Fails e)
    by exact Hnet.
  rewrite (bind_throw _ _ _ _ _ (fetch_fails _ _ _ Hnet')).
  now rewrite advance_advance.
Qed.

(** X7.  When the POST itself fails, or is answered with a status in
    200..299 and a body that is not JSON or is the data [null], the
    dispatcher throws that failure's error right after the request: it
    does not wait the settling delay and it never polls. *)
Theorem send_stops_on_unusable_answer
  (fuel : nat) (executionId : string) (payload : list string)
  (hf : unit -> headers) (ctx : context) (project : string) (w : world) (e : error) :
  let post := instructions_request executionId payload hf project in
  unusable_dispatch (net w (fetches w) post) = Some e ->
  send_session_instructions fuel executionId payload hf ctx project w
  = (Throw e, advance 1 [ELog Info "Sending instructions to session"; EFetch post] w).
Proof.
  intros post Hun.
  destruct (net w (fetches w) post) as [r | e'] eqn:Hnet; simpl in Hun.
  - rewrite (send_posts _ _ _ _ _ _ _ _ Hnet).
    destruct (resp_ok r); [| discriminate]. cbn [negb].
    unfold bind at 1, ret at 1. unfold response_json.
    destruct (resp_json r) as [[] |]; try discriminate; now injection Hun as <-.
  - injection Hun as <-. now apply send_fetch_fails.
Qed.

(** A 200 whose body is the JSON text [null]. *)
Lemma send_stops_on_unusable_answer_witness :
  let w := scripted [Responds (ok_response JNull)] in
  exists evs,
    send_session_instructions 5 "e-1" ["Click OK"] test_headers with_progress "demo" w
    = (Throw (TypeError "Cannot read properties of null (reading 'executionId')"),
       advance 1 evs w)
    /\ delays evs = [].
Proof.
  intros w. eexists. split.
  - apply (send_stops_on_unusable_answer 5 "e-1" ["Click OK"] test_headers with_progress
             "demo" w). reflexivity.
  - reflexivity.
Defined.

(** Every run of the dispatcher: the POST first, then only polls, all
    with the headers of [hf]; no delay at all, or the settling delay
    followed by poll delays. *)
Lemma send_settles fuel executionId payload hf ctx project w :
  exists outcome n evs polls,
    send_session_instructions fuel executionId payload hf ctx project w
    = (outcome, advance (S n) evs w)
    /\ requests evs = instructions_request executionId payload hf project :: polls
    /\ length polls = n
    /\ Forall (fun q => req_method q = "GET" /\ sent_with hf q) polls
    /\ (delays evs = [] \/ exists rest, delays evs = 1000 :: rest).
Proof.
  set (post := instructions_request executionId payload hf project).
  destruct (net w (fetches w) post) as [r | e] eqn:Hnet.
  2: { rewrite (send_fetch_fails _ _ _ _ _ _ _ _ Hnet).
       exists (Throw e), 0%nat. eexists. exists []. repeat split; auto. }
  rewrite (send_posts _ _ _ _ _ _ _ _ Hnet). fold post.
  destruct (resp_ok r); cbn [negb].
  2: { unfold bind at 1. unfold bind at 1. unfold response_text.
       destruct (resp_text r) as [text |].
       - unfold ret at 1. unfold log_error. rewrite log_then. unfold throw, bind.
         eexists _, 0%nat, _, []. split; [reflexivity |]. repeat split; auto.
       - unfold throw. eexists _, 0%nat, _, []. split; [reflexivity |].
         repeat split; auto. }
  unfold bind at 1, ret at 1. unfold response_json.
  destruct (resp_json r) as [d |].
  2: { unfold throw, bind. eexists _, 0%nat, _, []. split; [reflexivity |].
       repeat split; auto. }
  unfold bind at 1, ret at 1.
  destruct (json_eqb d JNull) eqn:Hnull.
  { apply json_eqb_eq in Hnull. subst d. unfold get_prop, throw, bind.
    eexists _, 0%nat, _, []. split; [reflexivity |]. repeat split; auto. }
  assert (Hd : d <> JNull).
  { intros ->. now rewrite json_eqb_refl in Hnull. }
  rewrite (bind_return _ _ _ _ _ (get_prop_field d "executionId" _ Hd)).
  rewrite sleep_then. unfold log_info. rewrite log_then.
  assert (Hno : forall n evs,
             @no_task_id string (advance n evs w)
             = (Throw (Error "No task ID received from API after sending instructions"),
                advance n (evs ++ [ELog Err "No task_id received after sending instructions"]) w)).
  { intros n evs. unfold no_task_id, log_error. now rewrite log_then. }
  destruct (field d "executionId") as [id |].
  2: { rewrite Hno. eexists _, 0%nat, _, []. split; [reflexivity |].
       repeat split; auto. right. eexists. reflexivity. }
  destruct (truthy (Some id)).
  2: { rewrite Hno. eexists _, 0%nat, _, []. split; [reflexivity |].
       repeat split; auto. right. eexists. reflexivity. }
  match goal with
  | |- context [advance 1 ?evs0 w] => set (w1 := advance 1 evs0 w)
  end.
  destruct (poll_loop_settles fuel id hf ctx 0 w1) as (outcome & n & evs & Hpoll & Hreqs).
  fold (poll_task_result fuel id hf ctx) in Hpoll.
  unfold bind. rewrite Hpoll. unfold w1. rewrite advance_advance, Nat.add_1_r.
  exists (match outcome with
          | Return result =>
              Return (JSON.stringify
                        (JObj (js_object [("executionId", Some id); ("result", result)])))
          | Throw e => Throw e
          | Pending => Pending
          end), n.
  eexists. exists (replicate n (poll_request id hf)).
  split; [destruct outcome; reflexivity |].
  rewrite requests_app, delays_app, Hreqs. simpl.
  repeat split.
  - apply length_replicate.
  - apply Forall_replicate. split; reflexivity.
  - right. eexists. reflexivity.
Qed.

(** X8.  Whatever happens in a dispatch, every request it sends, the
    POST and each poll after it, carries the three headers that
    [create_api_headers] builds: the user agent made of the package
    name and version, the authorization [apikey] with the token, and
    the JSON content type.  The first request is the POST of the
    instructions, all later ones are GETs. *)
Theorem send_requests_carry_credentials
  (fuel : nat) (executionId : string) (payload : list string)
  (package_json : package) (api_token : string)
  (ctx : context) (project : string) (w : world) :
  let hf := create_api_headers package_json api_token in
  exists outcome n evs polls,
    send_session_instructions fuel executionId payload hf ctx project w
    = (outcome, advance (S n) evs w)
    /\ requests evs = instructions_request executionId payload hf project :: polls
    /\ Forall (fun q => req_method q = "GET") polls
    /\ Forall (fun q =>
                 req_headers q
                 = [("user-agent", pkg_name package_json +:+ "/" +:+ pkg_version package_json);
                    ("authorization", "apikey " +:+ api_token);
                    ("Content-Type", "application/json")])
              (requests evs).
Proof.
  intros hf.
  destruct (send_settles fuel executionId payload hf ctx project w)
    as (outcome & n & evs & polls & Hrun & Hreqs & _ & Hpolls & _).
  exists outcome, n, evs, polls. split; [exact Hrun | split; [exact Hreqs | split]].
  - eapply Forall_impl; [exact Hpolls |]. now intros q [Hq _].
  - rewrite Hreqs. constructor; [reflexivity |].
    eapply Forall_impl; [exact Hpolls |]. now intros q [_ Hq].
Qed.

(** X9.  The body the dispatcher posts is JSON text that parses to an
    object holding the instructions in the order given, each as an
    object with the single property [action], together with the
    country [US], [awaitable] true, the project name and the type
    [natural_language]; the URL is the one of the session's
    instructions. *)
Theorem instructions_request_body
  (executionId : string) (payload : list string) (hf : unit -> headers)
  (project : string) :
  exists text body,
    req_body (instructions_request executionId payload hf project) = Some text
    /\ JSON.parse text = Some body
    /\ field body "instructions"
       = Some (JArr (map (fun a => JObj [("action", JStr a)]) payload))
    /\ field body "geoLocation" = Some (JObj [("country", JStr "US")])
    /\ field body "awaitable" = Some (JBool true)
    /\ field body "project" = Some (JStr project)
    /\ field body "type" = Some (JStr "natural_language")
    /\ req_url (instructions_request executionId payload hf project)
       = "https://browser.ai/api/v1/tasks/" +:+ executionId +:+ "/instructions".
Proof.
  eexists _, _. split; [reflexivity |].
  split; [apply parse_stringify |]. repeat split.
Qed.

(** ** The session registry, operation by operation *)

Lemma json_eqb_neq a b : a <> b -> json_eqb a b = false.
Proof.
  intros Hne. destruct (json_eqb a b) eqn:H; [| reflexivity].
  apply json_eqb_eq in H. contradiction.
Qed.

Lemma Map_get_set_other {V} id other (v : V) m :
  other <> id -> Map_get other (Map_set id v m) = Map_get other m.
Proof.
  intros Hne. induction m as [| [k old] m IH]; simpl.
  - now rewrite json_eqb_neq by congruence.
  - destruct (json_eqb k id) eqn:Hk; simpl.
    + apply json_eqb_eq in Hk. subst k.
      now rewrite json_eqb_neq by congruence.
    + now rewrite IH.
Qed.

Lemma Map_get_delete_other {V} id other (m : list (json * V)) :
  other <> id -> Map_get other (Map_delete id m) = Map_get other m.
Proof.
  intros Hne. induction m as [| [k v] m IH]; simpl; [reflexivity |].
  destruct (json_eqb k id) eqn:Hk; simpl.
  - apply json_eqb_eq in Hk. subst k. now rewrite json_eqb_neq by congruence.
  - now rewrite IH.
Qed.

Lemma Map_get_delete id (m : list (json * session)) :
  distinct_keys m -> Map_get id (Map_delete id m) = None.
Proof.
  unfold distinct_keys. induction m as [| [k v] m IH]; simpl; [reflexivity |].
  intros Hm. apply NoDup_cons in Hm as [Hk Hm].
  destruct (json_eqb k id) eqn:Hid; simpl.
  - apply json_eqb_eq in Hid. subst k. now apply Map_get_absent.
  - rewrite Hid. auto.
Qed.

(** X10.  [track_session id] stores under [id] a record whose two
    timestamps are two successive readings of the clock, [created]
    first.  A record already there is replaced, so its [created] is
    lost, and the entry keeps its place; a new id goes to the end.
    The records of all other ids are as before. *)
Theorem track_session_overwrites (id : json) (w : world) :
  let c := clock w (clock_reads w) in
  let l := clock w (S (clock_reads w)) in
  exists w',
    track_session id w = (Return tt, w')
    /\ Map_get id (active_sessions w') = Some (mkSession c l)
    /\ (forall other, other <> id ->
                      Map_get other (active_sessions w') = Map_get other (active_sessions w))
    /\ session_ids (active_sessions w')
       = match Map_get id (active_sessions w) with
         | Some _ => session_ids (active_sessions w)
         | None => (session_ids (active_sessions w) ++ [id])%list
         end
    /\ clock_reads w' = S (S (clock_reads w))
    /\ trace w' = trace w.
Proof.
  intros c l. eexists. split; [reflexivity |]. simpl.
  split; [apply Map_get_set |].
  split; [intros other Hne; now apply Map_get_set_other |].
  split; [apply Map_set_keys |]. split; reflexivity.
Qed.

(** X11.  In a registry with distinct keys, [remove_session id] returns
    [true] when [id] was tracked and [false] when it was not; after it
    [id] has no record, and the records of all other ids are as
    before. *)
Theorem remove_session_removes (id : json) (w : world) :
  distinct_keys (active_sessions w) ->
  exists w',
    remove_session id w
    = (Return (match Map_get id (active_sessions w) with
               | Some _ => true
               | None => false
               end), w')
    /\ Map_get id (active_sessions w') = None
    /\ records_of id (active_sessions w') = []
    /\ (forall other, other <> id ->
                      Map_get other (active_sessions w') = Map_get other (active_sessions w))
    /\ distinct_keys (active_sessions w').
Proof.
  intros Hkeys. eexists. split; [reflexivity |]. simpl.
  assert (Hgone : Map_get id (Map_delete id (active_sessions w)) = None)
    by now apply Map_get_delete.
  split; [exact Hgone |].
  split; [apply records_of_absent; now apply Map_get_absent |].
  split; [intros other Hne; now apply Map_get_delete_other |].
  now apply Map_delete_distinct.
Qed.

(** Removing one of two tracked sessions. *)
Lemma remove_session_removes_witness :
  let w := mkWorld (fun _ _ => Fails (TypeError "fetch failed")) 0
                   (fun i => 1000 * Z.of_nat i) 0 [] ∅
                   [(JStr "a", mkSession 10 20); (JStr "b", mkSession 30 40)] in
  exists w',
    remove_session (JStr "a") w = (Return true, w')
    /\ Map_get (JStr "a") (active_sessions w') = None
    /\ Map_get (JStr "b") (active_sessions w') = Some (mkSession 30 40).
Proof.
  intros w.
  destruct (remove_session_removes (JStr "a") w) as (w' & Hrun & Hgone & _ & Hother & _).
  - unfold distinct_keys. simpl. repeat constructor.
    + intros Hin. apply list_elem_of_singleton in Hin. discriminate.
    + apply not_elem_of_nil.
  - exists w'. split; [exact Hrun | split; [exact Hgone |]].
    rewrite (Hother (JStr "b")) by discriminate. reflexivity.
Defined.

(** X12.  [update_activity id] on a tracked id reads the clock once and
    sets [lastActivity] to that reading; [created] stays, no entry is
    added or moved, and the records of all other ids are as before. *)
Theorem update_activity_touches (id : json) (w : world) (s : session) :
  Map_get id (active_sessions w) = Some s ->
  exists w',
    update_activity id w = (Return tt, w')
    /\ Map_get id (active_sessions w')
       = Some (mkSession (created s) (clock w (clock_reads w)))
    /\ (forall other, other <> id ->
                      Map_get other (active_sessions w') = Map_get other (active_sessions w))
    /\ session_ids (active_sessions w') = session_ids (active_sessions w)
    /\ clock_reads w' = S (clock_reads w).
Proof.
  intros Hget. eexists. split.
  - unfold update_activity, get_sessions, bind. rewrite Hget. reflexivity.
  - simpl. split; [apply Map_get_set |].
    split; [intros other Hne; now apply Map_get_set_other |].
    split; [| reflexivity].
    unfold session_ids. rewrite Map_set_keys. now rewrite Hget.
Qed.

Lemma update_activity_touches_witness :
  let w := mkWorld (fun _ _ => Fails (TypeError "fetch failed")) 0
                   (fun i => 1000 * Z.of_nat i) 7 [] ∅
                   [(JStr "a", mkSession 10 20); (JStr "b", mkSession 30 40)] in
  exists w',
    update_activity (JStr "b") w = (Return tt, w')
    /\ Map_get (JStr "b") (active_sessions w') = Some (mkSession 30 7000).
Proof.
  intros w.
  destruct (update_activity_touches (JStr "b") w (mkSession 30 40) eq_refl)
    as (w' & Hrun & Hget & _).
  exists w'. split; assumption.
Defined.

(** ** The tools of the second revision *)

(** Whatever the implementation does, the wrapper leaves the registry
    as the implementation left it. *)
Lemma wrapper_keeps_registry {P A} name (fn : P -> context -> M A) params ctx w r w1 :
  fn params ctx (tool_entry name w) = (r, w1) ->
  exists r' w2,
    create_tool_fn name fn params ctx w = (r', w2)
    /\ active_sessions w2 = active_sessions w1
    /\ (r = Pending <-> r' = Pending)
    /\ (forall v, r = Return v <-> r' = Return v).
Proof.
  intros Hfn.
  destruct r as [v | e |].
  - destruct (wrapper_settles name fn params ctx w _ w1 Hfn ltac:(discriminate))
      as (r' & evs & Hrun & Hr' & Hret).
    destruct (Hret v eq_refl) as [-> ->].
    eexists _, _. split; [exact Hrun |]. repeat split; try discriminate; auto.
  - destruct (wrapper_settles name fn params ctx w _ w1 Hfn ltac:(discriminate))
      as (r' & evs & Hrun & Hr' & _).
    rewrite create_tool_fn_enters in Hrun. unfold try_finally, try_catch in Hrun.
    rewrite Hfn in Hrun.
    destruct (@tool_catch_throws A name e w1) as (e' & evs' & Hcatch).
    rewrite Hcatch in Hrun. injection Hrun as <- _.
    rewrite create_tool_fn_enters. unfold try_finally, try_catch. rewrite Hfn, Hcatch.
    eexists _, _. split; [reflexivity |]. repeat split; try discriminate; auto.
  - rewrite create_tool_fn_enters. unfold try_finally, try_catch. rewrite Hfn.
    eexists _, _. split; [reflexivity |]. repeat split; auto.
Qed.

(** The second revision of [start_new_session] up to the point where
    it has the response. *)
Lemma start_v2_posts fuel hf project params ctx w r :
  net w (fetches w) (start_request hf project params) = Responds r ->
  ServerV2.start_new_session_fn fuel hf project params ctx w =
  ((if negb (resp_ok r) then
      errorText <- response_text r ;;
      log_error "Failed to start new session" ;;;
      throw (Error ("Failed to start new session: "
                    +:+ string_of_Z (resp_status r) +:+ " "
                    +:+ resp_statusText r +:+ " - " +:+ errorText))
    else ret tt) ;;;
   data <- response_json r ;;
   task_id <- get_prop data "executionId" ;;
   log_info "Received task ID from API" ;;;
   match task_id with
   | Some id =>
       if truthy task_id then
         track_session id ;;;
         result <- poll_task_result fuel id hf ctx ;;
         ret (JStr (JSON.stringify
                      (JObj (js_object [("executionId", Some id); ("result", result)]))))
       else throw (Error "No execution ID received from API")
   | None => throw (Error "No execution ID received from API")
   end)
    (advance 1 [ELog Info "start_new_session task started"; ELog Info "Fetching URL";
                EFetch (start_request hf project params)] w).
Proof.
  intros Hnet. unfold ServerV2.start_new_session_fn, log_info.
  rewrite emit_then. cbv zeta. rewrite log_then.
  match goal with
  | |- bind (fetch ?req) _ ?w0 = _ =>
      assert (Hnet' : net w0 (fetches w0) req = Responds r) by exact Hnet;
      rewrite (bind_return _ _ _ _ _ (fetch_responds _ _ _ Hnet'))
  end.
  rewrite advance_advance. reflexivity.
Qed.

Lemma start_v2_fetch_fails fuel hf project params ctx w e :
  net w (fetches w) (start_request hf project params) = Fails e ->
  exists evs,
    ServerV2.start_new_session_fn fuel hf project params ctx w
    = (Throw e, advance 1 evs w).
Proof.
  intros Hnet. unfold ServerV2.start_new_session_fn, log_info.
  rewrite emit_then. cbv zeta. rewrite log_then.
  match goal with
  | |- context [bind (fetch ?req) _ ?w0] =>
      assert (Hnet' : net w0 (fetches w0) req = Fails e) by exact Hnet;
      rewrite (bind_throw _ _ _ _ _ (fetch_fails _ _ _ Hnet'))
  end.
  rewrite advance_advance. eauto.
Qed.

(** Every path of the implementation of [start_new_session]: either
    the registry is as it was, or the service answered 200..299 with a
    truthy identifier and exactly that identifier was tracked. *)
Lemma start_v2_paths fuel hf project params ctx w :
  exists outcome w',
    ServerV2.start_new_session_fn fuel hf project params ctx w = (outcome, w')
    /\ (active_sessions w' = active_sessions w
        \/ exists r d id,
            net w (fetches w) (start_request hf project params) = Responds r
            /\ resp_ok r = true
            /\ carries r d
            /\ field d "executionId" = Some id
            /\ truthy (Some id) = true
            /\ active_sessions w'
               = Map_set id (mkSession (clock w (clock_reads w))
                                       (clock w (S (clock_reads w))))
                         (active_sessions w)).
Proof.
  destruct (net w (fetches w) (start_request hf project params)) as [r | e] eqn:Hnet.
  2: { destruct (start_v2_fetch_fails fuel hf project params ctx w e Hnet) as [evs ->].
       eexists _, _. split; [reflexivity | now left]. }
  rewrite (start_v2_posts _ _ _ _ _ _ _ Hnet).
  destruct (resp_ok r) eqn:Hok; cbn [negb].
  2: { unfold bind at 1. unfold bind at 1. unfold response_text.
       destruct (resp_text r) as [text |].
       - unfold ret at 1. unfold log_error. rewrite log_then. unfold throw, bind.
         eexists _, _. split; [reflexivity | now left].
       - unfold throw. eexists _, _. split; [reflexivity | now left]. }
  unfold bind at 1, ret at 1. unfold response_json.
  destruct (resp_json r) as [d |] eqn:Hjson.
  2: { unfold throw, bind. eexists _, _. split; [reflexivity | now left]. }
  unfold bind at 1, ret at 1.
  destruct (json_eqb d JNull) eqn:Hnull.
  { apply json_eqb_eq in Hnull. subst d. unfold get_prop, throw, bind.
    eexists _, _. split; [reflexivity | now left]. }
  assert (Hd : d <> JNull).
  { intros ->. now rewrite json_eqb_refl in Hnull. }
  rewrite (bind_return _ _ _ _ _ (get_prop_field d "executionId" _ Hd)).
  unfold log_info. rewrite log_then.
  destruct (field d "executionId") as [id |] eqn:Hid.
  2: { unfold throw. eexists _, _. split; [reflexivity | now left]. }
  destruct (truthy (Some id)) eqn:Htruthy.
  2: { unfold throw. eexists _, _. split; [reflexivity | now left]. }
  match goal with
  | |- context [advance 1 ?evs0 w] => set (w1 := advance 1 evs0 w)
  end.
  assert (Htrack : track_session id w1 = (Return tt, tracked id w1)) by reflexivity.
  rewrite (bind_return _ _ _ _ _ Htrack).
  destruct (poll_loop_settles fuel id hf ctx 0 (tracked id w1))
    as (outcome & n & evs & Hpoll & _).
  fold (poll_task_result fuel id hf ctx) in Hpoll.
  unfold bind. rewrite Hpoll.
  exists (match outcome with
          | Return result =>
              Return (JStr (JSON.stringify
                              (JObj (js_object [("executionId", Some id);
                                                ("result", result)]))))
          | Throw e => Throw e
          | Pending => Pending
          end), (advance n evs (tracked id w1)).
  split; [destruct outcome; reflexivity |].
  right. exists r, d, id. repeat split; auto.
Qed.

(** The path on which the service names a session. *)
Lemma start_v2_with_identifier fuel hf project params ctx w r d id :
  net w (fetches w) (start_request hf project params) = Responds r ->
  resp_ok r = true ->
  carries r d ->
  field d "executionId" = Some id ->
  truthy (Some id) = true ->
  exists outcome n evs w1,
    w1 = tracked id (advance 1 [ELog Info "start_new_session task started";
                                ELog Info "Fetching URL";
                                EFetch (start_request hf project params);
                                ELog Info "Received task ID from API"] w)
    /\ poll_task_result fuel id hf ctx w1 = (outcome, advance n evs w1)
    /\ requests evs = replicate n (poll_request id hf)
    /\ ServerV2.start_new_session_fn fuel hf project params ctx w
       = (match outcome with
          | Return result =>
              Return (JStr (JSON.stringify
                              (JObj (js_object [("executionId", Some id);
                                                ("result", result)]))))
          | Throw e => Throw e
          | Pending => Pending
          end, advance n evs w1).
Proof.
  intros Hnet Hok [Hjson Hnull] Hid Htruthy.
  rewrite (start_v2_posts _ _ _ _ _ _ _ Hnet). rewrite Hok. cbn [negb].
  unfold bind at 1, ret at 1. unfold response_json. rewrite Hjson.
  unfold bind at 1, ret at 1.
  rewrite (bind_return _ _ _ _ _ (get_prop_field d "executionId" _ Hnull)).
  unfold log_info. rewrite log_then. rewrite Hid, Htruthy.
  match goal with
  | |- context [advance 1 ?evs0 w] => set (w0 := advance 1 evs0 w)
  end.
  assert (Htrack : track_session id w0 = (Return tt, tracked id w0)) by reflexivity.
  rewrite (bind_return _ _ _ _ _ Htrack).
  destruct (poll_loop_settles fuel id hf ctx 0 (tracked id w0))
    as (outcome & n & evs & Hpoll & Hreqs).
  fold (poll_task_result fuel id hf ctx) in Hpoll.
  exists outcome, n, evs, (tracked id w0).
  split; [reflexivity | split; [exact Hpoll | split; [exact Hreqs |]]].
  unfold bind. rewrite Hpoll. destruct outcome; reflexivity.
Qed.

(** X13.  The second revision of [start_new_session] registers the
    session before it polls: once the service has answered 200..299
    with a truthy identifier, the world in which polling starts holds
    a record under that identifier, with both timestamps read from the
    clock at that moment, and so does the world the tool ends in,
    however the poll settles, also when the task fails or is still
    pending.  The records of other identifiers are untouched.  When
    the poll returns, the tool returns the text of the identifier and
    the result. *)
Theorem start_new_session_tracks_before_polling
  (fuel : nat) (hf : unit -> headers) (project : string)
  (params : ServerV2.start_params) (ctx : context) (w : world)
  (r : response) (d id : json) :
  net w (fetches w) (start_request hf project params) = Responds r ->
  resp_ok r = true ->
  carries r d ->
  field d "executionId" = Some id ->
  truthy (Some id) = true ->
  let record := mkSession (clock w (S (clock_reads w))) (clock w (S (S (clock_reads w)))) in
  let w1 := tracked id (advance 1 [ELog Info "start_new_session task started";
                                   ELog Info "Fetching URL";
                                   EFetch (start_request hf project params);
                                   ELog Info "Received task ID from API"]
                                (tool_entry "start_new_session" w)) in
  exists polled n evs outcome w',
    poll_task_result fuel id hf ctx w1 = (polled, advance n evs w1)
    /\ Map_get id (active_sessions w1) = Some record
    /\ ServerV2.start_new_session fuel hf project params ctx w = (outcome, w')
    /\ Map_get id (active_sessions w') = Some record
    /\ (forall other, other <> id ->
                      Map_get other (active_sessions w') = Map_get other (active_sessions w))
    /\ (polled = Pending <-> outcome = Pending)
    /\ (forall result,
          polled = Return result ->
          outcome = Return (JStr (JSON.stringify
                                    (JObj (js_object [("executionId", Some id);
                                                      ("result", result)]))))).
Proof.
  intros Hnet Hok Hd Hid Htruthy record w1.
  assert (Hnet' : net (tool_entry "start_new_session" w)
                      (fetches (tool_entry "start_new_session" w))
                      (start_request hf project params) = Responds r) by exact Hnet.
  destruct (start_v2_with_identifier fuel hf project params ctx
              (tool_entry "start_new_session" w) r d id Hnet' Hok Hd Hid Htruthy)
    as (polled & n & evs & w1' & Hw1 & Hpoll & _ & Hfn).
  fold w1 in Hw1. subst w1'.
  destruct (wrapper_keeps_registry "start_new_session"
              (ServerV2.start_new_session_fn fuel hf project) params ctx w _ _ Hfn)
    as (outcome & w' & Hrun & Hkeep & Hpending & Hret).
  exists polled, n, evs, outcome, w'.
  assert (Hreg : active_sessions w1 = Map_set id record (active_sessions w)) by reflexivity.
  split; [exact Hpoll |].
  assert (Hend : active_sessions w' = Map_set id record (active_sessions w))
    by (rewrite Hkeep; exact Hreg).
  split; [rewrite Hreg; apply Map_get_set |].
  split; [exact Hrun |].
  rewrite Hend.
  split; [apply Map_get_set |].
  split; [intros other Hne; now apply Map_get_set_other |].
  split.
  - rewrite <- Hpending. destruct polled; split; intros; congruence.
  - intros result ->. now apply Hret.
Qed.

(** The service names the session [e-7]; its task then fails. *)
Lemma start_new_session_tracks_before_polling_witness :
  let created := ok_response (JObj [("executionId", JStr "e-7")]) in
  let failed := ok_response (JObj [("status", JStr "failed"); ("error", JStr "blocked")]) in
  let w := scripted [Responds created; Responds failed] in
  let params := ServerV2.mkStartParams "Go to example.com" None true in
  exists outcome w',
    ServerV2.start_new_session 5 test_headers "demo" params with_progress w = (outcome, w')
    /\ Map_get (JStr "e-7") (active_sessions w')
       = Some (mkSession 1700000000001 1700000000002).
Proof.
  intros created failed w params.
  assert (Hnet : net w (fetches w) (start_request test_headers "demo" params)
                 = Responds created) by reflexivity.
  assert (Hok : resp_ok created = true) by reflexivity.
  assert (Hdata : carries created (JObj [("executionId", JStr "e-7")]))
    by (split; [reflexivity | discriminate]).
  destruct (start_new_session_tracks_before_polling 5 test_headers "demo" params
              with_progress w created (JObj [("executionId", JStr "e-7")]) (JStr "e-7")
              Hnet Hok Hdata eq_refl eq_refl)
    as (polled & n & evs & outcome & w' & _ & _ & Hrun & Hget & _).
  exists outcome, w'. split; [exact Hrun | exact Hget].
Defined.

(** X14.  [start_new_session] of the second revision changes the
    registry in one way only: when the registry is not as it was, the
    service had answered the POST with a status in 200..299 and data
    whose [executionId] is truthy, and the change is the tracking of
    exactly that identifier.  A failed request, an error status, a
    body that is not usable and a missing identifier all leave the
    registry untouched. *)
Theorem start_new_session_tracks_only_named_sessions
  (fuel : nat) (hf : unit -> headers) (project : string)
  (params : ServerV2.start_params) (ctx : context) (w : world) :
  exists outcome w',
    ServerV2.start_new_session fuel hf project params ctx w = (outcome, w')
    /\ (active_sessions w' = active_sessions w
        \/ exists r d id,
            net w (fetches w) (start_request hf project params) = Responds r
            /\ resp_ok r = true
            /\ carries r d
            /\ field d "executionId" = Some id
            /\ truthy (Some id) = true
            /\ active_sessions w'
               = Map_set id (mkSession (clock w (S (clock_reads w)))
                                       (clock w (S (S (clock_reads w)))))
                         (active_sessions w)).
Proof.
  destruct (start_v2_paths fuel hf project params ctx (tool_entry "start_new_session" w))
    as (r0 & w1 & Hfn & Hreg).
  destruct (wrapper_keeps_registry "start_new_session"
              (ServerV2.start_new_session_fn fuel hf project) params ctx w _ _ Hfn)
    as (outcome & w' & Hrun & Hkeep & _).
  exists outcome, w'. split; [exact Hrun |]. rewrite Hkeep. exact Hreg.
Qed.

(** ** Errors of the implementation's own making *)

(** An [Error] the implementation made with [new Error(message)] goes
    through the wrapper as it is. *)
Lemma wrapper_rethrows {P A} name (fn : P -> context -> M A) params ctx w message w1 :
  fn params ctx (tool_entry name w) = (Throw (Error message), w1) ->
  create_tool_fn name fn params ctx w
  = (Throw (Error message),
     tool_exit name (advance 0 [ELog Err ("[" +:+ name +:+ "] Unexpected error")] w1)).
Proof.
  intros Hfn. rewrite create_tool_fn_enters.
  apply tool_finally; [| discriminate].
  unfold try_catch. rewrite Hfn. unfold tool_catch. cbn [err_response Error].
  cbn [err_name err_instanceof_TypeError]. simpl (String.eqb _ _ || _).
  unfold log_error. now rewrite emit_then.
Qed.

(** X15.  When the service answers the POST of the second revision's
    [start_new_session] with a status outside 200..299 and a readable
    body, the tool throws the error whose message is [Failed to start
    new session:] followed by the status code, the status text and the
    body text.  It has made that one request only: it does not read the
    body as JSON, does not poll, does not wait, and the registry is as
    it was. *)
Theorem start_new_session_rejects_error_status
  (fuel : nat) (hf : unit -> headers) (project : string)
  (params : ServerV2.start_params) (ctx : context) (w : world)
  (r : response) (text : string) :
  net w (fetches w) (start_request hf project params) = Responds r ->
  resp_ok r = false ->
  resp_text r = Some text ->
  exists evs,
    ServerV2.start_new_session fuel hf project params ctx w
    = (Throw (Error ("Failed to start new session: "
                     +:+ string_of_Z (resp_status r) +:+ " "
                     +:+ resp_statusText r +:+ " - " +:+ text)),
       tool_exit "start_new_session"
         (advance 1 evs (tool_entry "start_new_session" w)))
    /\ requests evs = [start_request hf project params]
    /\ delays evs = [].
Proof.
  intros Hnet Hok Htext.
  assert (Hnet' : net (tool_entry "start_new_session" w)
                      (fetches (tool_entry "start_new_session" w))
                      (start_request hf project params) = Responds r) by exact Hnet.
  pose proof (start_v2_posts fuel hf project params ctx _ r Hnet') as Hfn.
  rewrite Hok in Hfn. cbn [negb] in Hfn.
  unfold bind at 1 in Hfn. unfold bind at 1 in Hfn.
  unfold response_text in Hfn. rewrite Htext in Hfn. unfold ret at 1 in Hfn.
  unfold log_error in Hfn. rewrite log_then in Hfn. unfold throw, bind in Hfn.
  unfold ServerV2.start_new_session.
  rewrite (wrapper_rethrows _ _ _ _ _ _ _ Hfn), advance_advance.
  eexists. split; [reflexivity |]. split; reflexivity.
Qed.

(** A 403 with a body. *)
Lemma start_new_session_rejects_error_status_witness :
  let r := mkResponse 403 "Forbidden" None (Some "bad token") in
  let w := scripted [Responds r] in
  fst (ServerV2.start_new_session 5 test_headers "demo"
         (ServerV2.mkStartParams "Go to example.com" None true) with_progress w)
  = Throw (Error "Failed to start new session: 403 Forbidden - bad token").
Proof.
  intros r w.
  destruct (start_new_session_rejects_error_status 5 test_headers "demo"
              (ServerV2.mkStartParams "Go to example.com" None true) with_progress w
              r "bad token" eq_refl eq_refl eq_refl) as (evs & Hrun & _).
  now rewrite Hrun.
Defined.

(** ** The first revision of [start_new_session] *)

(** The first revision never looks at the status of the response. *)
Lemma start_v1_with_identifier fuel hf project instruction ctx w r d id :
  net w (fetches w) (start_request_v1 hf project instruction) = Responds r ->
  carries r d ->
  field d "executionId" = Some id ->
  truthy (Some id) = true ->
  let w1 := advance 1 [ELog Info "start_new_session task started";
                       ELog Info "Fetching URL";
                       EFetch (start_request_v1 hf project instruction);
                       ELog Info "Received task ID from API"] w in
  exists polled n evs,
    poll_task_result fuel id hf ctx w1 = (polled, advance n evs w1)
    /\ ServerV1.start_new_session_fn fuel hf project instruction ctx w
       = (match polled with
          | Return result =>
              Return (JStr (JSON.stringify
                              (JObj (js_object [("executionId", Some id);
                                                ("result", result)]))))
          | Throw e => Throw e
          | Pending => Pending
          end, advance n evs w1).
Proof.
  intros Hnet [Hjson Hnull] Hid Htruthy w1.
  unfold ServerV1.start_new_session_fn, log_info.
  rewrite emit_then. cbv zeta. rewrite log_then.
  match goal with
  | |- context [bind (fetch ?req) _ ?w0] =>
      assert (Hnet' : net w0 (fetches w0) req = Responds r) by exact Hnet;
      rewrite (bind_return _ _ _ _ _ (fetch_responds _ _ _ Hnet'))
  end.
  rewrite advance_advance.
  unfold bind at 1. unfold response_json. rewrite Hjson. unfold ret at 1.
  rewrite (bind_return _ _ _ _ _ (get_prop_field d "executionId" _ Hnull)).
  rewrite log_then. rewrite Hid, Htruthy.
  match goal with
  | |- context [advance _ ?evs0 w] => change (advance _ evs0 w) with w1
  end.
  destruct (poll_loop_settles fuel id hf ctx 0 w1) as (polled & n & evs & Hpoll & _).
  fold (poll_task_result fuel id hf ctx) in Hpoll.
  exists polled, n, evs. split; [exact Hpoll |].
  unfold bind. rewrite Hpoll. destruct polled; reflexivity.
Qed.

(** X16.  The first revision of [start_new_session] does not look at
    the status of the answer to its POST: whenever the body is JSON
    data with a truthy [executionId], also under an error status such
    as 500, it goes on to poll that identifier, and when the poll
    returns it returns the text of the identifier and the result. *)
Theorem start_new_session_v1_ignores_status
  (fuel : nat) (hf : unit -> headers) (project instruction : string)
  (ctx : context) (w : world) (r : response) (d id : json) :
  net w (fetches w) (start_request_v1 hf project instruction) = Responds r ->
  carries r d ->
  field d "executionId" = Some id ->
  truthy (Some id) = true ->
  let w1 := advance 1 [ELog Info "start_new_session task started";
                       ELog Info "Fetching URL";
                       EFetch (start_request_v1 hf project instruction);
                       ELog Info "Received task ID from API"]
                    (tool_entry "start_new_session" w) in
  exists polled n evs outcome w',
    poll_task_result fuel id hf ctx w1 = (polled, advance n evs w1)
    /\ ServerV1.start_new_session fuel hf project instruction ctx w = (outcome, w')
    /\ (polled = Pending <-> outcome = Pending)
    /\ (forall result,
          polled = Return result ->
          outcome = Return (JStr (JSON.stringify
                                    (JObj (js_object [("executionId", Some id);
                                                      ("result", result)]))))
          /\ w' = tool_exit "start_new_session" (advance n evs w1)).
Proof.
  intros Hnet Hd Hid Htruthy w1.
  assert (Hnet' : net (tool_entry "start_new_session" w)
                      (fetches (tool_entry "start_new_session" w))
                      (start_request_v1 hf project instruction) = Responds r) by exact Hnet.
  destruct (start_v1_with_identifier fuel hf project instruction ctx
              (tool_entry "start_new_session" w) r d id Hnet' Hd Hid Htruthy)
    as (polled & n & evs & Hpoll & Hfn).
  fold w1 in Hpoll, Hfn.
  destruct polled as [result | e |].
  - exists (Return result), n, evs. eexists _, _.
    split; [exact Hpoll |]. split; [exact (wrapper_returns _ _ _ _ _ _ _ Hfn) |].
    split; [split; discriminate |].
    intros result' [= <-]. split; reflexivity.
  - destruct (wrapper_keeps_registry "start_new_session"
                (ServerV1.start_new_session_fn fuel hf project) instruction ctx w _ _ Hfn)
      as (outcome & w' & Hrun & _ & Hpending & _).
    exists (Throw e), n, evs, outcome, w'.
    split; [exact Hpoll |]. split; [exact Hrun |].
    split; [| discriminate].
    rewrite <- Hpending. split; discriminate.
  - destruct (wrapper_keeps_registry "start_new_session"
                (ServerV1.start_new_session_fn fuel hf project) instruction ctx w _ _ Hfn)
      as (outcome & w' & Hrun & _ & Hpending & _).
    exists Pending, n, evs, outcome, w'.
    split; [exact Hpoll |]. split; [exact Hrun |].
    split; [| discriminate].
    split; intros _; [now apply Hpending | reflexivity].
Qed.

(** A 500 whose body names a session; its task is finalized at the
    first poll. *)
Lemma start_new_session_v1_ignores_status_witness :
  let created := mkResponse 500 "Internal Server Error"
                   (Some (JObj [("executionId", JStr "e-9")])) None in
  let done := ok_response (JObj [("status", JStr "finalized"); ("result", JStr "page")]) in
  let w := scripted [Responds created; Responds done] in
  fst (ServerV1.start_new_session 5 test_headers "demo" "Go to example.com" with_progress w)
  = Return (JStr (JSON.stringify (JObj [("executionId", JStr "e-9");
                                        ("result", JStr "page")]))).
Proof.
  intros created done w.
  assert (Hnet : net w (fetches w) (start_request_v1 test_headers "demo" "Go to example.com")
                 = Responds created) by reflexivity.
  assert (Hdata : carries created (JObj [("executionId", JStr "e-9")]))
    by (split; [reflexivity | discriminate]).
  destruct (start_new_session_v1_ignores_status 5 test_headers "demo" "Go to example.com"
              with_progress w created (JObj [("executionId", JStr "e-9")]) (JStr "e-9")
              Hnet Hdata eq_refl eq_refl)
    as (polled & n & evs & outcome & w' & Hpoll & Hrun & _ & Hret).
  apply (f_equal fst) in Hpoll. vm_compute in Hpoll.
  destruct (Hret (Some (JStr "page")) (eq_sym Hpoll)) as [-> _].
  now rewrite Hrun.
Defined.

(** ** [get_session_status] *)

(** The status tool up to the point where it has the response. *)
Lemma status_gets hf executionId ctx w r :
  net w (fetches w) (status_request executionId hf) = Responds r ->
  exists fn,
    ServerV2.get_session_status hf = create_tool_fn "get_session_status" fn
    /\ fn executionId ctx w
       = ((if negb (resp_ok r) then
             errorText <- response_text r ;;
             log_error "Failed to get session status" ;;;
             throw (Error ("Failed to get session status: "
                           +:+ string_of_Z (resp_status r) +:+ " "
                           +:+ resp_statusText r +:+ " - " +:+ errorText))
           else ret tt) ;;;
          data <- response_json r ;;
          ret (JStr (JSON.stringify data)))
           (advance 1 [ELog Info "get_session_status task started";
                       EFetch (status_request executionId hf)] w).
Proof.
  intros Hnet. eexists. split; [reflexivity |].
  unfold log_info. rewrite emit_then.
  match goal with
  | |- context [bind (fetch ?req) _ ?w0] =>
      assert (Hnet' : net w0 (fetches w0) req = Responds r) by exact Hnet;
      rewrite (bind_return _ _ _ _ _ (fetch_responds _ _ _ Hnet'))
  end.
  now rewrite advance_advance.
Qed.

(** X17.  When the service answers the GET of [get_session_status]
    with a status in 200..299 and a JSON body, the tool returns a text
    that parses back to exactly the data of that body, whatever the
    data is, [null] included.  It makes this one request, with the
    headers of the adapter, waits for nothing, and leaves the registry
    alone: the session need not be a tracked one. *)
Theorem get_session_status_returns_data
  (hf : unit -> headers) (executionId : string) (ctx : context) (w : world)
  (r : response) (d : json) :
  net w (fetches w) (status_request executionId hf) = Responds r ->
  resp_ok r = true ->
  resp_json r = Some d ->
  exists text,
    ServerV2.get_session_status hf executionId ctx w
    = (Return (JStr text),
       tool_exit "get_session_status"
         (advance 1 [ELog Info "get_session_status task started";
                     EFetch (status_request executionId hf)]
                  (tool_entry "get_session_status" w)))
    /\ JSON.parse text = Some d.
Proof.
  intros Hnet Hok Hjson.
  assert (Hnet' : net (tool_entry "get_session_status" w)
                      (fetches (tool_entry "get_session_status" w))
                      (status_request executionId hf) = Responds r) by exact Hnet.
  destruct (status_gets hf executionId ctx _ r Hnet') as (fn & -> & Hfn).
  rewrite Hok in Hfn. cbn [negb] in Hfn.
  unfold bind at 1, ret at 1 in Hfn. unfold response_json in Hfn. rewrite Hjson in Hfn.
  unfold bind, ret in Hfn.
  exists (JSON.stringify d). split; [| apply parse_stringify].
  exact (wrapper_returns _ _ _ _ _ _ _ Hfn).
Qed.

(** The service knows the session as running. *)
Lemma get_session_status_returns_data_witness :
  let d := JObj [("status", JStr "running"); ("steps", JNum 3)] in
  let w := scripted [Responds (ok_response d)] in
  exists text,
    fst (ServerV2.get_session_status test_headers "e-1" with_progress w) = Return (JStr text)
    /\ JSON.parse text = Some d.
Proof.
  intros d w.
  destruct (get_session_status_returns_data test_headers "e-1" with_progress w
              (ok_response d) d eq_refl eq_refl eq_refl) as (text & Hrun & Hparse).
  exists text. split; [now rewrite Hrun | exact Hparse].
Defined.

(** X18.  When the service answers the GET of [get_session_status]
    with a status outside 200..299 and a readable body, the tool throws
    the error whose message is [Failed to get session status:] followed
    by the status code, the status text and the body text, after that
    one request. *)
Theorem get_session_status_rejects_error_status
  (hf : unit -> headers) (executionId : string) (ctx : context) (w : world)
  (r : response) (text : string) :
  net w (fetches w) (status_request executionId hf) = Responds r ->
  resp_ok r = false ->
  resp_text r = Some text ->
  exists evs,
    ServerV2.get_session_status hf executionId ctx w
    = (Throw (Error ("Failed to get session status: "
                     +:+ string_of_Z (resp_status r) +:+ " "
                     +:+ resp_statusText r +:+ " - " +:+ text)),
       tool_exit "get_session_status"
         (advance 1 evs (tool_entry "get_session_status" w)))
    /\ requests evs = [status_request executionId hf]
    /\ delays evs = [].
Proof.
  intros Hnet Hok Htext.
  assert (Hnet' : net (tool_entry "get_session_status" w)
                      (fetches (tool_entry "get_session_status" w))
                      (status_request executionId hf) = Responds r) by exact Hnet.
  destruct (status_gets hf executionId ctx _ r Hnet') as (fn & -> & Hfn).
  rewrite Hok in Hfn. cbn [negb] in Hfn.
  unfold bind at 1 in Hfn. unfold bind at 1 in Hfn.
  unfold response_text in Hfn. rewrite Htext in Hfn. unfold ret at 1 in Hfn.
  unfold log_error in Hfn. rewrite log_then in Hfn. unfold throw, bind in Hfn.
  rewrite (wrapper_rethrows _ _ _ _ _ _ _ Hfn), advance_advance.
  eexists. split; [reflexivity |]. split; reflexivity.
Qed.

(** The session is not known to the service. *)
Lemma get_session_status_rejects_error_status_witness :
  let r := mkResponse 404 "Not Found" None (Some "no such task") in
  let w := scripted [Responds r] in
  fst (ServerV2.get_session_status test_headers "e-1" with_progress w)
  = Throw (Error "Failed to get session status: 404 Not Found - no such task").
Proof.
  intros r w.
  destruct (get_session_status_rejects_error_status test_headers "e-1" with_progress w
              r "no such task" eq_refl eq_refl eq_refl) as (evs & Hrun & _).
  now rewrite Hrun.
Defined.

(** ** The instructions of [batch_actions] *)

Lemma batch_each_interleaves len delay index actions :
  (index + length actions = len)%nat ->
  ServerV2.batch_each len delay index actions
  = if 0 <? delay
    then interleave ("Wait " +:+ string_of_Z delay +:+ " seconds before next action") actions
    else actions.
Proof.
  revert index. induction actions as [| action rest IH]; intros index Hlen.
  - now destruct (0 <? delay).
  - cbn [ServerV2.batch_each]. rewrite (IH (S index)) by (cbn [length] in Hlen; lia).
    cbn [length] in Hlen.
    destruct (0 <? delay).
    + rewrite andb_true_r. destruct rest as [| next rest].
      * cbn [length] in Hlen.
        replace (Z.of_nat index <? Z.of_nat len - 1) with false
          by (symmetry; apply Z.ltb_ge; lia).
        reflexivity.
      * cbn [length] in Hlen.
        replace (Z.of_nat index <? Z.of_nat len - 1) with true
          by (symmetry; apply Z.ltb_lt; lia).
        reflexivity.
    + rewrite andb_false_r. reflexivity.
Qed.

(** X19.  The instructions [batch_actions] sends are the actions in the
    order given, with the wait instruction between each two
    consecutive actions when the delay is positive and with nothing
    between them otherwise, followed by the one extraction prompt that
    states the number of actions.  There is never a wait before the
    first action or after the last one, and for no actions at all the
    prompt is sent alone. *)
Theorem batch_instructions_interleaves (actions : list string) (delay : Z) :
  ServerV2.batch_instructions actions delay
  = ((if 0 <? delay
      then interleave ("Wait " +:+ string_of_Z delay +:+ " seconds before next action")
                      actions
      else actions)
     ++ [ServerV2.batch_prompt (length actions)])%list
  /\ length (ServerV2.batch_instructions actions delay)
     = if (0 <? delay) && negb (Nat.eqb (length actions) 0)
       then (2 * length actions)%nat
       else S (length actions).
Proof.
  assert (Heq : ServerV2.batch_instructions actions delay
                = ((if 0 <? delay
                    then interleave
                           ("Wait " +:+ string_of_Z delay +:+ " seconds before next action")
                           actions
                    else actions)
                   ++ [ServerV2.batch_prompt (length actions)])%list).
  { unfold ServerV2.batch_instructions.
    now rewrite batch_each_interleaves by reflexivity. }
  split; [exact Heq |]. rewrite Heq, length_app. cbn [length].
  destruct (0 <? delay); cbn [andb].
  - generalize ("Wait " +:+ string_of_Z delay +:+ " seconds before next action").
    intros sep.
    assert (Hlen : forall a l, length (interleave sep (a :: l)) = S (2 * length l)).
    { intros a l. revert a. induction l as [| b l IH]; intros a; [reflexivity |].
      change (interleave sep (a :: b :: l)) with (a :: sep :: interleave sep (b :: l)).
      cbn [length]. rewrite IH. lia. }
    destruct actions as [| a l]; [reflexivity |].
    rewrite Hlen. cbn [length Nat.eqb negb]. lia.
  - lia.
Qed.

(** ** The tools that dispatch instructions *)

(** The [catch] block of the wrapper only writes to the log. *)
Lemma tool_catch_logs {A} name e w :
  exists e' evs,
    @tool_catch A name e w = (Throw e', advance 0 evs w) /\ requests evs = [].
Proof.
  unfold tool_catch. destruct (err_response e) as [resp |].
  - unfold try_catch, response_text, bind at 1.
    destruct (resp_text resp) as [[| c t] |].
    + eexists _, _. unfold ret, log_error. rewrite emit_then. unfold throw.
      split; reflexivity.
    + eexists _, _. unfold ret, log_error. rewrite emit_then. unfold throw.
      split; reflexivity.
    + eexists _, _. unfold throw at 1, log_error. rewrite emit_then.
      unfold ret. rewrite log_then. unfold throw. split; reflexivity.
  - destruct (_ || _); unfold log_error; rewrite emit_then; unfold throw;
      eexists _, _; split; reflexivity.
Qed.

(** Whatever the implementation does, the wrapper adds no request. *)
Lemma wrapper_adds_no_request {P A} name (fn : P -> context -> M A) params ctx w r w1 :
  fn params ctx (tool_entry name w) = (r, w1) ->
  exists r' tail w2,
    create_tool_fn name fn params ctx w = (r', w2)
    /\ trace w2 = (trace w1 ++ tail)%list
    /\ requests tail = []
    /\ fetches w2 = fetches w1
    /\ active_sessions w2 = active_sessions w1
    /\ (forall v, r' = Return v -> r = Return v).
Proof.
  intros Hfn. rewrite create_tool_fn_enters. unfold try_finally, try_catch.
  rewrite Hfn. destruct r as [v | e |].
  - eexists _, _, _. split; [reflexivity |]. cbn. repeat split; auto.
  - destruct (@tool_catch_logs A name e w1) as (e' & evs' & -> & Hlogs).
    eexists _, (evs' ++ [ELog Info ("[" +:+ name +:+ "] Tool finished")])%list, _.
    split; [reflexivity |]. cbn. rewrite <- app_assoc.
    split; [reflexivity |]. rewrite requests_app, Hlogs.
    repeat split; auto; discriminate.
  - eexists _, [], _. split; [reflexivity |]. rewrite app_nil_r.
    repeat split; auto; discriminate.
Qed.

(** A wrapped implementation that ends in a dispatch from the world
    [w0], reached from the entry of the tool without any request. *)
Lemma dispatch_tool_runs {P} name (fn : P -> context -> M json) params ctx w w0
      fuel executionId payload hf project evs0 :
  fn params ctx (tool_entry name w)
  = (text <- send_session_instructions fuel executionId payload hf ctx project ;;
     ret (JStr text)) w0 ->
  trace w0 = (trace w ++ evs0)%list ->
  requests evs0 = [] ->
  fetches w0 = fetches w ->
  dispatches (create_tool_fn name fn params ctx)
             (instructions_request executionId payload hf project)
             (active_sessions w0) w.
Proof.
  intros Hfn Htrace Hnone Hfetches.
  destruct (send_settles fuel executionId payload hf ctx project w0)
    as (sent & n & evs & polls & Hsend & Hreqs & Hlen & Hpolls & _).
  assert (Hgets : Forall (fun q => req_method q = "GET") polls).
  { eapply Forall_impl; [exact Hpolls |]. now intros q [Hq _]. }
  assert (Hfn' : exists r, fn params ctx (tool_entry name w) = (r, advance (S n) evs w0)).
  { rewrite Hfn. unfold bind. rewrite Hsend. destruct sent; eexists; reflexivity. }
  destruct Hfn' as [r Hfn'].
  destruct (wrapper_adds_no_request name fn params ctx w _ _ Hfn')
    as (outcome & tail & w' & Hrun & Htail & Hnotail & Hfetch & Hkeep & _).
  exists outcome, (evs0 ++ evs ++ tail)%list, polls, w'.
  split; [exact Hrun |].
  split; [rewrite Htail; cbn; rewrite Htrace; now rewrite <- !app_assoc |].
  split; [rewrite !requests_app, Hnone, Hnotail, Hreqs; cbn; now rewrite app_nil_r |].
  split; [exact Hgets |].
  split; [rewrite Hfetch; cbn; rewrite Hfetches, Hlen; reflexivity |].
  rewrite Hkeep. reflexivity.
Qed.

Lemma update_activity_then {A} id (k : M A) w :
  exists w0,
    (update_activity id ;;; k) w = k w0
    /\ active_sessions w0 = touched id (clock w (clock_reads w)) (active_sessions w)
    /\ trace w0 = trace w
    /\ fetches w0 = fetches w.
Proof.
  unfold update_activity, get_sessions, touched, bind at 1, bind at 1.
  destruct (Map_get id (active_sessions w)) as [s |].
  - eexists. split; [reflexivity |]. repeat split.
  - eexists. split; [reflexivity |]. repeat split.
Qed.

Lemma touch_then_dispatch {A} started id (k : M A) w :
  exists w0,
    (log_info started ;;; update_activity id ;;; k) w = k w0
    /\ active_sessions w0 = touched id (clock w (clock_reads w)) (active_sessions w)
    /\ trace w0 = (trace w ++ [ELog Info started])%list
    /\ fetches w0 = fetches w.
Proof.
  unfold log_info. rewrite emit_then.
  destruct (update_activity_then id k (advance 0 [ELog Info started] w))
    as (w0 & Hstep & Hreg & Htrace & Hfetch).
  exists w0. split; [exact Hstep |]. split; [exact Hreg |]. split; assumption.
Qed.

Lemma touched_keeps_ids id now m : session_ids (touched id now m) = session_ids m.
Proof.
  unfold touched, session_ids.
  destruct (Map_get id m) as [s |] eqn:Hget; [| reflexivity].
  rewrite Map_set_keys. now rewrite Hget.
Qed.

Lemma interact_dispatches fuel hf project ctx w params :
  dispatches
    (ServerV2.interact_and_extract_in_session fuel hf project params ctx)
    (instructions_request (ServerV2.ip_executionId params)
       (ServerV2.ip_instructions params
        ++ (if 0 <? ServerV2.ip_waitTime params
            then ["Wait " +:+ string_of_Z (ServerV2.ip_waitTime params)
                  +:+ " seconds for the page to update after the interaction"]
            else [])
        ++ (if ServerV2.ip_extractData params then [ServerV2.interact_prompt] else []))%list
       hf project)
    (touched (JStr (ServerV2.ip_executionId params)) (clock w (S (clock_reads w)))
             (active_sessions w)) w.
Proof.
  unfold ServerV2.interact_and_extract_in_session.
  set (id := JStr (ServerV2.ip_executionId params)).
  match goal with
  | |- dispatches _ (instructions_request ?e ?payload _ _) _ _ =>
      destruct (touch_then_dispatch "interact_and_extract_in_session task started" id
                  (text <- send_session_instructions fuel e payload hf ctx project ;;
                   ret (JStr text))
                  (tool_entry "interact_and_extract_in_session" w))
        as (w0 & Hstep & Hreg & Htrace & Hfetch)
  end.
  assert (Hreg' : active_sessions w0
                  = touched id (clock w (S (clock_reads w))) (active_sessions w))
    by exact Hreg.
  rewrite <- Hreg'.
  eapply dispatch_tool_runs with (w0 := w0); [exact Hstep | | | exact Hfetch].
  - rewrite Htrace. cbn. rewrite <- app_assoc. reflexivity.
  - reflexivity.
Qed.

Lemma extract_v2_dispatches fuel hf project ctx w instructions executionId :
  exists prompt,
    dispatches
      (ServerV2.extract_from_session fuel hf project (instructions, executionId) ctx)
      (instructions_request executionId (instructions ++ [prompt])%list hf project)
      (touched (JStr executionId) (clock w (S (clock_reads w))) (active_sessions w)) w.
Proof.
  eexists. unfold ServerV2.extract_from_session.
  set (id := JStr executionId).
  match goal with
  | |- dispatches _ (instructions_request ?e ?payload _ _) _ _ =>
      destruct (touch_then_dispatch "extract_from_session task started" id
                  (text <- send_session_instructions fuel e payload hf ctx project ;;
                   ret (JStr text))
                  (tool_entry "extract_from_session" w))
        as (w0 & Hstep & Hreg & Htrace & Hfetch)
  end.
  assert (Hreg' : active_sessions w0
                  = touched id (clock w (S (clock_reads w))) (active_sessions w))
    by exact Hreg.
  rewrite <- Hreg'.
  eapply dispatch_tool_runs with (w0 := w0); [exact Hstep | | | exact Hfetch].
  - rewrite Htrace. cbn. rewrite <- app_assoc. reflexivity.
  - reflexivity.
Qed.

(** A wrapped implementation that logs its start and dispatches. *)
Lemma later_tool_dispatches {P} name (fn : P -> context -> M json) params ctx w started
      fuel executionId payload hf project :
  fn params ctx (tool_entry name w)
  = (log_info started ;;;
     text <- send_session_instructions fuel executionId payload hf ctx project ;;
     ret (JStr text)) (tool_entry name w) ->
  dispatches (create_tool_fn name fn params ctx)
             (instructions_request executionId payload hf project)
             (active_sessions w) w.
Proof.
  intros Hfn. unfold log_info in Hfn. rewrite emit_then in Hfn.
  change (active_sessions w)
    with (active_sessions (advance 0 [ELog Info started] (tool_entry name w))).
  eapply dispatch_tool_runs; [exact Hfn | | | reflexivity].
  - cbn. rewrite <- app_assoc. reflexivity.
  - reflexivity.
Qed.

(** X20.  The two tools that work in a session and record its
    activity, [interact_and_extract_in_session] and the second
    revision's [extract_from_session], touch the session before they
    dispatch: on every path, whether the dispatch returns, throws or is
    still pending, the registry they leave is the one they found with
    the [lastActivity] of the session set to the clock reading taken
    at that point, or the very registry they found when the identifier
    is not tracked.  They never add or remove a session.  Each posts
    its instructions once, the given ones first and the tool's own
    after them, and afterwards only polls. *)
Theorem session_tools_touch_before_dispatch
  (fuel : nat) (hf : unit -> headers) (project : string) (ctx : context) (w : world) :
  let now := clock w (S (clock_reads w)) in
  (forall params,
      dispatches
        (ServerV2.interact_and_extract_in_session fuel hf project params ctx)
        (instructions_request (ServerV2.ip_executionId params)
           (ServerV2.ip_instructions params
            ++ (if 0 <? ServerV2.ip_waitTime params
                then ["Wait " +:+ string_of_Z (ServerV2.ip_waitTime params)
                      +:+ " seconds for the page to update after the interaction"]
                else [])
            ++ (if ServerV2.ip_extractData params then [ServerV2.interact_prompt] else []))%list
           hf project)
        (touched (JStr (ServerV2.ip_executionId params)) now (active_sessions w)) w)
  /\ (forall instructions executionId,
         exists prompt,
           dispatches
             (ServerV2.extract_from_session fuel hf project (instructions, executionId) ctx)
             (instructions_request executionId (instructions ++ [prompt])%list hf project)
             (touched (JStr executionId) now (active_sessions w)) w)
  /\ (forall id, session_ids (touched id now (active_sessions w))
                 = session_ids (active_sessions w)).
Proof.
  intros now. split; [| split].
  - intros params. apply interact_dispatches.
  - intros instructions executionId. apply extract_v2_dispatches.
  - intros id. apply touched_keeps_ids.
Qed.

(** X21.  The four later tools that work in a session,
    [wait_for_element], [navigate_to_url], [get_page_info] and
    [batch_actions], each post their instructions to the session once
    and afterwards only poll, and on every path they leave the
    registry exactly as they found it: unlike the two tools above they
    do not record the activity of the session, and they do not check
    that the identifier is a tracked one.  [batch_actions] sends all
    its actions in that one request, and its [stopOnError] parameter
    has no part in what it sends. *)
Theorem later_tools_leave_registry
  (fuel : nat) (hf : unit -> headers) (project : string) (ctx : context) (w : world) :
  (forall params,
      dispatches (ServerV2.wait_for_element fuel hf project params ctx)
                 (instructions_request (ServerV2.wp_executionId params)
                                       (ServerV2.wait_instructions params) hf project)
                 (active_sessions w) w)
  /\ (forall url executionId,
         dispatches (ServerV2.navigate_to_url fuel hf project (url, executionId) ctx)
                    (instructions_request executionId
                                          (ServerV2.navigate_instructions url) hf project)
                    (active_sessions w) w)
  /\ (forall executionId,
         dispatches (ServerV2.get_page_info fuel hf project executionId ctx)
                    (instructions_request executionId
                                          ServerV2.page_info_instructions hf project)
                    (active_sessions w) w)
  /\ (forall actions executionId stopOnError delay,
         dispatches (ServerV2.batch_actions fuel hf project
                       (ServerV2.mkBatchParams actions executionId stopOnError delay) ctx)
                    (instructions_request executionId
                                          (ServerV2.batch_instructions actions delay)
                                          hf project)
                    (active_sessions w) w).
Proof.
  split; [| split; [| split]].
  - intros params. eapply later_tool_dispatches. reflexivity.
  - intros url executionId. eapply later_tool_dispatches. reflexivity.
  - intros executionId. eapply later_tool_dispatches. reflexivity.
  - intros actions executionId stopOnError delay. eapply later_tool_dispatches. reflexivity.
Qed.

(** ** What the second revision hands to the host *)

Ltac returns_text Hrun :=
  apply wrapper_returns_only in Hrun as [? Hrun];
  cbv beta iota zeta in Hrun; unfold ServerV2.start_new_session_fn,
    ServerV2.list_active_sessions_fn, bind in Hrun;
  repeat match type of Hrun with
         | context [match ?x with _ => _ end] => destruct x eqn:?; try discriminate
         end;
  injection Hrun as <- _; eauto.

(** X22.  Every one of the nine tools of the second revision hands the
    host a string whenever it returns at all: on no path does any of
    them return the parsed data of a response or another structured
    value. *)
Theorem second_revision_returns_text
  (fuel : nat) (hf : unit -> headers) (project : string) (toISOString : Z -> string)
  (ctx : context) (w : world) (v : json) (w' : world) :
  (forall params,
      ServerV2.start_new_session fuel hf project params ctx w = (Return v, w') ->
      exists text, v = JStr text)
  /\ (forall params,
         ServerV2.interact_and_extract_in_session fuel hf project params ctx w
         = (Return v, w') ->
         exists text, v = JStr text)
  /\ (forall params,
         ServerV2.extract_from_session fuel hf project params ctx w = (Return v, w') ->
         exists text, v = JStr text)
  /\ (forall executionId,
         ServerV2.get_session_status hf executionId ctx w = (Return v, w') ->
         exists text, v = JStr text)
  /\ (forall params,
         ServerV2.wait_for_element fuel hf project params ctx w = (Return v, w') ->
         exists text, v = JStr text)
  /\ (forall params,
         ServerV2.navigate_to_url fuel hf project params ctx w = (Return v, w') ->
         exists text, v = JStr text)
  /\ (forall executionId,
         ServerV2.get_page_info fuel hf project executionId ctx w = (Return v, w') ->
         exists text, v = JStr text)
  /\ (forall params,
         ServerV2.batch_actions fuel hf project params ctx w = (Return v, w') ->
         exists text, v = JStr text)
  /\ (ServerV2.list_active_sessions toISOString tt ctx w = (Return v, w') ->
      exists text, v = JStr text).
Proof.
  repeat split.
  - intros params Hrun. returns_text Hrun.
  - intros params Hrun. returns_text Hrun.
  - intros [instructions executionId] Hrun. returns_text Hrun.
  - intros executionId Hrun. returns_text Hrun.
  - intros params Hrun. returns_text Hrun.
  - intros [url executionId] Hrun. returns_text Hrun.
  - intros executionId Hrun. returns_text Hrun.
  - intros params Hrun. returns_text Hrun.
  - intros Hrun. returns_text Hrun.
Qed.

(** ** [list_active_sessions] *)

Lemma ticks_frame n w :
  active_sessions (ticks n w) = active_sessions w
  /\ fetches (ticks n w) = fetches w
  /\ trace (ticks n w) = trace w
  /\ clock_reads (ticks n w) = (n + clock_reads w)%nat
  /\ clock (ticks n w) = clock w.
Proof.
  revert w. induction n as [| n IH]; intros w; [repeat split |].
  cbn [ticks]. destruct (IH (tick w)) as (-> & -> & -> & -> & ->).
  cbn. repeat split. lia.
Qed.

(** The callback of [sessions.map] gives one entry for each session,
    in the order of the registry, and reads the clock once for each. *)
Lemma session_data_runs toISOString m w :
  exists entries,
    ServerV2.session_data toISOString m w = (Return entries, ticks (length m) w)
    /\ length entries = length m
    /\ forall i id data,
        m !! i = Some (id, data) ->
        entries !! i
        = Some (JObj [("executionId", id);
                      ("created", JStr (toISOString (created data)));
                      ("lastActivity", JStr (toISOString (lastActivity data)));
                      ("ageMinutes",
                       JNum (ServerV2.round_minutes
                               (clock w (i + clock_reads w) - created data)))]).
Proof.
  revert w. induction m as [| [id0 data0] m IH]; intros w.
  - exists []. split; [reflexivity |]. split; [reflexivity |]. intros i id data Hi.
    discriminate.
  - destruct (IH (tick w)) as (entries & Hrun & Hlen & Hall).
    eexists. split; [| split].
    + cbn [ServerV2.session_data length ticks]. unfold bind at 1, Date_now.
      unfold bind at 1. rewrite Hrun. reflexivity.
    + cbn [length]. now rewrite Hlen.
    + intros [| i] id data Hi.
      * injection Hi as <- <-. reflexivity.
      * apply (Hall i id data) in Hi.
        change ((?e :: entries) !! S i) with (entries !! i). rewrite Hi.
        cbn [tick clock clock_reads]. now rewrite Nat.add_succ_r.
Qed.

Lemma list_fn_runs toISOString ctx w :
  let w0 := advance 0 [ELog Info "list_active_sessions task started"] w in
  exists entries timestamp,
    ServerV2.list_active_sessions_fn toISOString tt ctx w
    = (Return (JStr (JSON.stringify
                       (JObj [("activeSessions", JArr entries);
                              ("totalSessions", JNum (Z.of_nat (length entries)));
                              ("timestamp", JStr timestamp)]))),
       tick (ticks (length (active_sessions w)) w0))
    /\ length entries = length (active_sessions w)
    /\ forall i id data,
        active_sessions w !! i = Some (id, data) ->
        entries !! i
        = Some (JObj [("executionId", id);
                      ("created", JStr (toISOString (created data)));
                      ("lastActivity", JStr (toISOString (lastActivity data)));
                      ("ageMinutes",
                       JNum (ServerV2.round_minutes
                               (clock w (i + clock_reads w) - created data)))]).
Proof.
  intros w0.
  destruct (session_data_runs toISOString (active_sessions w) w0)
    as (entries & Hdata & Hlen & Hall).
  exists entries. eexists. split; [| split; [exact Hlen | exact Hall]].
  unfold ServerV2.list_active_sessions_fn, log_info. rewrite emit_then.
  fold w0. unfold get_sessions, bind at 1.
  change (active_sessions w0) with (active_sessions w).
  rewrite (bind_return _ _ _ _ _ Hdata).
  unfold bind, Date_now, ret. reflexivity.
Qed.

(** X23.  [list_active_sessions] makes no request and changes nothing
    in the registry.  It returns a text that parses back to a report
    whose [activeSessions] has one entry for each tracked session, in
    the order of the registry, with the session's identifier, the
    texts of its two timestamps and its age, and whose [totalSessions]
    is the number of tracked sessions; for an empty registry the list
    is empty and the total is 0.  The age of a session is measured
    from its creation, not from its last activity, against a clock
    reading taken for that entry, and rounded to whole minutes. *)
Theorem list_active_sessions_reports_registry
  (toISOString : Z -> string) (ctx : context) (w : world) :
  exists text report entries w',
    ServerV2.list_active_sessions toISOString tt ctx w = (Return (JStr text), w')
    /\ JSON.parse text = Some report
    /\ field report "activeSessions" = Some (JArr entries)
    /\ field report "totalSessions"
       = Some (JNum (Z.of_nat (length (active_sessions w))))
    /\ length entries = length (active_sessions w)
    /\ (forall i id data,
          active_sessions w !! i = Some (id, data) ->
          entries !! i
          = Some (JObj [("executionId", id);
                        ("created", JStr (toISOString (created data)));
                        ("lastActivity", JStr (toISOString (lastActivity data)));
                        ("ageMinutes",
                         JNum (ServerV2.round_minutes
                                 (clock w (i + S (clock_reads w)) - created data)))]))
    /\ active_sessions w' = active_sessions w
    /\ fetches w' = fetches w
    /\ clock_reads w' = (length (active_sessions w) + 3 + clock_reads w)%nat.
Proof.
  destruct (list_fn_runs toISOString ctx (tool_entry "list_active_sessions" w))
    as (entries & timestamp & Hfn & Hlen & Hall).
  eexists _, _, entries, _.
  split; [exact (wrapper_returns _ _ _ _ _ _ _ Hfn) |].
  split; [apply parse_stringify |].
  split; [reflexivity |].
  split; [cbn; rewrite Hlen; reflexivity |].
  split; [exact Hlen |].
  split; [exact Hall |].
  match goal with
  | |- context [ticks ?n ?w0] =>
      destruct (ticks_frame n w0) as (Hreg & Hfetch & _ & Hreads & _)
  end.
  cbn. cbn in Hreg, Hfetch, Hreads. rewrite Hreg, Hfetch, Hreads.
  repeat split. lia.
Qed.

(** ** The message of a failed task *)

(** X24.  The poller compares the status with [failed] loosely and
    writes the [error] of the response into the message by string
    conversion.  So a task fails when its status is the string
    [failed] or a value that converts to it, such as the array holding
    that one string; the message ends in [undefined] when the response
    has no [error], and in the tag [[object Object]] when the error is
    an object without a property [toString] of its own, whose content
    is lost.  When the error has no string form, as an object with an
    own [toString] has none, the poller throws the conversion's
    [TypeError] in place of the task's failure. *)
Theorem poll_failure_renders_error
  (fuel : nat) (id : json) (hf : unit -> headers) (ctx : context) (w : world)
  (running : list response) (final : response) (d : json) :
  answered w (poll_request id hf) (running ++ [final]) ->
  Forall reports_running running ->
  carries final d ->
  loose_eq_str (field d "status") "failed" = Some true ->
  (length running < fuel)%nat ->
  match js_to_string id with
  | None => poll_task_result fuel id hf ctx w = (Throw no_primitive, w)
  | Some text =>
      exists evs,
        poll_task_result fuel id hf ctx w
        = (Throw (match field d "error" with
                  | None => Error ("Task " +:+ text +:+ " failed: undefined")
                  | Some (JObj props) =>
                      match assoc "toString" props with
                      | None => Error ("Task " +:+ text +:+ " failed: [object Object]")
                      | Some _ => no_primitive
                      end
                  | Some (JStr message) =>
                      Error ("Task " +:+ text +:+ " failed: " +:+ message)
                  | Some other =>
                      match js_to_string other with
                      | Some message =>
                          Error ("Task " +:+ text +:+ " failed: " +:+ message)
                      | None => no_primitive
                      end
                  end),
           advance (S (length running)) evs w)
        /\ requests evs = replicate (S (length running)) (poll_request id hf)
        /\ poll_request id hf
           = mkRequest ("https://browser.ai/api/v1/tasks/" +:+ text) "GET" None (hf tt)
  end.
Proof.
  intros Hans Hrun Hd Hst Hfuel.
  destruct (js_to_string id) as [text |] eqn:Hid.
  2: { destruct fuel as [| fuel]; [lia |]. now apply poll_loop_without_text. }
  destruct (poll_to_the_last running final fuel id hf ctx w d text Hid Hans Hrun Hd Hfuel)
    as (fuel' & w' & Heq & -> & Hnet).
  set (n := length running) in *.
  set (req := poll_request id hf) in *.
  set (idx := idx_after n ctx 0) in *.
  exists (running_events n req ctx 0
          ++ poll_events req ctx idx ++ [ELog Err "Task poll failed"])%list.
  assert (Hio : io (running_events n req ctx 0
                    ++ poll_events req ctx idx ++ [ELog Err "Task poll failed"])
                = polls_and_delays n req).
  { apply io_running_events. now rewrite io_app, io_poll_events. }
  split; [| split; [| now apply poll_request_text]].
  - rewrite Heq, (poll_iteration _ _ _ _ _ _ _ _ _ Hid Hnet Hd).
    cbv zeta. rewrite (loosely_failed_is_no_success _ Hst), Hst.
    unfold converted at 1. unfold bind at 1, ret at 1.
    rewrite advance_advance.
    rewrite (bind_return _ _ _ _ _ (get_prop_field d "error" _ (proj2 Hd))).
    unfold log_error. rewrite log_then.
    rewrite <- app_assoc.
    destruct (field d "error") as [[| b | m | message | items | props] |];
      cbn [template js_to_string]; try reflexivity.
    + now destruct b.
    + destruct (option_map _ _); reflexivity.
    + destruct (assoc "toString" props); reflexivity.
  - now rewrite <- requests_io, Hio, requests_polls_and_delays.
Qed.

(** The status is the array holding [failed], and the error is an
    object with a [toString] of its own. *)
Lemma poll_failure_renders_error_witness :
  let final := ok_response (JObj [("status", JArr [JStr "failed"]);
                                  ("error", JObj [("toString", JNull)])]) in
  let w := scripted [Responds final] in
  fst (poll_task_result 5 (JStr "t9") test_headers with_progress w)
  = Throw (TypeError "Cannot convert object to primitive value").
Proof.
  intros final w.
  assert (Hans : answered w (poll_request (JStr "t9") test_headers) ([] ++ [final])).
  { intros [| i] r Hi; simpl in Hi; inversion Hi; reflexivity. }
  assert (Hd : carries final (JObj [("status", JArr [JStr "failed"]);
                                    ("error", JObj [("toString", JNull)])]))
    by (split; [reflexivity | discriminate]).
  assert (Hfuel : (length (@nil response) < 5)%nat) by (simpl; lia).
  destruct (poll_failure_renders_error 5 (JStr "t9") test_headers with_progress w
              [] final _ Hans ltac:(constructor) Hd eq_refl Hfuel)
    as (evs & Hrun & _).
  now rewrite Hrun.
Defined.

(** ** The registry over all tools *)

Lemma same_ids_keeps {A} (run : world -> settled A * world) w outcome w' :
  run w = (outcome, w') ->
  session_ids (active_sessions w') = session_ids (active_sessions w) ->
  keeps_sessions run w.
Proof.
  intros Hrun Hids. exists outcome, w'. split; [exact Hrun |]. split.
  - exists []. rewrite app_nil_r. split; [exact Hids | simpl; lia].
  - unfold distinct_keys. unfold session_ids in Hids. now rewrite Hids.
Qed.

Lemma dispatches_keeps {A} (run : world -> settled A * world) post sessions w :
  dispatches run post sessions w ->
  session_ids sessions = session_ids (active_sessions w) ->
  keeps_sessions run w.
Proof.
  intros (outcome & evs & polls & w' & Hrun & _ & _ & _ & _ & Hreg) Hids.
  apply (same_ids_keeps run w outcome w' Hrun). now rewrite Hreg.
Qed.

(** The status tool leaves the registry alone on every path. *)
Lemma status_keeps_registry hf executionId ctx w :
  exists outcome w',
    ServerV2.get_session_status hf executionId ctx w = (outcome, w')
    /\ active_sessions w' = active_sessions w.
Proof.
  unfold ServerV2.get_session_status.
  match goal with
  | |- context [create_tool_fn ?name ?fn executionId ctx w] =>
      set (f := fn);
      assert (Hfn : exists r w1, f executionId ctx (tool_entry name w) = (r, w1)
                                 /\ active_sessions w1 = active_sessions w)
  end.
  { unfold f. cbv beta. unfold log_info. rewrite emit_then.
    unfold bind at 1, fetch.
    destruct (net _ _ _) as [r | e]; [| eexists _, _; split; reflexivity].
    destruct (resp_ok r); cbn [negb].
    - unfold bind at 1, ret at 1, bind, response_json.
      destruct (resp_json r); eexists _, _; split; reflexivity.
    - unfold bind at 1, bind at 1, response_text.
      destruct (resp_text r); eexists _, _; split; reflexivity. }
  destruct Hfn as (r & w1 & Hfn & Hreg).
  destruct (wrapper_keeps_registry "get_session_status" f executionId ctx w _ _ Hfn)
    as (outcome & w' & Hrun & Hkeep & _).
  exists outcome, w'. split; [exact Hrun | now rewrite Hkeep].
Qed.

(** X25.  No tool of the second revision ever forgets a session: on
    every path of each of the nine tools, the identifiers in the
    registry afterwards are the ones that were there before, in the
    same order, with at most one new identifier added at the end, and
    they are distinct when they were distinct before.  No tool calls
    [remove_session], so from one call to the next the registry only
    grows. *)
Theorem no_tool_forgets_a_session
  (fuel : nat) (hf : unit -> headers) (project : string) (toISOString : Z -> string)
  (ctx : context) (w : world) :
  (forall params,
      keeps_sessions (ServerV2.start_new_session fuel hf project params ctx) w)
  /\ (forall params,
         keeps_sessions
           (ServerV2.interact_and_extract_in_session fuel hf project params ctx) w)
  /\ (forall params,
         keeps_sessions (ServerV2.extract_from_session fuel hf project params ctx) w)
  /\ (forall executionId,
         keeps_sessions (ServerV2.get_session_status hf executionId ctx) w)
  /\ (forall params,
         keeps_sessions (ServerV2.wait_for_element fuel hf project params ctx) w)
  /\ (forall params,
         keeps_sessions (ServerV2.navigate_to_url fuel hf project params ctx) w)
  /\ (forall executionId,
         keeps_sessions (ServerV2.get_page_info fuel hf project executionId ctx) w)
  /\ (forall params,
         keeps_sessions (ServerV2.batch_actions fuel hf project params ctx) w)
  /\ keeps_sessions (ServerV2.list_active_sessions toISOString tt ctx) w.
Proof.
  repeat split.
  - intros params.
    destruct (start_v2_paths fuel hf project params ctx (tool_entry "start_new_session" w))
      as (r0 & w1 & Hfn & Hreg).
    destruct (wrapper_keeps_registry "start_new_session"
                (ServerV2.start_new_session_fn fuel hf project) params ctx w _ _ Hfn)
      as (outcome & w' & Hrun & Hkeep & _).
    destruct Hreg as [Hsame | (r & d & id & _ & _ & _ & _ & _ & Hset)].
    + apply (same_ids_keeps _ w outcome w' Hrun). now rewrite Hkeep, Hsame.
    + exists outcome, w'. split; [exact Hrun |]. rewrite Hkeep, Hset.
      change (active_sessions (tool_entry "start_new_session" w))
        with (active_sessions w).
      split.
      * unfold session_ids. rewrite Map_set_keys.
        destruct (Map_get id (active_sessions w)).
        -- exists []. rewrite app_nil_r. split; [reflexivity | simpl; lia].
        -- exists [id]. split; [reflexivity | simpl; lia].
      * apply Map_set_distinct.
  - intros params.
    eapply dispatches_keeps; [apply interact_dispatches | apply touched_keeps_ids].
  - intros [instructions executionId].
    destruct (extract_v2_dispatches fuel hf project ctx w instructions executionId)
      as [prompt Hrun].
    eapply dispatches_keeps; [exact Hrun | apply touched_keeps_ids].
  - intros executionId.
    destruct (status_keeps_registry hf executionId ctx w) as (outcome & w' & Hrun & Hreg).
    apply (same_ids_keeps _ w outcome w' Hrun). now rewrite Hreg.
  - intros params. eapply dispatches_keeps; [| reflexivity].
    eapply later_tool_dispatches. reflexivity.
  - intros [url executionId]. eapply dispatches_keeps; [| reflexivity].
    eapply later_tool_dispatches. reflexivity.
  - intros executionId. eapply dispatches_keeps; [| reflexivity].
    eapply later_tool_dispatches. reflexivity.
  - intros params. eapply dispatches_keeps; [| reflexivity].
    eapply later_tool_dispatches. reflexivity.
  - destruct (list_fn_runs toISOString ctx (tool_entry "list_active_sessions" w))
      as (entries & timestamp & Hfn & _).
    apply (same_ids_keeps _ w _ _ (wrapper_returns _ _ _ _ _ _ _ Hfn)).
    match goal with
    | |- context [ticks ?n ?w0] => destruct (ticks_frame n w0) as (Hreg & _)
    end.
    cbn. cbn in Hreg. now rewrite Hreg.
Qed.

(** ** What the tools hand to the host *)

(** Whenever the dispatcher returns, it returns the text of an
    object. *)
Lemma send_returns_json fuel executionId payload hf ctx project w text w' :
  send_session_instructions fuel executionId payload hf ctx project w = (Return text, w') ->
  exists value, text = JSON.stringify value.
Proof.
  intros Hrun. unfold send_session_instructions, no_task_id, bind in Hrun.
  remember JSON.stringify as encode eqn:Hencode in Hrun.
  repeat match type of Hrun with
         | context [match ?x with _ => _ end] => destruct x eqn:?; try discriminate
         end.
  all: try discriminate.
  all: injection Hrun as <- _; subst encode; eexists; reflexivity.
Qed.

Ltac returns_json Hrun :=
  apply wrapper_returns_only in Hrun as [? Hrun];
  cbv beta iota zeta in Hrun; unfold ServerV2.start_new_session_fn,
    ServerV2.list_active_sessions_fn, bind in Hrun;
  remember JSON.stringify as encode eqn:Hencode in Hrun;
  repeat match type of Hrun with
         | context [match ?x with _ => _ end] => destruct x eqn:?; try discriminate
         end;
  injection Hrun as <- _; subst encode;
  try match goal with
      | H : send_session_instructions _ _ _ _ _ _ _ = (Return _, _) |- _ =>
          apply send_returns_json in H as [? ->]
      end;
  eexists _, _; split; [reflexivity | apply parse_stringify].

(** C8.  Every tool the server registers, the nine tools of the
    revision that loads, hands the host a string whenever it returns,
    and that string is JSON text: [JSON.parse] reads it.  On every
    other path the tool throws an error.  In particular, when the
    answer to the task creation is a 200..299 whose data holds no
    truthy [executionId], [start_new_session] throws the error that no
    execution id was received, and returns nothing. *)
Theorem tools_return_json_text
  (fuel : nat) (hf : unit -> headers) (project : string) (toISOString : Z -> string)
  (ctx : context) (w : world) :
  (forall params v w',
      ServerV2.start_new_session fuel hf project params ctx w = (Return v, w') ->
      exists text value, v = JStr text /\ JSON.parse text = Some value)
  /\ (forall params v w',
         ServerV2.interact_and_extract_in_session fuel hf project params ctx w
         = (Return v, w') ->
         exists text value, v = JStr text /\ JSON.parse text = Some value)
  /\ (forall params v w',
         ServerV2.extract_from_session fuel hf project params ctx w = (Return v, w') ->
         exists text value, v = JStr text /\ JSON.parse text = Some value)
  /\ (forall executionId v w',
         ServerV2.get_session_status hf executionId ctx w = (Return v, w') ->
         exists text value, v = JStr text /\ JSON.parse text = Some value)
  /\ (forall params v w',
         ServerV2.wait_for_element fuel hf project params ctx w = (Return v, w') ->
         exists text value, v = JStr text /\ JSON.parse text = Some value)
  /\ (forall params v w',
         ServerV2.navigate_to_url fuel hf project params ctx w = (Return v, w') ->
         exists text value, v = JStr text /\ JSON.parse text = Some value)
  /\ (forall executionId v w',
         ServerV2.get_page_info fuel hf project executionId ctx w = (Return v, w') ->
         exists text value, v = JStr text /\ JSON.parse text = Some value)
  /\ (forall params v w',
         ServerV2.batch_actions fuel hf project params ctx w = (Return v, w') ->
         exists text value, v = JStr text /\ JSON.parse text = Some value)
  /\ (forall v w',
         ServerV2.list_active_sessions toISOString tt ctx w = (Return v, w') ->
         exists text value, v = JStr text /\ JSON.parse text = Some value)
  /\ (forall params r d,
         net w (fetches w) (start_request hf project params) = Responds r ->
         resp_ok r = true ->
         carries r d ->
         truthy (field d "executionId") = false ->
         exists w',
           ServerV2.start_new_session fuel hf project params ctx w
           = (Throw (Error "No execution ID received from API"), w')).
Proof.
  repeat match goal with |- _ /\ _ => split end.
  - intros params v w' Hrun. returns_json Hrun.
  - intros params v w' Hrun. returns_json Hrun.
  - intros [instructions executionId] v w' Hrun. returns_json Hrun.
  - intros executionId v w' Hrun. returns_json Hrun.
  - intros params v w' Hrun. returns_json Hrun.
  - intros [url executionId] v w' Hrun. returns_json Hrun.
  - intros executionId v w' Hrun. returns_json Hrun.
  - intros params v w' Hrun. returns_json Hrun.
  - intros v w' Hrun. returns_json Hrun.
  - intros params r d Hnet Hok [Hjson Hnull] Hid.
    assert (Hnet' : net (tool_entry "start_new_session" w)
                        (fetches (tool_entry "start_new_session" w))
                        (start_request hf project params) = Responds r) by exact Hnet.
    pose proof (start_v2_posts fuel hf project params ctx _ r Hnet') as Hfn.
    rewrite Hok in Hfn. cbn [negb] in Hfn.
    unfold bind at 1, ret at 1 in Hfn. unfold response_json in Hfn. rewrite Hjson in Hfn.
    unfold bind at 1, ret at 1 in Hfn.
    rewrite (bind_return _ _ _ _ _ (get_prop_field d "executionId" _ Hnull)) in Hfn.
    unfold log_info in Hfn. rewrite log_then in Hfn.
    assert (Hthrow : exists w1,
               ServerV2.start_new_session_fn fuel hf project params ctx
                 (tool_entry "start_new_session" w)
               = (Throw (Error "No execution ID received from API"), w1)).
    { rewrite Hfn. destruct (field d "executionId") as [id |].
      - rewrite Hid. unfold throw. eauto.
      - unfold throw. eauto. }
    destruct Hthrow as [w1 Hthrow].
    unfold ServerV2.start_new_session.
    rewrite (wrapper_rethrows _ _ _ _ _ _ _ Hthrow). eauto.
Qed.

(** The service answers the task creation with a 200 and a message in
    place of an identifier. *)
Lemma tools_return_json_text_witness :
  let data := JObj [("message", JStr "quota exceeded")] in
  let w := scripted [Responds (ok_response data)] in
  fst (ServerV2.start_new_session 5 test_headers "demo"
         (ServerV2.mkStartParams "Go to example.com" None true) with_progress w)
  = Throw (Error "No execution ID received from API").
Proof.
  intros data w.
  destruct (tools_return_json_text 5 test_headers "demo" sample_iso with_progress w)
    as (_ & _ & _ & _ & _ & _ & _ & _ & _ & Hmissing).
  destruct (Hmissing (ServerV2.mkStartParams "Go to example.com" None true)
              (ok_response data) data eq_refl eq_refl
              ltac:(split; [reflexivity | discriminate]) eq_refl) as [w' Hrun].
  now rewrite Hrun.
Defined.
